(** * Figma -> documentation sync: webhook receiver and sync script

    A shallow embedding of the two programs of the repository:

    - the webhook receiver ([verifyFigmaWebhook], [handler],
      [triggerGitHubAction]), and
    - the sync script [scripts/pull-figma-and-update-docs.mjs]
      ([transformVariablesToTokens], [fetchDesignTokens], [fetchScreenshots],
      [updateComponentPages], [updateComponentPage], [updateDocumentation],
      [main]).

    JavaScript strings are modelled by [string], read as the UTF-8 bytes of
    the text.  Exceptions are an explicit result type, and the outside world
    (network, file system, console, clock) is an explicit state that the
    functions thread through a small state-and-exception monad. *)

From Stdlib Require Import ZArith List Ascii String Lia Bool.
From stdpp Require Import gmap strings.
Import ListNotations.

Local Open Scope string_scope.
Local Open Scope Z_scope.
Local Open Scope list_scope.

(* ===================================================================== *)
(** * Strings *)
(* ===================================================================== *)

Module Str.

(** [String.prototype.toLowerCase], on the ASCII letters. *)
Definition lower_ascii (c : ascii) : ascii :=
  let n := nat_of_ascii c in
  if ((65 <=? n) && (n <=? 90))%nat then ascii_of_nat (n + 32) else c.

Fixpoint toLowerCase (s : string) : string :=
  match s with
  | EmptyString => EmptyString
  | String c r => String (lower_ascii c) (toLowerCase r)
  end.

(** [pat] is a prefix of [s] ([s.startsWith(pat)]). *)
Fixpoint startsWith (pat s : string) : bool :=
  match pat, s with
  | EmptyString, _ => true
  | String _ _, EmptyString => false
  | String a p, String b r => if Ascii.eqb a b then startsWith p r else false
  end.

(** [s.includes(pat)]. *)
Fixpoint includes (s pat : string) : bool :=
  if startsWith pat s then true
  else match s with
       | EmptyString => false
       | String _ r => includes r pat
       end.

(** [s.replace(/:/g, '-')]. *)
Fixpoint replace_colons (s : string) : string :=
  match s with
  | EmptyString => EmptyString
  | String c r => String (if Ascii.eqb c ":" then "-"%char else c) (replace_colons r)
  end.

(** The text after the first [n] bytes. *)
Fixpoint drop (n : nat) (s : string) : string :=
  match n, s with
  | O, _ => s
  | S _, EmptyString => EmptyString
  | S m, String _ r => drop m r
  end.

(** [split_at pat s]: the text before the first occurrence of [pat] in [s]
    and the text after that occurrence; [None] when [pat] does not occur. *)
Fixpoint split_at (pat s : string) : option (string * string) :=
  if startsWith pat s then Some (EmptyString, drop (String.length pat) s)
  else match s with
       | EmptyString => None
       | String c r =>
           match split_at pat r with
           | Some (a, b) => Some (String c a, b)
           | None => None
           end
       end.

(** [s.split(sep)] for a one-byte separator: the pieces between the
    separators, never an empty list. *)
Fixpoint split_on (sep : ascii) (s : string) : list string :=
  match s with
  | EmptyString => [EmptyString]
  | String c r =>
      if Ascii.eqb c sep then EmptyString :: split_on sep r
      else match split_on sep r with
           | p :: ps => String c p :: ps
           | [] => [String c EmptyString]
           end
  end.

(** [pieces.join(sep)]. *)
Fixpoint join (sep : string) (pieces : list string) : string :=
  match pieces with
  | [] => EmptyString
  | [p] => p
  | p :: ps => p +:+ sep +:+ join sep ps
  end.

(** [c] is a byte of [s]. *)
Fixpoint has_char (c : ascii) (s : string) : bool :=
  match s with
  | EmptyString => false
  | String a r => Ascii.eqb a c || has_char c r
  end.

(** The replacement text of [str.replace(regexp, replacement)] for a regular
    expression without capture groups: [$$] is a dollar sign, [$&] the
    matched text, [$`] the text before the match, [$'] the text after it; any
    other dollar sign stands for itself. *)
Fixpoint expand_replacement (matched before after replacement : string) : string :=
  match replacement with
  | EmptyString => EmptyString
  | String a rest =>
      if Ascii.eqb a "$" then
        match rest with
        | String c r =>
            if Ascii.eqb c "$" then String "$" (expand_replacement matched before after r)
            else if Ascii.eqb c "&" then matched +:+ expand_replacement matched before after r
            else if Ascii.eqb c "`" then before +:+ expand_replacement matched before after r
            else if Ascii.eqb c "'" then after +:+ expand_replacement matched before after r
            else String a (expand_replacement matched before after rest)
        | EmptyString => String a EmptyString
        end
      else String a (expand_replacement matched before after rest)
  end.

(** [s.replace(/pat/g, replacement)] for a literal [pat] that is not empty:
    every occurrence, left to right, without overlap.  [done] is the text of
    the subject already passed. *)
Fixpoint replace_all_from (fuel : nat) (pat replacement done s : string) : string :=
  match fuel with
  | O => s
  | S f =>
      match split_at pat s with
      | None => s
      | Some (before, after) =>
          before +:+ expand_replacement pat (done +:+ before) after replacement
          +:+ replace_all_from f pat replacement (done +:+ before +:+ pat) after
      end
  end.

Definition replace_all (pat replacement s : string) : string :=
  replace_all_from (S (String.length s)) pat replacement EmptyString s.

(** The number of bytes of the white-space character ([\s]) that [s] starts
    with, 0 when it starts with none: tab, line feed, vertical tab, form feed,
    carriage return, space, and in UTF-8 U+00A0, U+1680, U+2000..U+200A,
    U+2028, U+2029, U+202F, U+205F, U+3000 and U+FEFF. *)
Definition ws1 (a : nat) : bool := ((9 <=? a) && (a <=? 13) || (a =? 32))%nat.
Definition ws2 (a b : nat) : bool := ((a =? 194) && (b =? 160))%nat.
Definition ws3 (a b c : nat) : bool :=
  ((a =? 225) && (b =? 154) && (c =? 128)
   || (a =? 226) && (b =? 128)
      && ((128 <=? c) && (c <=? 138) || (c =? 168) || (c =? 169) || (c =? 175))
   || (a =? 226) && (b =? 129) && (c =? 159)
   || (a =? 227) && (b =? 128) && (c =? 128)
   || (a =? 239) && (b =? 187) && (c =? 191))%nat.

(** The text after the leading white space ([\s*], greedy). *)
Fixpoint skip_ws (s : string) : string :=
  match s with
  | EmptyString => s
  | String a r1 =>
      if ws1 (nat_of_ascii a) then skip_ws r1
      else match r1 with
           | EmptyString => s
           | String b r2 =>
               if ws2 (nat_of_ascii a) (nat_of_ascii b) then skip_ws r2
               else match r2 with
                    | EmptyString => s
                    | String c r3 =>
                        if ws3 (nat_of_ascii a) (nat_of_ascii b) (nat_of_ascii c)
                        then skip_ws r3 else s
                    end
           end
  end.

(** Decimal text of a natural number ([String(n)] for a small integer). *)
Definition digit (n : nat) : ascii := ascii_of_nat (48 + n mod 10).

Fixpoint of_nat_fuel (fuel n : nat) (acc : string) : string :=
  match fuel with
  | O => acc
  | S f =>
      let acc' := String (digit n) acc in
      if (n <? 10)%nat then acc' else of_nat_fuel f (n / 10)%nat acc'
  end.

Definition of_nat (n : nat) : string := of_nat_fuel (S n) n EmptyString.

End Str.

(* ===================================================================== *)
(** * SHA-256 and HMAC (Node's [crypto.createHmac('sha256', key)]) *)
(* ===================================================================== *)

Module Sha256.

Definition w32 (x : Z) : Z := x mod 2 ^ 32.
Definition add32 (x y : Z) : Z := w32 (x + y).
Definition rotr (n x : Z) : Z := w32 (Z.lor (Z.shiftr x n) (Z.shiftl x (32 - n))).
Definition not32 (x : Z) : Z := Z.lxor x 0xffffffff.

Definition Ch (x y z : Z) : Z := Z.lxor (Z.land x y) (Z.land (not32 x) z).
Definition Maj (x y z : Z) : Z :=
  Z.lxor (Z.lxor (Z.land x y) (Z.land x z)) (Z.land y z).
Definition Sigma0 (x : Z) : Z := Z.lxor (Z.lxor (rotr 2 x) (rotr 13 x)) (rotr 22 x).
Definition Sigma1 (x : Z) : Z := Z.lxor (Z.lxor (rotr 6 x) (rotr 11 x)) (rotr 25 x).
Definition sigma0 (x : Z) : Z := Z.lxor (Z.lxor (rotr 7 x) (rotr 18 x)) (Z.shiftr x 3).
Definition sigma1 (x : Z) : Z := Z.lxor (Z.lxor (rotr 17 x) (rotr 19 x)) (Z.shiftr x 10).

(** The first [n] prime numbers among 2, 3, ..., [bound]. *)
Definition is_prime (n : nat) : bool :=
  forallb (fun d => negb (n mod d =? 0)%nat) (seq 2 (n - 2)).

Definition primes (n bound : nat) : list Z :=
  map Z.of_nat (firstn n (List.filter is_prime (seq 2 (bound - 1)))).

(** The integer cube root, bit by bit from bit [bits - 1] down. *)
Fixpoint cube_root (bits : nat) (n acc : Z) : Z :=
  match bits with
  | O => acc
  | S b =>
      let x := acc + 2 ^ Z.of_nat b in
      cube_root b n (if x * x * x <=? n then x else acc)
  end.

(** The round constants: the first 32 bits of the fractional parts of the
    cube roots of the first 64 primes. *)
Definition K : list Z :=
  Eval vm_compute in map (fun p => w32 (cube_root 36 (p * 2 ^ 96) 0)) (primes 64 311).

(** The eight working words. *)
Record state := State {
  ha : Z; hb : Z; hc : Z; hd : Z; he : Z; hf : Z; hg : Z; hh : Z
}.

(** The initial words: the first 32 bits of the fractional parts of the
    square roots of the first 8 primes. *)
Definition H0 : state :=
  Eval vm_compute in
    match map (fun p => w32 (Z.sqrt (p * 2 ^ 64))) (primes 8 19) with
    | [a; b; c; d; e; f; g; h] => State a b c d e f g h
    | _ => State 0 0 0 0 0 0 0 0
    end.

(** Big-endian bytes of a [n]-byte number, and back. *)
Fixpoint be_bytes (n : nat) (x : Z) : list Z :=
  match n with
  | O => []
  | S m => be_bytes m (Z.shiftr x 8) ++ [Z.land x 255]
  end.

Definition be_word (bs : list Z) : Z :=
  fold_left (fun acc b => Z.lor (Z.shiftl acc 8) b) bs 0.

Fixpoint chunks (fuel size : nat) (l : list Z) : list (list Z) :=
  match fuel, l with
  | O, _ => []
  | _, [] => []
  | S f, _ => firstn size l :: chunks f size (skipn size l)
  end.

(** Padding: a 1 bit, zeros up to 56 mod 64 bytes, the bit length on 8 bytes. *)
Definition pad (msg : list Z) : list Z :=
  let n := Z.of_nat (List.length msg) in
  let zeros := Z.to_nat ((55 - n) mod 64) in
  msg ++ [0x80] ++ repeat 0 zeros ++ be_bytes 8 (8 * n).

(** The message schedule: sixteen words of the block, then forty-eight
    derived ones. *)
Fixpoint schedule (n : nat) (w : list Z) : list Z :=
  match n with
  | O => w
  | S m =>
      let i := List.length w in
      let x := add32 (add32 (sigma1 (nth (i - 2) w 0)) (nth (i - 7) w 0))
                     (add32 (sigma0 (nth (i - 15) w 0)) (nth (i - 16) w 0)) in
      schedule m (w ++ [x])
  end.

Definition round (s : state) (kw : Z * Z) : state :=
  let '(k, w) := kw in
  let t1 := add32 (add32 (add32 (hh s) (Sigma1 (he s))) (Ch (he s) (hf s) (hg s)))
                  (add32 k w) in
  let t2 := add32 (Sigma0 (ha s)) (Maj (ha s) (hb s) (hc s)) in
  State (add32 t1 t2) (ha s) (hb s) (hc s) (add32 (hd s) t1) (he s) (hf s) (hg s).

Definition compress (s : state) (block : list Z) : state :=
  let w := schedule 48 (map be_word (chunks 16 4 block)) in
  let r := fold_left round (combine K w) s in
  State (add32 (ha s) (ha r)) (add32 (hb s) (hb r)) (add32 (hc s) (hc r))
        (add32 (hd s) (hd r)) (add32 (he s) (he r)) (add32 (hf s) (hf r))
        (add32 (hg s) (hg r)) (add32 (hh s) (hh r)).

Definition sha256 (msg : list Z) : state :=
  let p := pad msg in
  fold_left compress (chunks (List.length p) 64 p) H0.

Definition words (s : state) : list Z :=
  [ha s; hb s; hc s; hd s; he s; hf s; hg s; hh s].

Definition digest_bytes (s : state) : list Z := flat_map (be_bytes 4) (words s).

(** Lower-case hexadecimal, as [digest('hex')] prints it. *)
Definition hex_digits : list ascii :=
  ["0"; "1"; "2"; "3"; "4"; "5"; "6"; "7"; "8"; "9"; "a"; "b"; "c"; "d"; "e"; "f"]%char.

Definition hex_digit (x : Z) : ascii :=
  nth (Z.to_nat (Z.land x 15)) hex_digits "0"%char.

Definition hex8 (w : Z) (rest : string) : string :=
  String (hex_digit (Z.shiftr w 28)) (String (hex_digit (Z.shiftr w 24))
  (String (hex_digit (Z.shiftr w 20)) (String (hex_digit (Z.shiftr w 16))
  (String (hex_digit (Z.shiftr w 12)) (String (hex_digit (Z.shiftr w 8))
  (String (hex_digit (Z.shiftr w 4)) (String (hex_digit w) rest))))))).

Definition hex (s : state) : string :=
  hex8 (ha s) (hex8 (hb s) (hex8 (hc s) (hex8 (hd s)
  (hex8 (he s) (hex8 (hf s) (hex8 (hg s) (hex8 (hh s) EmptyString))))))).

Fixpoint bytes_of_string (s : string) : list Z :=
  match s with
  | EmptyString => []
  | String c r => Z.of_nat (nat_of_ascii c) :: bytes_of_string r
  end.

(** HMAC (RFC 2104) with SHA-256: block size 64, a longer key is hashed. *)
Definition hmac_key (key : list Z) : list Z :=
  let k := if (64 <? List.length key)%nat then digest_bytes (sha256 key) else key in
  k ++ repeat 0 (64 - List.length k)%nat.

Definition hmac (key msg : list Z) : state :=
  let k := hmac_key key in
  let inner := sha256 (map (Z.lxor 0x36) k ++ msg) in
  sha256 (map (Z.lxor 0x5c) k ++ digest_bytes inner).

End Sha256.

(** [createHmac('sha256', secret).update(payload).digest('hex')]. *)
Definition hmac_sha256_hex (payload secret : string) : string :=
  Sha256.hex (Sha256.hmac (Sha256.bytes_of_string secret) (Sha256.bytes_of_string payload)).


(* ===================================================================== *)
(** * JavaScript values, exceptions and the effect monad *)
(* ===================================================================== *)

(** The outcome of a computation that may throw; [Throw] carries the
    error's message. *)
Inductive Res (A : Type) : Type :=
  | Ok (a : A)
  | Throw (message : string).
Arguments Ok {A} a.
Arguments Throw {A} message.

(** The values [JSON.parse] produces, and [undefined].  A number is carried
    by its canonical decimal text (what [String(n)] prints); an object by its
    own properties in enumeration order, each key once. *)
#[warnings="-register-all"]
Inductive jsval : Type :=
  | JUndefined
  | JNull
  | JBool (b : bool)
  | JNum (repr : string)
  | JStr (s : string)
  | JArr (items : list jsval)
  | JObj (props : list (string * jsval)).

Module Js.

(** [opt] read as a condition: [undefined] and the empty string are falsy. *)
Definition truthy (opt : option string) : option string :=
  match opt with
  | Some s => if String.eqb s "" then None else Some s
  | None => None
  end.

Fixpoint lookup_prop (k : string) (props : list (string * jsval)) : jsval :=
  match props with
  | [] => JUndefined
  | (k', v) :: rest => if String.eqb k k' then v else lookup_prop k rest
  end.

(** [v.k] for a key that is not a built-in property of strings, arrays or
    [Object.prototype]: reading a property of [null] or [undefined] throws. *)
Definition get (v : jsval) (k : string) : Res jsval :=
  match v with
  | JUndefined => Throw ("Cannot read properties of undefined (reading '" +:+ k +:+ "')")
  | JNull => Throw ("Cannot read properties of null (reading '" +:+ k +:+ "')")
  | JObj props => Ok (lookup_prop k props)
  | _ => Ok JUndefined
  end.

(** [v === s] for a string [s]. *)
Definition strict_eq_str (v : jsval) (s : string) : bool :=
  match v with
  | JStr t => String.eqb t s
  | _ => false
  end.

(** String conversion, as a template literal applies it. *)
Fixpoint toString (v : jsval) : string :=
  match v with
  | JUndefined => "undefined"
  | JNull => "null"
  | JBool true => "true"
  | JBool false => "false"
  | JNum r => r
  | JStr s => s
  | JArr items =>
      Str.join "," (map (fun x => match x with
                                  | JUndefined | JNull => ""
                                  | _ => toString x
                                  end) items)
  | JObj _ => "[object Object]"
  end.

Definition hex4 (n : nat) : string :=
  let z := Z.of_nat n in
  String (Sha256.hex_digit (Z.shiftr z 12)) (String (Sha256.hex_digit (Z.shiftr z 8))
  (String (Sha256.hex_digit (Z.shiftr z 4)) (String (Sha256.hex_digit z) ""))).

(** The escapes of [JSON.stringify] inside a string literal. *)
Definition escape_char (c : ascii) : string :=
  let n := nat_of_ascii c in
  if (n =? 34)%nat then String "\" (String c "")
  else if (n =? 92)%nat then "\\"
  else if (n =? 8)%nat then "\b"
  else if (n =? 9)%nat then "\t"
  else if (n =? 10)%nat then "\n"
  else if (n =? 12)%nat then "\f"
  else if (n =? 13)%nat then "\r"
  else if (n <? 32)%nat then "\u" +:+ hex4 n
  else String c "".

Fixpoint escape (s : string) : string :=
  match s with
  | EmptyString => ""
  | String c r => escape_char c +:+ escape r
  end.

Definition quote (s : string) : string :=
  String (ascii_of_nat 34) (escape s) +:+ String (ascii_of_nat 34) "".

(** [JSON.stringify(v)]; [None] is [undefined].  An [undefined] element of an
    array prints as [null], an [undefined] property is left out. *)
Fixpoint stringify (v : jsval) : option string :=
  match v with
  | JUndefined => None
  | JNull => Some "null"
  | JBool true => Some "true"
  | JBool false => Some "false"
  | JNum r => Some r
  | JStr s => Some (quote s)
  | JArr items =>
      Some ("[" +:+ Str.join "," (map (fun x => match stringify x with
                                                | Some t => t
                                                | None => "null"
                                                end) items) +:+ "]")
  | JObj props =>
      Some ("{" +:+ Str.join ","
              (flat_map (fun kv => match stringify (snd kv) with
                                   | Some t => [quote (fst kv) +:+ ":" +:+ t]
                                   | None => []
                                   end) props) +:+ "}")
  end.

End Js.

(** State-and-exception monad: a computation reads and changes the state of
    the outside world and returns or throws. *)
Definition M (St A : Type) : Type := St -> Res A * St.

Definition ret {St A} (a : A) : M St A := fun st => (Ok a, st).

Definition throw {St A} (message : string) : M St A := fun st => (Throw message, st).

Definition bind {St A B} (m : M St A) (k : A -> M St B) : M St B :=
  fun st =>
    match m st with
    | (Ok a, st') => k a st'
    | (Throw e, st') => (Throw e, st')
    end.

(** [try { m } catch (error) { h error }]: effects done before the throw stay. *)
Definition try_catch {St A} (m : M St A) (h : string -> M St A) : M St A :=
  fun st =>
    match m st with
    | (Ok a, st') => (Ok a, st')
    | (Throw e, st') => h e st'
    end.

Definition lift {St A} (r : Res A) : M St A := fun st => (r, st).

(** stdpp's monad notation: [x ← m; k] and [m;; k]. *)
#[global] Instance M_ret {St} : MRet (M St) := fun A a => ret a.
#[global] Instance M_bind {St} : MBind (M St) := fun A B k m => bind m k.


(* ===================================================================== *)
(** * The webhook receiver *)
(* ===================================================================== *)

Module Webhook.

(** [process.env], as far as the receiver reads it. *)
Record Env := {
  FIGMA_WEBHOOK_SECRET : option string;
  GITHUB_TOKEN : option string;
  GITHUB_REPOSITORY : option string
}.

(** An outgoing [fetch(url, {method, headers, body})]. *)
Record HttpRequest := {
  url : string;
  http_method : string;
  http_headers : list (string * string);
  http_body : option string
}.

(** What [await fetch(...)] gives: a rejection (no response at all) or a
    response with a status and a body text. *)
Inductive FetchResult :=
  | NetworkError (message : string)
  | Response (status : nat) (text : string).

(** [response.ok]: the status is in the range 200..299. *)
Definition ok (status : nat) : bool := ((200 <=? status) && (status <=? 299))%nat.

(** What the receiver does not control: its environment, the forge's answer
    to each request, and the clock ([new Date().toISOString()]). *)
Record World := {
  env : Env;
  fetch : HttpRequest -> FetchResult;
  now_iso : string
}.

Inductive Level := Log | Error.

(** What a run leaves behind: the requests it sent, oldest first, and the
    console lines, each with its level, its text and the value printed
    after the text. *)
Record Effects := {
  sent : list HttpRequest;
  console : list (Level * string * option jsval)
}.

Definition no_effects : Effects := {| sent := []; console := [] |}.

Definition console_log (text : string) (v : option jsval) : M Effects unit :=
  fun st => (Ok tt, {| sent := sent st; console := console st ++ [(Log, text, v)] |}).

Definition console_error (text : string) (v : option jsval) : M Effects unit :=
  fun st => (Ok tt, {| sent := sent st; console := console st ++ [(Error, text, v)] |}).

(** [await fetch(...)]: the request is sent, then the world answers. *)
Definition do_fetch (w : World) (rq : HttpRequest) : M Effects (nat * string) :=
  fun st =>
    let st' := {| sent := sent st ++ [rq]; console := console st |} in
    match fetch w rq with
    | NetworkError e => (Throw e, st')
    | Response status text => (Ok (status, text), st')
    end.

(** The incoming request: [req.method], [req.body] (already parsed by the
    platform; [JUndefined] when there is none) and [req.headers]. *)
Record Request := {
  method : string;
  body : jsval;
  headers : list (string * string)
}.

Fixpoint header (name : string) (hs : list (string * string)) : option string :=
  match hs with
  | [] => None
  | (k, v) :: rest => if String.eqb k name then Some v else header name rest
  end.

(** [res.status(code).json(value)]. *)
Record Reply := {
  status : nat;
  json : jsval
}.

(** [hmac.update(payload)] throws on [undefined]; the comparison is [===], so
    an absent signature equals no digest. *)
Definition verifyFigmaWebhook (payload : option string) (signature : option string)
    (secret : string) : Res bool :=
  match payload with
  | None => Throw "The data argument must be of type string. Received undefined"
  | Some p =>
      let expectedSignature := hmac_sha256_hex p secret in
      Ok (match signature with
          | Some s => String.eqb s expectedSignature
          | None => false
          end)
  end.

Definition dispatch_url (owner : string) (repo : option string) : string :=
  "https://api.github.com/repos/" +:+ owner +:+ "/" +:+
  match repo with Some r => r | None => "undefined" end +:+ "/dispatches".

Definition triggerGitHubAction (w : World) (figmaEvent : jsval) : M Effects unit :=
  let githubToken := GITHUB_TOKEN (env w) in
  let githubRepo := GITHUB_REPOSITORY (env w) in
  match Js.truthy githubToken, Js.truthy githubRepo with
  | Some token, Some repository =>
      let parts := Str.split_on "/" repository in
      let owner := nth 0 parts "" in
      let repo := nth_error parts 1 in
      event_type ← lift (Js.get figmaEvent "event_type");
      file_name ← lift (Js.get figmaEvent "file_name");
      file_key ← lift (Js.get figmaEvent "file_key");
      let timestamp := now_iso w in
      triggered_by ← lift (Js.get figmaEvent "triggered_by");
      let dispatchPayload :=
        JObj [("event_type", JStr "figma-update");
              ("client_payload",
               JObj [("event_type", event_type);
                     ("file_name", file_name);
                     ("file_key", file_key);
                     ("timestamp", JStr timestamp);
                     ("triggered_by", triggered_by)])] in
      response ← do_fetch w {|
        url := dispatch_url owner repo;
        http_method := "POST";
        http_headers := [("Authorization", "token " +:+ token);
                         ("Accept", "application/vnd.github.v3+json");
                         ("Content-Type", "application/json")];
        http_body := Js.stringify dispatchPayload |};
      if negb (ok response.1) then
        throw ("GitHub API error: " +:+ Str.of_nat response.1 +:+ " " +:+ response.2)
      else
        console_log "Successfully triggered GitHub Action for Figma update" None
  | _, _ => throw "Missing GitHub configuration"
  end.

Definition handler (w : World) (req : Request) : M Effects Reply :=
  if String.eqb (method req) "OPTIONS" then
    mret {| status := 200; json := JObj [("message", JStr "OK")] |}
  else if negb (String.eqb (method req) "POST") then
    mret {| status := 405; json := JObj [("error", JStr "Method not allowed")] |}
  else
    try_catch
      (let payload := Js.stringify (body req) in
       let signature := header "x-figma-signature" (headers req) in
       let webhookSecret := FIGMA_WEBHOOK_SECRET (env w) in
       invalid ← match Js.truthy webhookSecret with
                 | Some secret =>
                     valid ← lift (verifyFigmaWebhook payload signature secret);
                     mret (negb valid)
                 | None => mret false
                 end;
       if invalid : bool then
         console_error "Invalid webhook signature" None;;
         mret {| status := 401; json := JObj [("error", JStr "Invalid signature")] |}
       else
         let event := body req in
         console_log "Received Figma webhook:" (Some event);;
         event_type ← lift (Js.get event "event_type");
         if Js.strict_eq_str event_type "FILE_UPDATE" then
           triggerGitHubAction w event;;
           mret {| status := 200;
                   json := JObj [("message", JStr "Webhook processed successfully");
                                 ("triggered", JBool true)] |}
         else
           mret {| status := 200;
                   json := JObj [("message", JStr "Event ignored");
                                 ("event_type", event_type)] |})
      (fun error =>
         console_error "Webhook processing error:" (Some (JStr error));;
         mret {| status := 500; json := JObj [("error", JStr "Internal server error")] |}).

End Webhook.

(* ===================================================================== *)
(** * The sync script *)
(* ===================================================================== *)

Definition dq : string := String (ascii_of_nat 34) "".
Definition nl : string := String (ascii_of_nat 10) "".

(** [JSON.stringify(v, null, 2)]. *)
Fixpoint stringify_indent (depth : nat) (v : jsval) : option string :=
  let pad := Str.join "" (repeat "  " (S depth)) in
  let close := Str.join "" (repeat "  " depth) in
  match v with
  | JArr items =>
      match items with
      | [] => Some "[]"
      | _ =>
          Some ("[" +:+ nl +:+
                Str.join ("," +:+ nl)
                  (map (fun x => pad +:+ match stringify_indent (S depth) x with
                                         | Some t => t
                                         | None => "null"
                                         end) items)
                +:+ nl +:+ close +:+ "]")
      end
  | JObj props =>
      match flat_map (fun kv => match stringify_indent (S depth) (snd kv) with
                                | Some t => [pad +:+ Js.quote (fst kv) +:+ ": " +:+ t]
                                | None => []
                                end) props with
      | [] => Some "{}"
      | printed => Some ("{" +:+ nl +:+ Str.join ("," +:+ nl) printed
                         +:+ nl +:+ close +:+ "}")
      end
  | _ => Js.stringify v
  end.

(** ** The data of the design API *)

Module Collection.
Record t := { id : string; name : string; defaultModeId : string }.
End Collection.

Module DesignVariable.
Record t := {
  name : string;
  variableCollectionId : string;
  valuesByMode : list (string * jsval)
}.
End DesignVariable.

(** [figmaData.meta]: each of the two tables may be absent; a table is given
    by its values, in the order of [Object.values]. *)
Record Meta := {
  variableCollections : option (list Collection.t);
  variables : option (list DesignVariable.t)
}.

Record FigmaData := { meta : option Meta }.

Record Token := { value : jsval; type : string }.

(** ** Objects used as dictionaries

    An object in the order [Object.entries] lists it: the keys that are array
    indices first, by value, then the other keys in the order they were
    added. *)
Module Dict.

Definition is_digit (c : ascii) : bool :=
  let n := nat_of_ascii c in ((48 <=? n) && (n <=? 57))%nat.

Fixpoint digits_value (s : string) (acc : N) : option N :=
  match s with
  | EmptyString => Some acc
  | String c r =>
      if is_digit c then digits_value r (10 * acc + N.of_nat (nat_of_ascii c - 48))%N
      else None
  end.

(** The array index a key stands for: a canonical decimal numeral below
    2^32 - 1. *)
Definition array_index (k : string) : option N :=
  match k with
  | EmptyString => None
  | String "0" EmptyString => Some 0%N
  | String "0" _ => None
  | _ =>
      if (String.length k <=? 10)%nat then
        match digits_value k 0%N with
        | Some n => if (n <? 4294967295)%N then Some n else None
        | None => None
        end
      else None
  end.

Fixpoint has_key {A} (k : string) (d : list (string * A)) : bool :=
  match d with
  | [] => false
  | (k', _) :: rest => String.eqb k k' || has_key k rest
  end.

Fixpoint update {A} (k : string) (v : A) (d : list (string * A)) : list (string * A) :=
  match d with
  | [] => []
  | (k', v') :: rest =>
      if String.eqb k k' then (k', v) :: rest else (k', v') :: update k v rest
  end.

(** A new index key goes before the first larger index and before every
    other key. *)
Fixpoint insert_index {A} (n : N) (k : string) (v : A) (d : list (string * A))
  : list (string * A) :=
  match d with
  | [] => [(k, v)]
  | (k', v') :: rest =>
      match array_index k' with
      | Some n' => if (n' <? n)%N then (k', v') :: insert_index n k v rest
                   else (k, v) :: d
      | None => (k, v) :: d
      end
  end.

(** [d[k] = v]. *)
Definition set {A} (k : string) (v : A) (d : list (string * A)) : list (string * A) :=
  if has_key k d then update k v d
  else match array_index k with
       | Some n => insert_index n k v d
       | None => d ++ [(k, v)]
       end.

Fixpoint get {A} (k : string) (d : list (string * A)) : option A :=
  match d with
  | [] => None
  | (k', v) :: rest => if String.eqb k k' then Some v else get k rest
  end.

End Dict.

Module Sync.

(** The token document: [$lastSync] is the field [lastSync]. *)
Record Tokens := {
  colors : list (string * Token);
  typography : list (string * Token);
  spacing : list (string * Token);
  lastSync : string
}.

(** A screenshot record. *)
Record Screenshot := {
  nodeId : string;
  safeNodeId : string;
  filename : string;
  path : string
}.

(** The module constants, read from the environment when the script starts. *)
Record Config := {
  FIGMA_TOKEN : string;
  FIGMA_FILE_KEY : string;
  GITHUB_REPOSITORY : string;
  FIGMA_NODE_IDS : option string
}.

Record Env := {
  env_FIGMA_TOKEN : option string;
  env_FIGMA_FILE_KEY : option string;
  env_GITHUB_REPOSITORY : option string;
  env_FIGMA_NODE_IDS : option string
}.

Record HttpRequest := {
  url : string;
  req_headers : list (string * string)
}.

(** The body of a response as [response.json()] reads it. *)
Inductive Payload :=
  | PVariables (data : FigmaData)
  | PImages (images : option (list (string * option string))).

(** A response: [json] is [None] when the body is not JSON, [buffer] is the
    raw body. *)
Record Response := {
  status : nat;
  statusText : string;
  json : option Payload;
  buffer : string
}.

Inductive FetchResult :=
  | NetworkError (message : string)
  | Responded (response : Response).

Definition ok (r : Response) : bool :=
  ((200 <=? status r) && (status r <=? 299))%nat.

(** One reading of the clock, in the two formats the script prints. *)
Record Instant := {
  toISOString : string;
  toLocaleString : string
}.

(** What the script does not control: the answers of the network, the
    successive readings of the clock, and whether the file system accepts to
    create a directory or to write a file. *)
Record World := {
  fetch : HttpRequest -> FetchResult;
  clock : nat -> Instant;
  mkdir_ok : string -> bool;
  write_ok : string -> bool
}.

Inductive Level := Log | Error.

(** The state a run changes: the files by path, the number of clock
    readings so far, the console, the requests sent and the files written,
    oldest first. *)
Record State := {
  files : gmap string string;
  ticks : nat;
  console : list (Level * string);
  requests : list HttpRequest;
  writes : list (string * string)
}.

Definition console_log (text : string) : M State unit :=
  fun st => (Ok tt, {| files := files st; ticks := ticks st;
                       console := console st ++ [(Log, text)];
                       requests := requests st; writes := writes st |}).

Definition console_error (text : string) : M State unit :=
  fun st => (Ok tt, {| files := files st; ticks := ticks st;
                       console := console st ++ [(Error, text)];
                       requests := requests st; writes := writes st |}).

(** [new Date()]. *)
Definition new_Date (w : World) : M State Instant :=
  fun st => (Ok (clock w (ticks st)),
             {| files := files st; ticks := S (ticks st); console := console st;
                requests := requests st; writes := writes st |}).

(** [await fetch(url, {headers})]. *)
Definition do_fetch (w : World) (rq : HttpRequest) : M State Response :=
  fun st =>
    let st' := {| files := files st; ticks := ticks st; console := console st;
                  requests := requests st ++ [rq]; writes := writes st |} in
    match fetch w rq with
    | NetworkError e => (Throw e, st')
    | Responded r => (Ok r, st')
    end.

(** [await response.json()]. *)
Definition response_json (r : Response) : M State Payload :=
  match json r with
  | Some p => mret p
  | None => throw "invalid json response body"
  end.

(** [await fs.readFile(p, 'utf-8')]. *)
Definition readFile (p : string) : M State string :=
  fun st =>
    match files st !! p with
    | Some content => (Ok content, st)
    | None => (Throw ("ENOENT: no such file or directory, open '" +:+ p +:+ "'"), st)
    end.

(** [await fs.writeFile(p, content)]. *)
Definition writeFile (w : World) (p content : string) : M State unit :=
  fun st =>
    if write_ok w p then
      (Ok tt, {| files := <[p := content]> (files st); ticks := ticks st;
                 console := console st; requests := requests st;
                 writes := writes st ++ [(p, content)] |})
    else (Throw ("EACCES: permission denied, open '" +:+ p +:+ "'"), st).

(** [await fs.mkdir(p, {recursive: true})]. *)
Definition mkdir (w : World) (p : string) : M State unit :=
  fun st =>
    if mkdir_ok w p then (Ok tt, st)
    else (Throw ("EACCES: permission denied, mkdir '" +:+ p +:+ "'"), st).

Definition FIGMA_API : string := "https://api.figma.com/v1".

Definition headers (cfg : Config) : list (string * string) :=
  [("X-Figma-Token", FIGMA_TOKEN cfg); ("Content-Type", "application/json")].

(** The body of the inner loop of [transformVariablesToTokens]: one variable
    seen from one collection. *)
Definition add_variable (collection : Collection.t) (tokens : Tokens)
    (variable : DesignVariable.t) : Tokens :=
  if String.eqb (DesignVariable.variableCollectionId variable) (Collection.id collection) then
    let tokenValue :=
      Js.lookup_prop (Collection.defaultModeId collection)
                     (DesignVariable.valuesByMode variable) in
    let vname := Str.toLowerCase (DesignVariable.name variable) in
    let cname := Str.toLowerCase (Collection.name collection) in
    if Str.includes vname "color" || Str.includes cname "color" then
      {| colors := Dict.set (DesignVariable.name variable)
                     {| value := tokenValue; type := "color" |} (colors tokens);
         typography := typography tokens;
         spacing := spacing tokens;
         lastSync := lastSync tokens |}
    else if Str.includes vname "spacing" || Str.includes cname "spacing" then
      {| colors := colors tokens;
         typography := typography tokens;
         spacing := Dict.set (DesignVariable.name variable)
                      {| value := JStr (Js.toString tokenValue +:+ "px");
                         type := "dimension" |} (spacing tokens);
         lastSync := lastSync tokens |}
    else if Str.includes vname "font" || Str.includes cname "typography" then
      {| colors := colors tokens;
         typography := Dict.set (DesignVariable.name variable)
                         {| value := tokenValue; type := "fontFamily" |} (typography tokens);
         spacing := spacing tokens;
         lastSync := lastSync tokens |}
    else tokens
  else tokens.

(** The body of the outer loop: one collection. *)
Definition add_collection (figmaMeta : Meta) (tokens : Tokens)
    (collection : Collection.t) : Tokens :=
  match variables figmaMeta with
  | Some vs => fold_left (add_variable collection) vs tokens
  | None => tokens
  end.

(** [now] is the reading [new Date().toISOString()] the function starts with. *)
Definition transformVariablesToTokens (now : string) (figmaData : FigmaData) : Tokens :=
  let tokens := {| colors := []; typography := []; spacing := []; lastSync := now |} in
  match meta figmaData with
  | Some m =>
      match variableCollections m with
      | Some cs => fold_left (add_collection m) cs tokens
      | None => tokens
      end
  | None => tokens
  end.

Definition token_json (entry : string * Token) : string * jsval :=
  (fst entry, JObj [("value", value (snd entry)); ("type", JStr (type (snd entry)))]).

Definition tokens_json (tokens : Tokens) : jsval :=
  JObj [("colors", JObj (map token_json (colors tokens)));
        ("typography", JObj (map token_json (typography tokens)));
        ("spacing", JObj (map token_json (spacing tokens)));
        ("$lastSync", JStr (lastSync tokens))].

Definition as_figma_data (p : Payload) : FigmaData :=
  match p with
  | PVariables d => d
  | PImages _ => {| meta := None |}
  end.

Definition as_images (p : Payload) : option (list (string * option string)) :=
  match p with
  | PImages images => images
  | PVariables _ => None
  end.

Definition tokens_request (cfg : Config) : HttpRequest :=
  {| url := FIGMA_API +:+ "/files/" +:+ FIGMA_FILE_KEY cfg +:+ "/variables/local";
     req_headers := headers cfg |}.

Definition fetchDesignTokens (w : World) (cfg : Config) : M State (option Tokens) :=
  console_log "📦 Fetching design tokens...";;
  try_catch
    (response ← do_fetch w (tokens_request cfg);
     if negb (ok response) then
       throw ("Figma API error: " +:+ Str.of_nat (status response) +:+ " "
              +:+ statusText response)
     else
       data ← response_json response;
       now ← new_Date w;
       let tokens := transformVariablesToTokens (toISOString now) (as_figma_data data) in
       writeFile w "tokens/_data/tokens.json"
         (default "" (stringify_indent 0 (tokens_json tokens)));;
       console_log "✅ Design tokens updated";;
       mret (Some tokens))
    (fun error =>
       console_error ("❌ Failed to fetch design tokens: " +:+ error);;
       mret None).

Definition images_request (cfg : Config) (nodeIds : list string) : HttpRequest :=
  {| url := FIGMA_API +:+ "/images/" +:+ FIGMA_FILE_KEY cfg +:+ "?ids="
            +:+ Str.join "," nodeIds +:+ "&format=png&scale=2";
     req_headers := headers cfg |}.

(** The response is not checked; its body is written as it is. *)
Definition downloadImage (w : World) (url filepath : string) : M State unit :=
  response ← do_fetch w {| url := url; req_headers := [] |};
  writeFile w filepath (buffer response).

Definition screenshot_filename (nodeId : string) : string :=
  "figma-" +:+ Str.replace_colons nodeId +:+ ".png".

Definition screenshot_record (cfg : Config) (nodeId : string) : Screenshot :=
  {| nodeId := nodeId;
     safeNodeId := Str.replace_colons nodeId;
     filename := screenshot_filename nodeId;
     path := "https://raw.githubusercontent.com/" +:+ GITHUB_REPOSITORY cfg
             +:+ "/main/public/images/" +:+ screenshot_filename nodeId |}.

(** The loop over [Object.entries(images)]; [downloadedImages] is the array
    being filled. *)
Fixpoint download_each (w : World) (cfg : Config)
    (entries : list (string * option string)) (downloadedImages : list Screenshot)
  : M State (list Screenshot) :=
  match entries with
  | [] => mret downloadedImages
  | (nodeId, imageUrl) :: rest =>
      match Js.truthy imageUrl with
      | Some imageUrl =>
          downloadImage w imageUrl ("public/images/" +:+ screenshot_filename nodeId);;
          console_log ("✅ Downloaded screenshot for node " +:+ nodeId +:+ " as "
                       +:+ screenshot_filename nodeId);;
          download_each w cfg rest (downloadedImages ++ [screenshot_record cfg nodeId])
      | None => download_each w cfg rest downloadedImages
      end
  end.

Definition fetchScreenshots (w : World) (cfg : Config) : M State (list Screenshot) :=
  console_log "📸 Fetching screenshots...";;
  let nodeIds := match FIGMA_NODE_IDS cfg with
                 | Some ids => Str.split_on "," ids
                 | None => []
                 end in
  if (List.length nodeIds =? 0)%nat then
    console_log "⚠️  No node IDs specified. Set FIGMA_NODE_IDS env var with comma-separated node IDs";;
    mret []
  else
    try_catch
      (response ← do_fetch w (images_request cfg nodeIds);
       if negb (ok response) then
         throw ("Figma API error: " +:+ Str.of_nat (status response) +:+ " "
                +:+ statusText response)
       else
         payload ← response_json response;
         match as_images payload with
         | None => throw "Cannot convert undefined or null to object"
         | Some images =>
             downloadedImages ← download_each w cfg images [];
             console_log "✅ Screenshots updated";;
             mret downloadedImages
         end)
      (fun error =>
         console_error ("❌ Failed to fetch screenshots: " +:+ error);;
         mret []).

(** ** Component pages *)

Definition in_alerts (img : Screenshot) : bool :=
  Str.includes (Str.toLowerCase (nodeId img)) "alert"
  || Str.includes (nodeId img) "22123:476643".

Definition in_forms (img : Screenshot) : bool :=
  Str.includes (Str.toLowerCase (nodeId img)) "form"
  || Str.includes (Str.toLowerCase (nodeId img)) "input"
  || Str.includes (Str.toLowerCase (nodeId img)) "field".

Definition in_cards (img : Screenshot) : bool :=
  Str.includes (Str.toLowerCase (nodeId img)) "card".

Definition in_other (img : Screenshot) : bool :=
  negb (Str.includes (Str.toLowerCase (nodeId img)) "alert")
  && negb (Str.includes (nodeId img) "22123:476643")
  && negb (Str.includes (Str.toLowerCase (nodeId img)) "form")
  && negb (Str.includes (Str.toLowerCase (nodeId img)) "input")
  && negb (Str.includes (Str.toLowerCase (nodeId img)) "field")
  && negb (Str.includes (Str.toLowerCase (nodeId img)) "card").

Definition componentGroups (screenshots : list Screenshot)
  : list (string * list Screenshot) :=
  [("alerts", List.filter in_alerts screenshots);
   ("forms", List.filter in_forms screenshots);
   ("cards", List.filter in_cards screenshots);
   ("other", List.filter in_other screenshots)].

(** One entry of the screenshots section. *)
Definition screenshot_entry (img : Screenshot) : string :=
  nl +:+ "## " +:+ Str.replace_colons (nodeId img) +:+ nl
  +:+ nl
  +:+ "<img" +:+ nl
  +:+ "  src=" +:+ dq +:+ path img +:+ dq +:+ nl
  +:+ "  alt=" +:+ dq +:+ "Component screenshot for " +:+ nodeId img +:+ dq +:+ nl
  +:+ "  style=" +:+ dq
  +:+ "border: 1px solid #e2e8f0; border-radius: 8px; margin: 16px 0;" +:+ dq +:+ nl
  +:+ "/>" +:+ nl.

Definition section_heading : string := "## Component Screenshots".

(** The replacement text of the section. *)
Definition section_replacement (timestamp screenshotsSection : string) : string :=
  section_heading +:+ nl
  +:+ nl
  +:+ "<Note>" +:+ nl
  +:+ "  Last updated: " +:+ timestamp +:+ nl
  +:+ "</Note>" +:+ nl
  +:+ nl
  +:+ screenshotsSection +:+ nl
  +:+ nl.

(** [content.replace(/## Component Screenshots[\s\S]*?(?=##|$)/, replacement)]:
    the first heading, with the shortest text after it that is followed by
    [##] or by the end of the content. *)
Definition replace_section (replacement content : string) : string :=
  match Str.split_at section_heading content with
  | None => content
  | Some (before, rest) =>
      let '(middle, after) :=
        match Str.split_at "##" rest with
        | Some (m, a) => (m, "##" +:+ a)
        | None => (rest, "")
        end in
      before
      +:+ Str.expand_replacement (section_heading +:+ middle) before after replacement
      +:+ after
  end.

(** [content.replace(/<Warning>[\s\S]*?<\/Warning>\s*/g, '')]: each opening
    tag with the text up to the first closing tag after it and the white
    space that follows. *)
Fixpoint strip_warnings (fuel : nat) (content : string) : string :=
  match fuel with
  | O => content
  | S f =>
      match Str.split_at "<Warning>" content with
      | None => content
      | Some (before, rest) =>
          match Str.split_at "</Warning>" rest with
          | None => content
          | Some (_, after) => before +:+ strip_warnings f (Str.skip_ws after)
          end
      end
  end.

Definition remove_warnings (content : string) : string :=
  strip_warnings (S (String.length content)) content.

Definition updateComponentPage (w : World) (componentType : string)
    (images : list Screenshot) : M State unit :=
  let filePath := "components/" +:+ componentType +:+ ".mdx" in
  try_catch
    (content ← readFile filePath;
     let screenshotsSection := Str.join nl (map screenshot_entry images) in
     now ← new_Date w;
     let timestamp := toLocaleString now in
     let content := replace_section (section_replacement timestamp screenshotsSection) content in
     let content := remove_warnings content in
     writeFile w filePath content;;
     console_log ("✅ Updated " +:+ componentType +:+ " page with "
                  +:+ Str.of_nat (List.length images) +:+ " screenshots"))
    (fun error =>
       console_error ("❌ Failed to update " +:+ componentType +:+ " page: " +:+ error)).

(** The loop over [Object.entries(componentGroups)]. *)
Fixpoint update_groups (w : World) (groups : list (string * list Screenshot))
  : M State unit :=
  match groups with
  | [] => mret tt
  | (componentType, images) :: rest =>
      if String.eqb componentType "other" || (List.length images =? 0)%nat then
        update_groups w rest
      else
        updateComponentPage w componentType images;;
        update_groups w rest
  end.

Definition updateComponentPages (w : World) (screenshots : list Screenshot)
  : M State unit :=
  console_log "📝 Updating component pages...";;
  if (List.length screenshots =? 0)%nat then
    console_log "⚠️  No screenshots to update component pages with"
  else
    update_groups w (componentGroups screenshots).

(** ** Token pages *)

Definition front_matter (title description : string) : string :=
  "---" +:+ nl
  +:+ "title: " +:+ dq +:+ title +:+ dq +:+ nl
  +:+ "description: " +:+ dq +:+ description +:+ dq +:+ nl
  +:+ "---" +:+ nl.

Definition token_entry (entry : string * Token) : string :=
  nl +:+ "## " +:+ fst entry +:+ nl
  +:+ "- **Value**: `" +:+ Js.toString (value (snd entry)) +:+ "`" +:+ nl
  +:+ "- **Type**: " +:+ type (snd entry) +:+ nl.

Definition color_entry (entry : string * Token) : string :=
  token_entry entry
  +:+ "<div style=" +:+ dq +:+ "background-color: " +:+ Js.toString (value (snd entry))
  +:+ "; width: 100px; height: 50px; border: 1px solid #ccc;" +:+ dq +:+ "></div>" +:+ nl.

Definition token_page (title description heading timestamp body : string) : string :=
  front_matter title description
  +:+ nl
  +:+ "# " +:+ heading +:+ nl
  +:+ nl
  +:+ "<Note>Last synced: " +:+ timestamp +:+ "</Note>" +:+ nl
  +:+ nl
  +:+ body +:+ nl.

Definition generateColorsPage (w : World) (colors : list (string * Token)) : M State string :=
  now ← new_Date w;
  mret (token_page "Colors" "Design system color tokens synced from Figma"
          "Color Tokens" (toLocaleString now) (Str.join nl (map color_entry colors))).

Definition generateSpacingPage (w : World) (spacing : list (string * Token)) : M State string :=
  now ← new_Date w;
  mret (token_page "Spacing" "Design system spacing tokens synced from Figma"
          "Spacing Tokens" (toLocaleString now) (Str.join nl (map token_entry spacing))).

Definition generateTypographyPage (w : World) (typography : list (string * Token))
  : M State string :=
  now ← new_Date w;
  mret (token_page "Typography" "Design system typography tokens synced from Figma"
          "Typography Tokens" (toLocaleString now) (Str.join nl (map token_entry typography))).

Definition updateTokensPages (w : World) (tokens : Tokens) : M State unit :=
  colorsContent ← generateColorsPage w (colors tokens);
  writeFile w "tokens/colors.mdx" colorsContent;;
  spacingContent ← generateSpacingPage w (spacing tokens);
  writeFile w "tokens/spacing.mdx" spacingContent;;
  typographyContent ← generateTypographyPage w (typography tokens);
  writeFile w "tokens/typography.mdx" typographyContent.

(** ** The documentation updater and the orchestrator *)

Definition updateDocumentation (w : World) (tokens : option Tokens)
    (screenshots : list Screenshot) : M State unit :=
  console_log "📝 Updating documentation...";;
  try_catch
    (let introPath := "introduction.mdx" in
     introContent ← readFile introPath;
     now ← new_Date w;
     let timestamp := toLocaleString now in
     let introContent :=
       Str.replace_all "Last sync: [AUTO-GENERATED]" ("Last sync: " +:+ timestamp)
                       introContent in
     writeFile w introPath introContent;;
     match tokens with
     | Some tokens => updateTokensPages w tokens
     | None => mret tt
     end;;
     (if (0 <? List.length screenshots)%nat then updateComponentPages w screenshots
      else mret tt);;
     console_log "✅ Documentation updated")
    (fun error => console_error ("❌ Failed to update documentation: " +:+ error)).

(** [main] gives the exit code of the process: 0 when it runs to its end,
    1 on [process.exit(1)]. *)
Definition main (w : World) (cfg : Config) : M State nat :=
  try_catch
    (mkdir w "tokens/_data";;
     mkdir w "public/images";;
     mkdir w "components";;
     tokens ← fetchDesignTokens w cfg;
     screenshots ← fetchScreenshots w cfg;
     updateDocumentation w tokens screenshots;;
     console_log "🎉 Figma sync completed successfully!";;
     mret 0%nat)
    (fun error =>
       console_error ("💥 Sync failed: " +:+ error);;
       mret 1%nat).

(** The script from its first line: the check of the environment, then
    [main]. *)
Definition script (w : World) (e : Env) : M State nat :=
  match Js.truthy (env_FIGMA_TOKEN e), Js.truthy (env_FIGMA_FILE_KEY e) with
  | Some token, Some key =>
      console_log "🎨 Starting Figma sync...";;
      main w {| FIGMA_TOKEN := token;
                FIGMA_FILE_KEY := key;
                GITHUB_REPOSITORY := default "hellojulian/mintlify"
                                       (Js.truthy (env_GITHUB_REPOSITORY e));
                FIGMA_NODE_IDS := env_FIGMA_NODE_IDS e |}
  | _, _ =>
      console_error "❌ Missing required environment variables:";;
      console_error "   FIGMA_TOKEN - Your Figma API token";;
      console_error "   FIGMA_FILE_KEY - Your Figma file key from the URL";;
      mret 1%nat
  end.

End Sync.

(* ===================================================================== *)
(** * Vocabulary of the statements *)
(* ===================================================================== *)

(** The receiver accepts the signature of a request: no secret is
    configured, or the header carries the digest of the serialized body. *)
Definition signature_accepted (w : Webhook.World) (req : Webhook.Request) : Prop :=
  match Js.truthy (Webhook.FIGMA_WEBHOOK_SECRET (Webhook.env w)) with
  | None => True
  | Some secret =>
      exists payload,
        Js.stringify (Webhook.body req) = Some payload /\
        Webhook.header "x-figma-signature" (Webhook.headers req)
        = Some (hmac_sha256_hex payload secret)
  end.

(** The token and the repository of the forge are configured. *)
Definition forge_configured (w : Webhook.World) (token repository : string) : Prop :=
  Js.truthy (Webhook.GITHUB_TOKEN (Webhook.env w)) = Some token /\
  Js.truthy (Webhook.GITHUB_REPOSITORY (Webhook.env w)) = Some repository.

(** The dispatch endpoint of a configured repository. *)
Definition dispatch_endpoint (repository : string) : string :=
  Webhook.dispatch_url (nth 0 (Str.split_on "/" repository) "")
                       (nth_error (Str.split_on "/" repository) 1).

(** [rq] is a repository-dispatch POST. *)
Definition is_dispatch_post (repository : string) (rq : Webhook.HttpRequest) : Prop :=
  Webhook.http_method rq = "POST" /\ Webhook.url rq = dispatch_endpoint repository.

(** Every strings of [n] hexadecimal digits. *)
Fixpoint all_hex (n : nat) : list string :=
  match n with
  | O => [EmptyString]
  | S m => flat_map (fun c => map (String c) (all_hex m)) Sha256.hex_digits
  end.

(** [n] copies of the letter a: pairwise distinct bodies. *)
Fixpoint body_of_size (n : nat) : string :=
  match n with
  | O => EmptyString
  | S m => String "a" (body_of_size m)
  end.

(** The token or the repository of the forge is absent. *)
Definition config_absent (w : Webhook.World) : Prop :=
  Js.truthy (Webhook.GITHUB_TOKEN (Webhook.env w)) = None \/
  Js.truthy (Webhook.GITHUB_REPOSITORY (Webhook.env w)) = None.

(** [v] is [null] or [undefined]. *)
Definition nullish (v : jsval) : Prop := v = JNull \/ v = JUndefined.

(** The effects [st] with one more request sent. *)
Definition after_request (st : Webhook.Effects) (rq : Webhook.HttpRequest) : Webhook.Effects :=
  {| Webhook.sent := Webhook.sent st ++ [rq]; Webhook.console := Webhook.console st |}.

(** The group of [componentGroups] under a name. *)
Definition group_of (name : string) (screenshots : list Sync.Screenshot)
  : list Sync.Screenshot :=
  default [] (Dict.get name (Sync.componentGroups screenshots)).

(** The entries of the images table that have a URL. *)
Definition with_url (entries : list (string * option string)) : list (string * string) :=
  flat_map (fun entry => match Js.truthy (snd entry) with
                         | Some u => [(fst entry, u)]
                         | None => []
                         end) entries.

(** Where the screenshot of a node is written. *)
Definition screenshot_path (nodeId : string) : string :=
  "public/images/" +:+ Sync.screenshot_filename nodeId.

(** What a download of [u] writes: the body of the answer. *)
Definition image_bytes (w : Sync.World) (u : string) : string :=
  match Sync.fetch w {| Sync.url := u; Sync.req_headers := [] |} with
  | Sync.Responded r => Sync.buffer r
  | Sync.NetworkError _ => ""
  end.

(** The download of [u] to the file of [nodeId] goes through. *)
Definition download_succeeds (w : Sync.World) (entry : string * string) : Prop :=
  (exists r, Sync.fetch w {| Sync.url := snd entry; Sync.req_headers := [] |}
             = Sync.Responded r)
  /\ Sync.write_ok w (screenshot_path (fst entry)) = true.

(** ** Token classification *)

Inductive Category := Colors | Spacing | Typography.

(** The category [add_variable] files a variable of a collection under: its
    chain of tests, first match first. *)
Definition category (c : Collection.t) (v : DesignVariable.t) : option Category :=
  let vname := Str.toLowerCase (DesignVariable.name v) in
  let cname := Str.toLowerCase (Collection.name c) in
  if Str.includes vname "color" || Str.includes cname "color" then Some Colors
  else if Str.includes vname "spacing" || Str.includes cname "spacing" then Some Spacing
  else if Str.includes vname "font" || Str.includes cname "typography" then Some Typography
  else None.

(** The category as the specification words it: the variable's name or its
    collection's name contains color, then spacing, then font or
    typography. *)
Definition spec_category (c : Collection.t) (v : DesignVariable.t) : option Category :=
  let vname := Str.toLowerCase (DesignVariable.name v) in
  let cname := Str.toLowerCase (Collection.name c) in
  let mentions word := Str.includes vname word || Str.includes cname word in
  if mentions "color" then Some Colors
  else if mentions "spacing" then Some Spacing
  else if mentions "font" || mentions "typography" then Some Typography
  else None.

(** The variable is one of the collection. *)
Definition belongs (v : DesignVariable.t) (c : Collection.t) : Prop :=
  DesignVariable.variableCollectionId v = Collection.id c.

Definition dict_of (cat : Category) (tokens : Sync.Tokens) : list (string * Token) :=
  match cat with
  | Colors => Sync.colors tokens
  | Spacing => Sync.spacing tokens
  | Typography => Sync.typography tokens
  end.

(** The token a variable gives in a category: its value in the default mode
    of the collection, with the unit px in the category spacing. *)
Definition token_of (cat : Category) (c : Collection.t) (v : DesignVariable.t) : Token :=
  let tokenValue :=
    Js.lookup_prop (Collection.defaultModeId c) (DesignVariable.valuesByMode v) in
  match cat with
  | Colors => {| value := tokenValue; type := "color" |}
  | Spacing => {| value := JStr (Js.toString tokenValue +:+ "px"); type := "dimension" |}
  | Typography => {| value := tokenValue; type := "fontFamily" |}
  end.

(** ** Frames of the sync script *)

(** From [st] to [st'] only files whose path satisfies [P] were written:
    the writes added are to such paths, and every other path holds what it
    held. *)
Definition touches_only (P : string -> bool) (st st' : Sync.State) : Prop :=
  (exists ws, Sync.writes st' = Sync.writes st ++ ws
              /\ Forall (fun pc => P (fst pc) = true) ws)
  /\ (forall p, P p = false -> Sync.files st' !! p = Sync.files st !! p).

(** A computation that writes only to paths satisfying [P]. *)
Definition writes_within (P : string -> bool) {A : Type} (m : M Sync.State A) : Prop :=
  forall st r st', m st = (r, st') -> touches_only P st st'.

(** A computation that always returns. *)
Definition never_throws {A : Type} (m : M Sync.State A) : Prop :=
  forall st, exists a st', m st = (Ok a, st').

Definition images_dir (p : string) : bool := Str.startsWith "public/images/" p.

(** The paths the documentation updater writes to when it is given no token
    document. *)
Definition pages_without_tokens (p : string) : bool :=
  String.eqb p "introduction.mdx" || Str.startsWith "components/" p.

(** The paths a run writes to when the token fetch fails. *)
Definition paths_without_tokens (p : string) : bool :=
  images_dir p || pages_without_tokens p.

(** The token document and the three pages made from it. *)
Definition token_paths : list string :=
  ["tokens/_data/tokens.json"; "tokens/colors.mdx"; "tokens/spacing.mdx";
   "tokens/typography.mdx"].

(** The state [st] with one more console line. *)
Definition logged (st : Sync.State) (line : Sync.Level * string) : Sync.State :=
  {| Sync.files := Sync.files st; Sync.ticks := Sync.ticks st;
     Sync.console := Sync.console st ++ [line];
     Sync.requests := Sync.requests st; Sync.writes := Sync.writes st |}.

(** The three directories [main] creates can be created. *)
Definition directories_ok (w : Sync.World) : Prop :=
  Sync.mkdir_ok w "tokens/_data" = true
  /\ Sync.mkdir_ok w "public/images" = true
  /\ Sync.mkdir_ok w "components" = true.

(** The number of places of [s] where [pat] starts. *)
Fixpoint occurrences (pat s : string) : nat :=
  (if Str.startsWith pat s then 1 else 0)
  + match s with
    | EmptyString => 0
    | String _ r => occurrences pat r
    end.

(** ** Texts with a time stamp *)

(** A text with at most one hole: [hole oB t] is what follows the fixed
    beginning, the stamp [t] and then [B], or nothing at all. *)
Definition hole (oB : option string) (t : string) : string :=
  match oB with
  | Some B => t +:+ B
  | None => ""
  end.

(** A stamp that contains neither a dollar sign nor an opening angle
    bracket (as the texts of [toLocaleString] are). *)
Definition plain (t : string) : Prop :=
  Str.has_char "$" t = false /\ Str.has_char "<" t = false.

(** ** Two runs of the documentation updater under two clocks *)

(** Two texts that are the same byte for byte, except that where the one
    has the [n]-th reading of the first clock the other has the [n]-th
    reading of the second. *)
Inductive same_but_stamps (c1 c2 : nat -> Sync.Instant) : string -> string -> Prop :=
  | sbs_end : same_but_stamps c1 c2 "" ""
  | sbs_byte (c : ascii) (a b : string) :
      same_but_stamps c1 c2 a b -> same_but_stamps c1 c2 (String c a) (String c b)
  | sbs_stamp (n : nat) (a b : string) :
      same_but_stamps c1 c2 a b ->
      same_but_stamps c1 c2 (Sync.toLocaleString (c1 n) +:+ a)
                            (Sync.toLocaleString (c2 n) +:+ b).

(** The same files exist on both sides, with the same content but for the
    stamps. *)
Definition files_agree (c1 c2 : nat -> Sync.Instant) (f1 f2 : gmap string string) : Prop :=
  forall p,
    match f1 !! p, f2 !! p with
    | Some a, Some b => same_but_stamps c1 c2 a b
    | None, None => True
    | _, _ => False
    end.

(** Two states of two runs that went the same way: same clock position,
    console, requests and written paths; the files agree, and those outside
    [dirty] are still identical. *)
Definition states_agree (c1 c2 : nat -> Sync.Instant) (dirty : list string)
    (st1 st2 : Sync.State) : Prop :=
  Sync.ticks st1 = Sync.ticks st2
  /\ Sync.console st1 = Sync.console st2
  /\ Sync.requests st1 = Sync.requests st2
  /\ map fst (Sync.writes st1) = map fst (Sync.writes st2)
  /\ (forall p, ~ In p dirty -> Sync.files st1 !! p = Sync.files st2 !! p)
  /\ files_agree c1 c2 (Sync.files st1) (Sync.files st2).

Definition results_agree {A : Type} (RA : A -> A -> Prop) (r1 r2 : Res A) : Prop :=
  match r1, r2 with
  | Ok a1, Ok a2 => RA a1 a2
  | Throw e1, Throw e2 => e1 = e2
  | _, _ => False
  end.

(** Two computations that, from agreeing states, end in agreeing states
    with agreeing results. *)
Definition runs_agree (c1 c2 : nat -> Sync.Instant) {A : Type} (RA : A -> A -> Prop)
    (dirty dirty' : list string) (m1 m2 : M Sync.State A) : Prop :=
  forall st1 st2,
    states_agree c1 c2 dirty st1 st2 ->
    states_agree c1 c2 dirty' (snd (m1 st1)) (snd (m2 st2))
    /\ results_agree RA (fst (m1 st1)) (fst (m2 st2)).

(** The relation that holds of any two results. *)
Definition anything {A : Type} (_ _ : A) : Prop := True.

(** The same reading of the two clocks. *)
Definition same_reading (c1 c2 : nat -> Sync.Instant) (i1 i2 : Sync.Instant) : Prop :=
  exists n, i1 = c1 n /\ i2 = c2 n.

(** The two worlds: all the same but the clock. *)
Definition world_at (fetch : Sync.HttpRequest -> Sync.FetchResult)
    (mkdir_ok write_ok : string -> bool) (clock : nat -> Sync.Instant) : Sync.World :=
  {| Sync.fetch := fetch; Sync.clock := clock;
     Sync.mkdir_ok := mkdir_ok; Sync.write_ok := write_ok |}.

(** The paths the documentation updater may write to. *)
Definition updater_paths : list string :=
  ["components/cards.mdx"; "components/forms.mdx"; "components/alerts.mdx";
   "tokens/typography.mdx"; "tokens/spacing.mdx"; "tokens/colors.mdx";
   "introduction.mdx"].

(* ===================================================================== *)
(** * Sample data *)
(* ===================================================================== *)

Module Sample.

Definition env : Webhook.Env :=
  {| Webhook.FIGMA_WEBHOOK_SECRET := Some "s3cret";
     Webhook.GITHUB_TOKEN := Some "ghp_0123";
     Webhook.GITHUB_REPOSITORY := Some "hellojulian/documentation" |}.

(** The forge answers every request with 204 No Content. *)
Definition forge_up : Webhook.World :=
  {| Webhook.env := env;
     Webhook.fetch := fun _ => Webhook.Response 204 "";
     Webhook.now_iso := "2026-01-05T02:00:00.000Z" |}.

(** The forge cannot be reached. *)
Definition forge_down : Webhook.World :=
  {| Webhook.env := env;
     Webhook.fetch := fun _ => Webhook.NetworkError "fetch failed";
     Webhook.now_iso := "2026-01-05T02:00:00.000Z" |}.

Definition file_update : jsval :=
  JObj [("event_type", JStr "FILE_UPDATE");
        ("file_name", JStr "Design System");
        ("file_key", JStr "AbC123");
        ("triggered_by", JObj [("id", JStr "42"); ("handle", JStr "julian")])].

Definition file_comment : jsval :=
  JObj [("event_type", JStr "FILE_COMMENT"); ("file_key", JStr "AbC123")].

(** A POST of [event] signed with the secret of [env]. *)
Definition signed_post (event : jsval) : Webhook.Request :=
  {| Webhook.method := "POST";
     Webhook.body := event;
     Webhook.headers :=
       [("content-type", "application/json");
        ("x-figma-signature",
         hmac_sha256_hex (default "" (Js.stringify event)) "s3cret")] |}.

Definition unsigned_post (event : jsval) : Webhook.Request :=
  {| Webhook.method := "POST";
     Webhook.body := event;
     Webhook.headers := [("content-type", "application/json")] |}.

(** The configuration of a sync run. *)
Definition cfg : Sync.Config :=
  {| Sync.FIGMA_TOKEN := "figd_0123";
     Sync.FIGMA_FILE_KEY := "AbC123";
     Sync.GITHUB_REPOSITORY := "hellojulian/mintlify";
     Sync.FIGMA_NODE_IDS := Some "alert:1,12:34,22123:476643" |}.

Definition base_collection : Collection.t :=
  {| Collection.id := "VariableCollectionId:1:2";
     Collection.name := "Base";
     Collection.defaultModeId := "1:0" |}.

Definition variable (name : string) (v : jsval) : DesignVariable.t :=
  {| DesignVariable.name := name;
     DesignVariable.variableCollectionId := "VariableCollectionId:1:2";
     DesignVariable.valuesByMode := [("1:0", v)] |}.

Definition figma_data (vs : list DesignVariable.t) : FigmaData :=
  {| meta := Some {| variableCollections := Some [base_collection];
                     variables := Some vs |} |}.

Definition ids : list string := ["alert:1"; "12:34"; "22123:476643"].

(** The images table: the third node could not be rendered. *)
Definition images : list (string * option string) :=
  [("alert:1", Some "https://figma-alpha-api.s3.amazonaws.com/images/1");
   ("12:34", Some "https://figma-alpha-api.s3.amazonaws.com/images/2");
   ("22123:476643", None)].

Definition tokens_data : FigmaData :=
  figma_data [variable "Primary Color" (JStr "#0055ff");
              variable "Spacing/sm" (JNum "8");
              variable "Font Family" (JStr "Inter");
              variable "Radius/md" (JNum "4")].

(** Two clocks: the [n]-th reading is [n] minutes past 2:10 on a Monday,
    and past 3:10 a week later. *)
Definition clock (n : nat) : Sync.Instant :=
  {| Sync.toISOString := "2026-01-05T02:" +:+ Str.of_nat (10 + n) +:+ ":00.000Z";
     Sync.toLocaleString := "1/5/2026, 2:" +:+ Str.of_nat (10 + n) +:+ ":00 AM" |}.

Definition later_clock (n : nat) : Sync.Instant :=
  {| Sync.toISOString := "2026-01-12T03:" +:+ Str.of_nat (10 + n) +:+ ":00.000Z";
     Sync.toLocaleString := "1/12/2026, 3:" +:+ Str.of_nat (10 + n) +:+ ":00 AM" |}.

(** The answers of the design API: [variables] is the answer to the request
    for the variables; the images table is served, and every image URL
    answers with a body. *)
Definition network (variables : Sync.Response) (rq : Sync.HttpRequest) : Sync.FetchResult :=
  if String.eqb (Sync.url rq) (Sync.url (Sync.tokens_request cfg)) then
    Sync.Responded variables
  else if String.eqb (Sync.url rq) (Sync.url (Sync.images_request cfg ids)) then
    Sync.Responded {| Sync.status := 200; Sync.statusText := "OK";
                      Sync.json := Some (Sync.PImages (Some images));
                      Sync.buffer := "" |}
  else
    Sync.Responded {| Sync.status := 200; Sync.statusText := "OK";
                      Sync.json := None;
                      Sync.buffer := "PNG " +:+ Sync.url rq |}.

Definition forbidden : Sync.Response :=
  {| Sync.status := 403; Sync.statusText := "Forbidden";
     Sync.json := None; Sync.buffer := "" |}.

Definition variables_ok : Sync.Response :=
  {| Sync.status := 200; Sync.statusText := "OK";
     Sync.json := Some (Sync.PVariables tokens_data); Sync.buffer := "" |}.

(** A world where the request for the variables is refused. *)
Definition world : Sync.World :=
  {| Sync.fetch := network forbidden;
     Sync.clock := clock;
     Sync.mkdir_ok := fun _ => true;
     Sync.write_ok := fun _ => true |}.

(** A world where every request is answered. *)
Definition world_ok (c : nat -> Sync.Instant) : Sync.World :=
  {| Sync.fetch := network variables_ok;
     Sync.clock := c;
     Sync.mkdir_ok := fun _ => true;
     Sync.write_ok := fun _ => true |}.

Definition introduction : string :=
  "# Introduction" +:+ nl +:+ nl +:+ "Last sync: [AUTO-GENERATED]" +:+ nl.

Definition alerts_page : string :=
  "# Alerts" +:+ nl +:+ nl
  +:+ "<Warning>" +:+ nl +:+ "  No screenshots yet." +:+ nl +:+ "</Warning>" +:+ nl +:+ nl
  +:+ "## Component Screenshots" +:+ nl +:+ nl
  +:+ "Pending the first sync." +:+ nl +:+ nl
  +:+ "## Usage" +:+ nl +:+ nl
  +:+ "Use alerts sparingly." +:+ nl.

Definition state0 : Sync.State :=
  {| Sync.files := <["introduction.mdx" := introduction]>
                     (<["components/alerts.mdx" := alerts_page]> ∅);
     Sync.ticks := 0;
     Sync.console := [];
     Sync.requests := [];
     Sync.writes := [] |}.

End Sample.

(* ===================================================================== *)
(** * The webhook setup tool *)
(* ===================================================================== *)

(** The command-line tool that lists, creates and deletes the webhooks of the
    design API ([listWebhooks], [createWebhook], [deleteWebhook],
    [getTeamInfo], [main] and the check of the token that precedes them).

    The JSON body of an answer is taken to have the shape the API documents:
    an object (or [null]) of which the tool reads the list of teams and the
    list of webhooks, each element with an [id] that is a string when it is
    present. *)
Module Setup.

(** [process.env], as far as the tool reads it. *)
Record Env := {
  FIGMA_TOKEN : option string;
  FIGMA_WEBHOOK_SECRET : option string;
  FIGMA_FILE_KEY : option string
}.

(** An outgoing [fetch(url, {method, headers, body})]; [http_method] is
    [None] when the call names no method. *)
Record HttpRequest := {
  url : string;
  http_method : option string;
  req_headers : list (string * string);
  http_body : option string
}.

(** An object of a JSON body: [printed] is [JSON.stringify(data, null, 2)];
    [teams] and [webhooks] are [data.teams] and [data.webhooks], [None] when
    the property is absent or [null], and otherwise the [id] of each element
    ([None] for an element without one). *)
Record Document := {
  printed : string;
  teams : option (list (option string));
  webhooks : option (list (option string))
}.

Inductive Body :=
  | Null
  | Doc (data : Document).

(** A response: [text] is what [response.text()] gives and [json] what
    [response.json()] gives, each a value or the message of the error it
    throws. *)
Record Response := {
  status : nat;
  statusText : string;
  text : Res string;
  json : Res Body
}.

Inductive FetchResult :=
  | NetworkError (message : string)
  | Responded (response : Response).

Definition ok (r : Response) : bool :=
  ((200 <=? status r) && (status r <=? 299))%nat.

(** What the tool does not control: its environment, its arguments
    ([process.argv] from index 2 on) and the answers of the network. *)
Record World := {
  env : Env;
  argv : list string;
  fetch : HttpRequest -> FetchResult
}.

(** [Uncaught] is the level of [console.error(error)] for the error a
    rejected [main] carries; the text is its message. *)
Inductive Level := Log | Error | Uncaught.

Record State := {
  console : list (Level * string);
  requests : list HttpRequest
}.

Definition console_log (text : string) : M State unit :=
  fun st => (Ok tt, {| console := console st ++ [(Log, text)]; requests := requests st |}).

Definition console_error (text : string) : M State unit :=
  fun st => (Ok tt, {| console := console st ++ [(Error, text)]; requests := requests st |}).

Definition console_error_object (message : string) : M State unit :=
  fun st => (Ok tt, {| console := console st ++ [(Uncaught, message)];
                       requests := requests st |}).

Definition do_fetch (w : World) (rq : HttpRequest) : M State Response :=
  fun st =>
    let st' := {| console := console st; requests := requests st ++ [rq] |} in
    match fetch w rq with
    | NetworkError e => (Throw e, st')
    | Responded r => (Ok r, st')
    end.

(** [`${id}`] for an [id] that may be [undefined]. *)
Definition show (id : option string) : string :=
  match id with
  | Some s => s
  | None => "undefined"
  end.

(** [JSON.stringify(data, null, 2)]. *)
Definition print (data : Body) : string :=
  match data with
  | Null => "null"
  | Doc d => printed d
  end.

(** [data.webhooks] and [data.teams]: reading a property of [null] throws. *)
Definition get_webhooks (data : Body) : Res (option (list (option string))) :=
  match data with
  | Null => Throw "Cannot read properties of null (reading 'webhooks')"
  | Doc d => Ok (webhooks d)
  end.

Definition get_teams (data : Body) : Res (option (list (option string))) :=
  match data with
  | Null => Throw "Cannot read properties of null (reading 'teams')"
  | Doc d => Ok (teams d)
  end.

Definition headers (token : string) : list (string * string) :=
  [("X-Figma-Token", token); ("Content-Type", "application/json")].

Definition api_error (response : Response) : string :=
  "Figma API error: " +:+ Str.of_nat (status response) +:+ " " +:+ statusText response.

Definition listWebhooks (w : World) (token : string) (teamId : string)
  : M State (list (option string)) :=
  console_log ("📋 Listing existing webhooks for team " +:+ teamId +:+ "...");;
  try_catch
    (response ← do_fetch w {|
       url := "https://api.figma.com/v2/teams/" +:+ teamId +:+ "/webhooks";
       http_method := None;
       req_headers := headers token;
       http_body := None |};
     if negb (ok response) then
       errorText ← lift (text response);
       throw (api_error response +:+ " - " +:+ errorText)
     else
       data ← lift (json response);
       console_log ("Existing webhooks: " +:+ print data);;
       found ← lift (get_webhooks data);
       mret (default [] found))
    (fun error =>
       console_error ("❌ Failed to list webhooks: " +:+ error);;
       mret []).

Definition createWebhook (w : World) (token : string) (endpoint fileKey : string)
  : M State (option Body) :=
  console_log ("🔗 Creating webhook for endpoint: " +:+ endpoint);;
  console_log ("📄 File key: " +:+ fileKey);;
  let webhookPayload :=
    JObj [("event_type", JStr "FILE_UPDATE");
          ("endpoint", JStr endpoint);
          ("passcode", JStr (default "default-secret-123"
                               (Js.truthy (FIGMA_WEBHOOK_SECRET (env w)))))] in
  try_catch
    (response ← do_fetch w {|
       url := "https://api.figma.com/v1/files/" +:+ fileKey +:+ "/webhooks";
       http_method := Some "POST";
       req_headers := headers token;
       http_body := Js.stringify webhookPayload |};
     if negb (ok response) then
       errorText ← lift (text response);
       throw (api_error response +:+ " - " +:+ errorText)
     else
       data ← lift (json response);
       console_log "✅ Webhook created successfully:";;
       console_log (print data);;
       mret (Some data))
    (fun error =>
       console_error ("❌ Failed to create webhook: " +:+ error);;
       mret None).

Definition deleteWebhook (w : World) (token : string) (webhookId : option string)
  : M State bool :=
  console_log ("🗑️  Deleting webhook: " +:+ show webhookId);;
  try_catch
    (response ← do_fetch w {|
       url := "https://api.figma.com/v2/webhooks/" +:+ show webhookId;
       http_method := Some "DELETE";
       req_headers := headers token;
       http_body := None |};
     if negb (ok response) then
       throw (api_error response)
     else
       console_log "✅ Webhook deleted successfully";;
       mret true)
    (fun error =>
       console_error ("❌ Failed to delete webhook: " +:+ error);;
       mret false).

(** The [id] of the first team: [JStr] when it has one, [JUndefined] when it
    has none, [JNull] after a failure. *)
Definition getTeamInfo (w : World) (token : string) : M State jsval :=
  console_log "👥 Getting team information...";;
  try_catch
    (response ← do_fetch w {|
       url := "https://api.figma.com/v1/me";
       http_method := None;
       req_headers := headers token;
       http_body := None |};
     if negb (ok response) then
       throw (api_error response)
     else
       data ← lift (json response);
       console_log ("User info: " +:+ print data);;
       found ← lift (get_teams data);
       match found with
       | Some (first :: _) =>
           mret (match first with
                 | Some id => JStr id
                 | None => JUndefined
                 end)
       | _ => throw "No teams found for this user"
       end)
    (fun error =>
       console_error ("❌ Failed to get team info: " +:+ error);;
       mret JNull).

(** [if (teamId)]: the identifier when it is a string that is not empty. *)
Definition team_of (teamId : jsval) : option string :=
  match teamId with
  | JStr id => Js.truthy (Some id)
  | _ => None
  end.

(** The loop of the cleanup over the webhooks listed. *)
Fixpoint delete_each (w : World) (token : string) (found : list (option string))
  : M State unit :=
  match found with
  | [] => mret tt
  | webhook :: rest =>
      deleteWebhook w token webhook;;
      delete_each w token rest
  end.

Definition usage : M State unit :=
  console_log "Usage:";;
  console_log "  npm run webhook:setup list                     - List existing webhooks";;
  console_log "  npm run webhook:setup create <endpoint-url>    - Create new webhook";;
  console_log "  npm run webhook:setup delete <webhook-id>      - Delete specific webhook";;
  console_log "  npm run webhook:setup cleanup                  - Delete all webhooks";;
  console_log "";;
  console_log "Examples:";;
  console_log "  npm run webhook:setup create https://abc123.ngrok.io/api/figma-webhook";;
  console_log "  npm run webhook:setup create https://mintlify-eight.vercel.app/api/figma-webhook".

(** [command === name], for the [case] labels of the [switch]. *)
Definition is_case (command : option string) (name : string) : bool :=
  match command with
  | Some c => String.eqb c name
  | None => false
  end.

(** [main] gives the exit code of the process: 1 on [process.exit(1)], 0
    when it runs to its end. *)
Definition main (w : World) (token : string) : M State nat :=
  let command := nth_error (argv w) 0 in
  let endpoint := nth_error (argv w) 1 in
  console_log "🎨 Figma Webhook Setup Tool";;
  console_log "===============================";;
  if is_case command "list" then
    teamId ← getTeamInfo w token;
    match team_of teamId with
    | Some id => listWebhooks w token id;; mret 0%nat
    | None => mret 0%nat
    end
  else if is_case command "create" then
    match Js.truthy endpoint with
    | None =>
        console_error "❌ Usage: npm run webhook:setup create <endpoint-url>";;
        console_error "   Example: npm run webhook:setup create https://your-ngrok-url.ngrok.io/api/figma-webhook";;
        mret 1%nat
    | Some endpoint =>
        match Js.truthy (FIGMA_FILE_KEY (env w)) with
        | None =>
            console_error "❌ Missing FIGMA_FILE_KEY environment variable";;
            mret 1%nat
        | Some fileKey =>
            createWebhook w token endpoint fileKey;;
            mret 0%nat
        end
    end
  else if is_case command "delete" then
    match Js.truthy endpoint with
    | None =>
        console_error "❌ Usage: npm run webhook:setup delete <webhook-id>";;
        mret 1%nat
    | Some webhookId =>
        deleteWebhook w token (Some webhookId);;
        mret 0%nat
    end
  else if is_case command "cleanup" then
    cleanupTeamId ← getTeamInfo w token;
    match team_of cleanupTeamId with
    | Some id =>
        found ← listWebhooks w token id;
        delete_each w token found;;
        mret 0%nat
    | None => mret 0%nat
    end
  else
    usage;;
    mret 0%nat.

(** The tool from its first line: the check of the token, then
    [main().catch(console.error)]. *)
Definition script (w : World) : M State nat :=
  match Js.truthy (FIGMA_TOKEN (env w)) with
  | None =>
      console_error "❌ Missing FIGMA_TOKEN environment variable";;
      mret 1%nat
  | Some token =>
      try_catch (main w token)
        (fun error => console_error_object error;; mret 0%nat)
  end.

End Setup.

(* ===================================================================== *)
(** * Further configurations of the two programs *)
(* ===================================================================== *)

(** ** The order of the writes of the token transform *)

(** The pairs of a listed collection and a listed variable, in the order in
    which the two nested loops of [transformVariablesToTokens] visit them:
    collection by collection, and for each collection every variable. *)
Definition visits (data : FigmaData) : list (Collection.t * DesignVariable.t) :=
  match meta data with
  | Some m =>
      match variableCollections m, variables m with
      | Some cs, Some vs => flat_map (fun c => map (pair c) vs) cs
      | _, _ => []
      end
  | None => []
  end.

Definition Category_eqb (a b : Category) : bool :=
  match a, b with
  | Colors, Colors | Spacing, Spacing | Typography, Typography => true
  | _, _ => false
  end.

(** The visit of [cv] writes the name [n] in the category [cat]: the variable
    is one of the collection, has that name, and is classified there. *)
Definition writes_name (cat : Category) (n : string)
    (cv : Collection.t * DesignVariable.t) : bool :=
  String.eqb (DesignVariable.variableCollectionId (snd cv)) (Collection.id (fst cv))
  && String.eqb n (DesignVariable.name (snd cv))
  && match category (fst cv) (snd cv) with
     | Some cat' => Category_eqb cat cat'
     | None => false
     end.

(** The last visit that writes [n] in [cat]. *)
Definition last_write (cat : Category) (n : string) (data : FigmaData)
  : option (Collection.t * DesignVariable.t) :=
  List.find (writes_name cat n) (rev (visits data)).

(** ** What the receiver forwards *)

(** The properties that [JSON.stringify] prints: those whose value is not
    [undefined]. *)
Definition present (props : list (string * jsval)) : list (string * jsval) :=
  List.filter (fun kv => match snd kv with JUndefined => false | _ => true end) props.

(** The client payload of a dispatch for an event with the properties
    [props], at the clock reading [now]: the four fields of the event that it
    has, and the time stamp. *)
Definition forwarded (props : list (string * jsval)) (now : string)
  : list (string * jsval) :=
  present [("event_type", Js.lookup_prop "event_type" props);
           ("file_name", Js.lookup_prop "file_name" props);
           ("file_key", Js.lookup_prop "file_key" props);
           ("timestamp", JStr now);
           ("triggered_by", Js.lookup_prop "triggered_by" props)].

(** ** The requests of the setup tool *)

Definition me_request (token : string) : Setup.HttpRequest :=
  {| Setup.url := "https://api.figma.com/v1/me";
     Setup.http_method := None;
     Setup.req_headers := Setup.headers token;
     Setup.http_body := None |}.

Definition list_request (token teamId : string) : Setup.HttpRequest :=
  {| Setup.url := "https://api.figma.com/v2/teams/" +:+ teamId +:+ "/webhooks";
     Setup.http_method := None;
     Setup.req_headers := Setup.headers token;
     Setup.http_body := None |}.

Definition delete_request (token : string) (webhookId : option string)
  : Setup.HttpRequest :=
  {| Setup.url := "https://api.figma.com/v2/webhooks/" +:+ Setup.show webhookId;
     Setup.http_method := Some "DELETE";
     Setup.req_headers := Setup.headers token;
     Setup.http_body := None |}.

(** The creation request: its body is the JSON text of an object with the
    event type, the endpoint and the passcode, in this order. *)
Definition create_request (token endpoint fileKey passcode : string)
  : Setup.HttpRequest :=
  {| Setup.url := "https://api.figma.com/v1/files/" +:+ fileKey +:+ "/webhooks";
     Setup.http_method := Some "POST";
     Setup.req_headers := Setup.headers token;
     Setup.http_body :=
       Some ("{" +:+ Js.quote "event_type" +:+ ":" +:+ Js.quote "FILE_UPDATE" +:+ ","
             +:+ Js.quote "endpoint" +:+ ":" +:+ Js.quote endpoint +:+ ","
             +:+ Js.quote "passcode" +:+ ":" +:+ Js.quote passcode +:+ "}") |}.

(** The first argument of the tool and the second. *)
Definition command (w : Setup.World) : option string := nth_error (Setup.argv w) 0.
Definition argument (w : Setup.World) : option string :=
  Js.truthy (nth_error (Setup.argv w) 1).

(** The invocations that end with [process.exit(1)]: no token; [create]
    without an endpoint or without a file key; [delete] without an
    identifier. *)
Definition usage_error (w : Setup.World) : Prop :=
  Js.truthy (Setup.FIGMA_TOKEN (Setup.env w)) = None
  \/ (command w = Some "create"
      /\ (argument w = None
          \/ Js.truthy (Setup.FIGMA_FILE_KEY (Setup.env w)) = None))
  \/ (command w = Some "delete" /\ argument w = None).

(** The team the tool works on: the first team of the user information,
    when the request for it is answered in 200..299 with a JSON object whose
    list of teams starts with a team that has an identifier that is not
    empty. *)
Definition first_team (w : Setup.World) (token : string) : option string :=
  match Setup.fetch w (me_request token) with
  | Setup.Responded r =>
      if Setup.ok r then
        match Setup.json r with
        | Ok (Setup.Doc data) =>
            match Setup.teams data with
            | Some (first :: _) => Js.truthy first
            | _ => None
            end
        | _ => None
        end
      else None
  | Setup.NetworkError _ => None
  end.

(** A request of the tool that fits the command: it goes to the design API
    with the token, it is a DELETE only under the commands delete and cleanup
    and a POST only under the command create. *)
Definition fits_command (w : Setup.World) (token : string) (rq : Setup.HttpRequest)
  : Prop :=
  Str.startsWith "https://api.figma.com/" (Setup.url rq) = true
  /\ Setup.req_headers rq
     = [("X-Figma-Token", token); ("Content-Type", "application/json")]
  /\ (Setup.http_method rq = Some "DELETE" ->
      command w = Some "delete" \/ command w = Some "cleanup")
  /\ (Setup.http_method rq = Some "POST" -> command w = Some "create").

(** ** The token pages *)

(** The three token pages of a token document, in the order they are
    written, when the clock has been read [n] times before: each page is
    stamped with its own reading. *)
Definition token_pages (w : Sync.World) (tokens : Sync.Tokens) (n : nat)
  : list (string * string) :=
  [("tokens/colors.mdx",
    Sync.token_page "Colors" "Design system color tokens synced from Figma" "Color Tokens"
      (Sync.toLocaleString (Sync.clock w n))
      (Str.join nl (map Sync.color_entry (Sync.colors tokens))));
   ("tokens/spacing.mdx",
    Sync.token_page "Spacing" "Design system spacing tokens synced from Figma"
      "Spacing Tokens"
      (Sync.toLocaleString (Sync.clock w (S n)))
      (Str.join nl (map Sync.token_entry (Sync.spacing tokens))));
   ("tokens/typography.mdx",
    Sync.token_page "Typography" "Design system typography tokens synced from Figma"
      "Typography Tokens"
      (Sync.toLocaleString (Sync.clock w (S (S n))))
      (Str.join nl (map Sync.token_entry (Sync.typography tokens))))].

(** The number of pages at the head of a list that the file system accepts
    to write. *)
Fixpoint accepted (w : Sync.World) (pages : list (string * string)) : nat :=
  match pages with
  | [] => 0
  | (p, _) :: rest => if Sync.write_ok w p then S (accepted w rest) else 0
  end.

(** ** The last-sync line of the introduction *)

(** The text the documentation updater looks for in the introduction. *)
Definition placeholder : string := "Last sync: [AUTO-GENERATED]".

(** A stamp as [toLocaleString] prints one: not empty, not starting with an
    opening bracket, with no capital L and no dollar sign. *)
Definition stamp_like (t : string) : Prop :=
  t <> "" /\ Str.startsWith "[" t = false
  /\ Str.has_char "L" t = false /\ Str.has_char "$" t = false.

(** The pages made from the tokens and the component pages. *)
Definition generated_pages (p : string) : bool :=
  Str.startsWith "tokens/" p || Str.startsWith "components/" p.

(** The page of a component group. *)
Definition page_of (componentType : string) : string :=
  "components/" +:+ componentType +:+ ".mdx".

Module Cases.

(** A receiver with the environment [e]; the forge answers 204. *)
Definition receiver (e : Webhook.Env) : Webhook.World :=
  {| Webhook.env := e;
     Webhook.fetch := fun _ => Webhook.Response 204 "";
     Webhook.now_iso := "2026-01-05T02:00:00.000Z" |}.

(** No signing secret is configured. *)
Definition open_receiver : Webhook.World :=
  receiver {| Webhook.FIGMA_WEBHOOK_SECRET := None;
              Webhook.GITHUB_TOKEN := Some "ghp_0123";
              Webhook.GITHUB_REPOSITORY := Some "hellojulian/documentation" |}.

(** The repository setting names no owner. *)
Definition bare_repository : Webhook.World :=
  receiver {| Webhook.FIGMA_WEBHOOK_SECRET := None;
              Webhook.GITHUB_TOKEN := Some "ghp_0123";
              Webhook.GITHUB_REPOSITORY := Some "documentation" |}.

(** The forge refuses every request. *)
Definition forge_refuses : Webhook.World :=
  {| Webhook.env := Sample.env;
     Webhook.fetch := fun _ => Webhook.Response 401 "Bad credentials";
     Webhook.now_iso := "2026-01-05T02:00:00.000Z" |}.

(** A page of the cards group that has a warning and no screenshots
    section. *)
Definition cards_page : string :=
  "# Cards" +:+ nl +:+ nl
  +:+ "<Warning>" +:+ nl +:+ "  Draft." +:+ nl +:+ "</Warning>" +:+ nl +:+ nl
  +:+ "Cards group content." +:+ nl.

Definition with_cards : Sync.State :=
  {| Sync.files := <["components/cards.mdx" := cards_page]> (Sync.files Sample.state0);
     Sync.ticks := 0;
     Sync.console := [];
     Sync.requests := [];
     Sync.writes := [] |}.

(** Two modes of one collection give two variables of the same name. *)
Definition twice : FigmaData :=
  Sample.figma_data [Sample.variable "Primary Color" (JStr "#0055ff");
                     Sample.variable "Primary Color" (JStr "#ff5500")].

(** A design API with one team and three webhooks; the second webhook
    cannot be deleted. *)
Definition me_body : Setup.Body :=
  Setup.Doc {| Setup.printed := "{}";
               Setup.teams := Some [Some "T1"; Some "T2"];
               Setup.webhooks := None |}.

Definition hooks_body : Setup.Body :=
  Setup.Doc {| Setup.printed := "{}";
               Setup.teams := None;
               Setup.webhooks := Some [Some "101"; Some "102"; Some "103"] |}.

Definition answer (code : nat) (body : Setup.Body) : Setup.FetchResult :=
  Setup.Responded {| Setup.status := code; Setup.statusText := "";
                     Setup.text := Ok ""; Setup.json := Ok body |}.

Definition design_api (rq : Setup.HttpRequest) : Setup.FetchResult :=
  if String.eqb (Setup.url rq) "https://api.figma.com/v1/me" then answer 200 me_body
  else if String.eqb (Setup.url rq) "https://api.figma.com/v2/teams/T1/webhooks" then
    answer 200 hooks_body
  else if String.eqb (Setup.url rq) "https://api.figma.com/v2/webhooks/102" then
    answer 404 Setup.Null
  else answer 200 Setup.Null.

Definition tool (secret : option string) (args : list string) : Setup.World :=
  {| Setup.env := {| Setup.FIGMA_TOKEN := Some "figd_0123";
                     Setup.FIGMA_WEBHOOK_SECRET := secret;
                     Setup.FIGMA_FILE_KEY := Some "AbC123" |};
     Setup.argv := args;
     Setup.fetch := design_api |}.

Definition quiet : Setup.State := {| Setup.console := []; Setup.requests := [] |}.

(** A file system that refuses to write the spacing page. *)
Definition no_spacing_page : Sync.World :=
  {| Sync.fetch := Sample.network Sample.variables_ok;
     Sync.clock := Sample.clock;
     Sync.mkdir_ok := fun _ => true;
     Sync.write_ok := fun p => negb (String.eqb p "tokens/spacing.mdx") |}.

(** No request gets a response. *)
Definition offline : Sync.World :=
  {| Sync.fetch := fun _ => Sync.NetworkError "fetch failed";
     Sync.clock := Sample.clock;
     Sync.mkdir_ok := fun _ => true;
     Sync.write_ok := fun _ => true |}.

End Cases.
Example sha256_constants :
  nth 0 Sha256.K 0 = 0x428a2f98 /\ nth 63 Sha256.K 0 = 0xc67178f2
  /\ List.length Sha256.K = 64%nat
  /\ Sha256.ha Sha256.H0 = 0x6a09e667 /\ Sha256.hh Sha256.H0 = 0x5be0cd19.
Proof. vm_compute. repeat split. Qed.

Example sha256_abc :
  Sha256.hex (Sha256.sha256 (Sha256.bytes_of_string "abc"))
  = "ba7816bf8f01cfea414140de5dae2223b00361a396177a9cb410ff61f20015ad".
Proof. vm_compute. reflexivity. Qed.

Example hmac_rfc4231_case2 :
  hmac_sha256_hex "what do ya want for nothing?" "Jefe"
  = "5bdcc146bf60754e6a042426089575c75a003f089d2739839dec58b964ec3843".
Proof. vm_compute. reflexivity. Qed.

Example hmac_long_key :
  hmac_sha256_hex "{}" (Str.join "" (repeat "k" 100))
  = "b689e50e5ba4b695d078582251ed84fc1aaacf2dc1dc876a3ad2168121d097c9".
Proof. vm_compute. reflexivity. Qed.

(* ===================================================================== *)
(** * The signature verifier *)
(* ===================================================================== *)

Lemma hex_digit_in (x : Z) : In (Sha256.hex_digit x) Sha256.hex_digits.
Proof.
  unfold Sha256.hex_digit.
  destruct (Nat.lt_ge_cases (Z.to_nat (Z.land x 15)) (List.length Sha256.hex_digits)) as [Hlt | Hge].
  - apply nth_In. exact Hlt.
  - rewrite nth_overflow by exact Hge. left. reflexivity.
Qed.

Lemma all_hex_cons (n : nat) (c : ascii) (s : string) :
  In c Sha256.hex_digits -> In s (all_hex n) -> In (String c s) (all_hex (S n)).
Proof.
  intros Hc Hs.
  change (all_hex (S n))
    with (flat_map (fun c => map (String c) (all_hex n)) Sha256.hex_digits).
  apply in_flat_map. exists c. split; [exact Hc |].
  apply in_map. exact Hs.
Qed.

Lemma all_hex_nil : In EmptyString (all_hex 0).
Proof. left. reflexivity. Qed.

(** Every digest is one of the finitely many strings of 64 hexadecimal
    digits. *)
Lemma hex_in_all_hex (s : Sha256.state) : In (Sha256.hex s) (all_hex 64).
Proof.
  unfold Sha256.hex, Sha256.hex8.
  repeat (apply all_hex_cons; [apply hex_digit_in |]).
  apply all_hex_nil.
Qed.

Lemma body_of_size_length (n : nat) : String.length (body_of_size n) = n.
Proof. induction n as [| n IH]; simpl; [reflexivity | now rewrite IH]. Qed.

(** No function from the natural numbers into a finite list is injective. *)
Lemma no_injection_into_list {A : Type} (f : nat -> A) (l : list A) :
  (forall n, In (f n) l) -> (forall i j, f i = f j -> i = j) -> False.
Proof.
  intros Hin Hinj.
  assert (Hnd : List.NoDup (map f (seq 0 (S (List.length l))))).
  { apply Finite.Injective_map_NoDup; [exact Hinj | apply seq_NoDup]. }
  assert (Hincl : incl (map f (seq 0 (S (List.length l)))) l).
  { intros x Hx. apply in_map_iff in Hx as (n & <- & _). apply Hin. }
  pose proof (List.NoDup_incl_length Hnd Hincl) as Hlen.
  rewrite length_map, length_seq in Hlen. lia.
Qed.

Lemma verifyFigmaWebhook_eq (payload signature secret : string) :
  Webhook.verifyFigmaWebhook (Some payload) (Some signature) secret
  = Ok (String.eqb signature (hmac_sha256_hex payload secret)).
Proof. reflexivity. Qed.




(* ===================================================================== *)
(** * The webhook receiver *)
(* ===================================================================== *)

Ltac run_monad :=
  unfold mbind, mret, M_bind, M_ret, bind, ret, throw, lift, try_catch,
    Webhook.console_log, Webhook.console_error, Webhook.do_fetch in *.

(** C10: an OPTIONS request is answered 200 with the message OK, and a
    request that is neither POST nor OPTIONS is answered 405 with an error
    object; in both cases whatever the body, the headers, the environment
    and the network are, and without any effect. *)
Theorem handler_method_gate (w : Webhook.World) (req : Webhook.Request)
    (st : Webhook.Effects) :
  (Webhook.method req = "OPTIONS" ->
   Webhook.handler w req st
   = (Ok {| Webhook.status := 200; Webhook.json := JObj [("message", JStr "OK")] |}, st))
  /\ (Webhook.method req <> "OPTIONS" -> Webhook.method req <> "POST" ->
      Webhook.handler w req st
      = (Ok {| Webhook.status := 405;
               Webhook.json := JObj [("error", JStr "Method not allowed")] |}, st)).
Proof.
  unfold Webhook.handler. split.
  - intros ->. reflexivity.
  - intros Hopt Hpost.
    destruct (String.eqb_spec (Webhook.method req) "OPTIONS") as [? | _]; [contradiction |].
    destruct (String.eqb_spec (Webhook.method req) "POST") as [? | _]; [contradiction |].
    reflexivity.
Qed.


(** A POST without a body (nothing to serialize) under a configured secret
    is answered 500, whatever its signature; nothing is sent. *)
Lemma handler_undefined_body (w : Webhook.World) (req : Webhook.Request)
    (st : Webhook.Effects) (secret : string) :
  Webhook.method req = "POST" ->
  Js.truthy (Webhook.FIGMA_WEBHOOK_SECRET (Webhook.env w)) = Some secret ->
  Webhook.body req = JUndefined ->
  exists st',
    Webhook.handler w req st
    = (Ok {| Webhook.status := 500;
             Webhook.json := JObj [("error", JStr "Internal server error")] |}, st')
    /\ Webhook.sent st' = Webhook.sent st.
Proof.
  intros Hm Hs Hb. unfold Webhook.handler. rewrite Hm. simpl.
  rewrite Hs, Hb. run_monad. simpl. eexists. split; reflexivity.
Qed.

(** ** The dispatch forwarder *)

Lemma triggerGitHubAction_config_absent (w : Webhook.World) (ev : jsval)
    (st : Webhook.Effects) :
  config_absent w ->
  Webhook.triggerGitHubAction w ev st = (Throw "Missing GitHub configuration", st).
Proof.
  unfold config_absent, Webhook.triggerGitHubAction. intros [H | H]; rewrite H.
  - reflexivity.
  - destruct (Js.truthy (Webhook.GITHUB_TOKEN _)); reflexivity.
Qed.

Lemma triggerGitHubAction_nullish (w : Webhook.World) (ev : jsval)
    (st : Webhook.Effects) (token repository : string) :
  forge_configured w token repository -> nullish ev ->
  exists e, Webhook.triggerGitHubAction w ev st = (Throw e, st).
Proof.
  unfold forge_configured, nullish, Webhook.triggerGitHubAction.
  intros [-> ->] [-> | ->]; run_monad; simpl; eexists; reflexivity.
Qed.

(** With the configuration present and an event that is an object (or any
    value but [null] and [undefined]), one dispatch POST is sent and the
    answer decides. *)
Lemma triggerGitHubAction_sends (w : Webhook.World) (ev : jsval)
    (st : Webhook.Effects) (token repository : string) :
  forge_configured w token repository -> ~ nullish ev ->
  exists rq,
    is_dispatch_post repository rq /\
    Webhook.triggerGitHubAction w ev st
    = match Webhook.fetch w rq with
      | Webhook.NetworkError e => (Throw e, after_request st rq)
      | Webhook.Response s t =>
          if Webhook.ok s then
            (Ok tt,
             {| Webhook.sent := Webhook.sent st ++ [rq];
                Webhook.console :=
                  Webhook.console st
                  ++ [(Webhook.Log, "Successfully triggered GitHub Action for Figma update",
                       None)] |})
          else (Throw ("GitHub API error: " +:+ Str.of_nat s +:+ " " +:+ t),
                after_request st rq)
      end.
Proof.
  unfold forge_configured, nullish, Webhook.triggerGitHubAction.
  intros [-> ->] Hev.
  destruct ev; try (exfalso; apply Hev; auto; fail);
    run_monad; cbn [Js.get];
    match goal with |- context [Webhook.fetch w ?r] => exists r end;
    (split; [split; reflexivity |]);
    destruct (Webhook.fetch w _) as [e | code text]; try reflexivity;
    cbn [fst snd]; destruct (Webhook.ok code); reflexivity.
Qed.

(** C7, as the code has it: the forwarder raises exactly when the
    configuration is absent or the event is [null] or [undefined] (both
    before any request is sent), or the one dispatch POST gets no response
    or a response outside 200..299 (raised with the status and the body);
    otherwise it returns after exactly one dispatch POST; it never sends a
    second request. *)
Theorem triggerGitHubAction_raises_iff (w : Webhook.World) (ev : jsval)
    (st st' : Webhook.Effects) (r : Res unit) :
  Webhook.triggerGitHubAction w ev st = (r, st') ->
  (Webhook.sent st' = Webhook.sent st
   \/ exists rq, Webhook.sent st' = Webhook.sent st ++ [rq]
                 /\ Webhook.http_method rq = "POST")
  /\ ((exists e, r = Throw e)
      <-> config_absent w \/ nullish ev
          \/ exists rq, Webhook.sent st' = Webhook.sent st ++ [rq]
                        /\ ((exists e, Webhook.fetch w rq = Webhook.NetworkError e)
                            \/ exists s t, Webhook.fetch w rq = Webhook.Response s t
                                           /\ Webhook.ok s = false))
  /\ (config_absent w -> r = Throw "Missing GitHub configuration" /\ st' = st)
  /\ (nullish ev -> Webhook.sent st' = Webhook.sent st)
  /\ (forall rq s t,
        Webhook.sent st' = Webhook.sent st ++ [rq] ->
        Webhook.fetch w rq = Webhook.Response s t -> Webhook.ok s = false ->
        r = Throw ("GitHub API error: " +:+ Str.of_nat s +:+ " " +:+ t))
  /\ (r = Ok tt ->
      exists rq s t, Webhook.sent st' = Webhook.sent st ++ [rq]
                     /\ Webhook.http_method rq = "POST"
                     /\ Webhook.fetch w rq = Webhook.Response s t /\ Webhook.ok s = true).
Proof.
  intros Hrun.
  assert (Hself : forall l (x : Webhook.HttpRequest), l ++ [x] <> l).
  { intros l x H. apply (f_equal (@List.length _)) in H.
    rewrite length_app in H. simpl in H. lia. }
  match goal with
  | |- ?G =>
      assert (Hnone : forall e,
                 (config_absent w \/ nullish ev) ->
                 (config_absent w -> e = "Missing GitHub configuration") ->
                 r = Throw e -> st' = st -> G)
  end.
  2: { destruct (Js.truthy (Webhook.GITHUB_TOKEN (Webhook.env w))) as [token |] eqn:Ht;
         [destruct (Js.truthy (Webhook.GITHUB_REPOSITORY (Webhook.env w)))
            as [repository |] eqn:Hr |].
       2, 3: assert (Habs : config_absent w) by (unfold config_absent; auto);
             rewrite (triggerGitHubAction_config_absent w ev st Habs) in Hrun;
             injection Hrun as <- <-;
             apply (Hnone "Missing GitHub configuration" (or_introl Habs)); auto.
       assert (Hcfg : forge_configured w token repository) by (split; assumption).
       assert (Hpresent : ~ config_absent w).
       { unfold config_absent. rewrite Ht, Hr. intros [? | ?]; discriminate. }
       assert (Hnull_dec : nullish ev \/ ~ nullish ev).
       { unfold nullish. destruct ev; auto; right; intros [? | ?]; discriminate. }
       destruct Hnull_dec as [Hnull | Hobj].
       { destruct (triggerGitHubAction_nullish w ev st token repository Hcfg Hnull)
           as [e He].
         rewrite He in Hrun. injection Hrun as <- <-.
         apply (Hnone e (or_intror Hnull)); auto. intros; contradiction. }
       destruct (triggerGitHubAction_sends w ev st token repository Hcfg Hobj)
         as (rq & [Hpost Hurl] & Heq).
       rewrite Heq in Hrun. clear Heq.
       assert (Hrq : forall rq', Webhook.sent st ++ [rq] = Webhook.sent st ++ [rq'] -> rq' = rq).
       { intros rq' H. apply app_inj_tail in H. destruct H as [_ H]. congruence. }
       assert (Hsent : Webhook.sent st' = Webhook.sent st ++ [rq]).
       { destruct (Webhook.fetch w rq) as [e | s t];
           [| destruct (Webhook.ok s)]; injection Hrun as _ <-; reflexivity. }
       split; [right; exists rq; auto |].
       split; [| split; [intros; contradiction |
                split; [intros; contradiction | rewrite Hsent; split]]].
       - split.
         + intros [e ->]. right; right. exists rq. split; [exact Hsent |].
           destruct (Webhook.fetch w rq) as [e' | s t]; [left; eauto |].
           right. exists s, t. split; [reflexivity |].
           destruct (Webhook.ok s); [discriminate Hrun | reflexivity].
         + intros [? | [? | (rq' & H & Hbad)]]; try contradiction.
           rewrite Hsent in H. apply Hrq in H. subst rq'.
           destruct Hbad as [[e He] | (s & t & Hf & Hok)]; rewrite ?He, ?Hf, ?Hok in Hrun;
             injection Hrun as <- _; eauto.
       - intros rq' s t H Hf Hok. apply Hrq in H. subst rq'.
         rewrite Hf, Hok in Hrun. injection Hrun as <- _. reflexivity.
       - intros ->. exists rq.
         destruct (Webhook.fetch w rq) as [e' | s t]; [discriminate Hrun |].
         exists s, t. repeat split; auto.
         destruct (Webhook.ok s); [reflexivity | discriminate Hrun]. }
  intros e Hcause Hmsg -> ->.
  split; [left; reflexivity |].
  split; [split; [intros _; tauto | eauto] |].
  split; [intros Habs; rewrite (Hmsg Habs); auto |].
  split; [reflexivity |].
  split; [intros rq s t H; symmetry in H; now apply Hself in H |].
  discriminate.
Qed.

Lemma get_ok_not_nullish (v x : jsval) (k : string) : Js.get v k = Ok x -> ~ nullish v.
Proof. intros H [-> | ->]; discriminate. Qed.

Lemma strict_eq_str_false (v : jsval) (s : string) :
  v <> JStr s -> Js.strict_eq_str v s = false.
Proof.
  intros H. destruct v; try reflexivity. simpl.
  destruct (String.eqb_spec s0 s) as [-> | _]; [now elim H | reflexivity].
Qed.

(** What the receiver does with a POST once the signature is accepted. *)
Lemma handler_accepted (w : Webhook.World) (req : Webhook.Request) (st : Webhook.Effects) :
  Webhook.method req = "POST" -> signature_accepted w req ->
  Webhook.handler w req st
  = try_catch
      (Webhook.console_log "Received Figma webhook:" (Some (Webhook.body req));;
       event_type ← lift (Js.get (Webhook.body req) "event_type");
       if Js.strict_eq_str event_type "FILE_UPDATE" then
         Webhook.triggerGitHubAction w (Webhook.body req);;
         mret {| Webhook.status := 200;
                 Webhook.json := JObj [("message", JStr "Webhook processed successfully");
                                       ("triggered", JBool true)] |}
       else
         mret {| Webhook.status := 200;
                 Webhook.json := JObj [("message", JStr "Event ignored");
                                       ("event_type", event_type)] |})
      (fun error =>
         Webhook.console_error "Webhook processing error:" (Some (JStr error));;
         mret {| Webhook.status := 500;
                 Webhook.json := JObj [("error", JStr "Internal server error")] |})
      st.
Proof.
  intros Hm Hsig. unfold Webhook.handler, signature_accepted in *. rewrite Hm. simpl.
  destruct (Js.truthy (Webhook.FIGMA_WEBHOOK_SECRET (Webhook.env w))) as [secret |].
  - destruct Hsig as (payload & -> & ->).
    unfold try_catch, mbind, M_bind, bind at 1 2, lift at 1.
    rewrite verifyFigmaWebhook_eq, String.eqb_refl. reflexivity.
  - reflexivity.
Qed.


(** ** The statements at sample requests *)

Example stringify_file_comment :
  Js.stringify Sample.file_comment
  = Some (String.concat dq ["{"; "event_type"; ":"; "FILE_COMMENT"; ","; "file_key"; ":";
                            "AbC123"; "}"]).
Proof. vm_compute. reflexivity. Qed.

Lemma sample_signature_accepted (event : jsval) (payload : string) :
  Js.stringify event = Some payload ->
  signature_accepted Sample.forge_up (Sample.signed_post event).
Proof.
  intros H. unfold signature_accepted. cbn -[hmac_sha256_hex Js.stringify].
  exists payload. rewrite H. split; reflexivity.
Qed.

Lemma handler_method_gate_witness :
  Webhook.handler Sample.forge_down
    {| Webhook.method := "OPTIONS"; Webhook.body := JUndefined; Webhook.headers := [] |}
    Webhook.no_effects
  = (Ok {| Webhook.status := 200; Webhook.json := JObj [("message", JStr "OK")] |},
     Webhook.no_effects)
  /\ Webhook.handler Sample.forge_up
       {| Webhook.method := "GET"; Webhook.body := Sample.file_update;
          Webhook.headers := [] |}
       Webhook.no_effects
     = (Ok {| Webhook.status := 405;
              Webhook.json := JObj [("error", JStr "Method not allowed")] |},
        Webhook.no_effects).
Proof.
  split.
  - apply (proj1 (handler_method_gate _ _ _)). reflexivity.
  - apply (proj2 (handler_method_gate _ _ _)); discriminate.
Defined.



Lemma triggerGitHubAction_raises_iff_witness :
  exists rq s t,
    Webhook.sent (snd (Webhook.triggerGitHubAction Sample.forge_up Sample.file_update
                         Webhook.no_effects))
    = Webhook.sent Webhook.no_effects ++ [rq]
    /\ Webhook.http_method rq = "POST"
    /\ Webhook.fetch Sample.forge_up rq = Webhook.Response s t
    /\ Webhook.ok s = true.
Proof.
  apply (triggerGitHubAction_raises_iff Sample.forge_up Sample.file_update
           Webhook.no_effects
           (snd (Webhook.triggerGitHubAction Sample.forge_up Sample.file_update
                   Webhook.no_effects))
           (Ok tt)).
  - vm_compute. reflexivity.
  - reflexivity.
Defined.

(** C7, as stated, fails: with the configuration present, the forwarder also
    raises when the dispatch POST gets no response at all, although no
    response outside 200..299 was returned. *)
Lemma triggerGitHubAction_raises_without_response :
  ~ (forall w ev st r st',
       Webhook.triggerGitHubAction w ev st = (r, st') ->
       ((exists e, r = Throw e)
        <-> config_absent w
            \/ exists rq s t, In rq (Webhook.sent st')
                              /\ Webhook.fetch w rq = Webhook.Response s t
                              /\ Webhook.ok s = false)).
Proof.
  intros H.
  specialize (H Sample.forge_down Sample.file_update Webhook.no_effects
                (Throw "fetch failed")
                (snd (Webhook.triggerGitHubAction Sample.forge_down Sample.file_update
                        Webhook.no_effects))).
  destruct H as [H _]; [vm_compute; reflexivity |].
  destruct H as [[Ht | Hr] | (rq & s & t & _ & Hf & _)].
  - eexists. reflexivity.
  - discriminate Ht.
  - discriminate Hr.
  - discriminate Hf.
Qed.

Example forge_down_handler_500 :
  exists st',
    Webhook.handler Sample.forge_down (Sample.signed_post Sample.file_update)
      Webhook.no_effects
    = (Ok {| Webhook.status := 500;
             Webhook.json := JObj [("error", JStr "Internal server error")] |}, st')
    /\ List.length (Webhook.sent st') = 1%nat.
Proof. eexists. split; vm_compute; reflexivity. Qed.

(* ===================================================================== *)
(** * Component groups *)
(* ===================================================================== *)

Lemma in_other_iff (img : Sync.Screenshot) :
  Sync.in_other img = true
  <-> Sync.in_alerts img = false /\ Sync.in_forms img = false /\ Sync.in_cards img = false.
Proof.
  unfold Sync.in_other, Sync.in_alerts, Sync.in_forms, Sync.in_cards.
  destruct (Str.includes (Str.toLowerCase (Sync.nodeId img)) "alert"),
    (Str.includes (Sync.nodeId img) "22123:476643"),
    (Str.includes (Str.toLowerCase (Sync.nodeId img)) "form"),
    (Str.includes (Str.toLowerCase (Sync.nodeId img)) "input"),
    (Str.includes (Str.toLowerCase (Sync.nodeId img)) "field"),
    (Str.includes (Str.toLowerCase (Sync.nodeId img)) "card");
    cbn; intuition discriminate.
Qed.

(** C8, as the code has it: every record is in at least one of the four
    groups; it is in the group other exactly when it is in none of alerts,
    forms and cards; a record whose node identifier contains 22123:476643 is
    in alerts.  (The groups alerts, forms and cards may share records.) *)
Theorem componentGroups_cover (screenshots : list Sync.Screenshot) (img : Sync.Screenshot) :
  In img screenshots ->
  (In img (group_of "alerts" screenshots) \/ In img (group_of "forms" screenshots)
   \/ In img (group_of "cards" screenshots) \/ In img (group_of "other" screenshots))
  /\ (In img (group_of "other" screenshots)
      <-> ~ In img (group_of "alerts" screenshots)
          /\ ~ In img (group_of "forms" screenshots)
          /\ ~ In img (group_of "cards" screenshots))
  /\ (Str.includes (Sync.nodeId img) "22123:476643" = true ->
      In img (group_of "alerts" screenshots)).
Proof.
  intros Hin. unfold group_of. cbn [Sync.componentGroups Dict.get String.eqb Ascii.eqb
    Bool.eqb default]. unfold id.
  rewrite !filter_In.
  pose proof (in_other_iff img) as Hother.
  destruct (Sync.in_alerts img) eqn:Ha, (Sync.in_forms img) eqn:Hf,
    (Sync.in_cards img) eqn:Hc, (Sync.in_other img) eqn:Ho;
    try (destruct Hother as [Hother _]; specialize (Hother eq_refl);
         destruct Hother as (? & ? & ?); discriminate);
    try (destruct Hother as [_ Hother]; specialize (Hother (conj eq_refl (conj eq_refl eq_refl)));
         discriminate);
    (split; [tauto | split; [intuition discriminate |]]);
    intros H227; unfold Sync.in_alerts in Ha; rewrite H227, orb_true_r in Ha;
    try discriminate; tauto.
Qed.

Lemma componentGroups_cover_witness :
  In (Sync.screenshot_record Sample.cfg "22123:476643")
     (group_of "alerts" [Sync.screenshot_record Sample.cfg "12:34";
                         Sync.screenshot_record Sample.cfg "22123:476643"]).
Proof.
  apply (componentGroups_cover
           [Sync.screenshot_record Sample.cfg "12:34";
            Sync.screenshot_record Sample.cfg "22123:476643"]
           (Sync.screenshot_record Sample.cfg "22123:476643")
           (or_intror (or_introl eq_refl))).
  reflexivity.
Defined.

(** C8, as stated, fails: the groups are not pairwise disjoint.  A record
    whose node identifier contains both alert and card is in the group
    alerts and in the group cards, and its section goes to both pages. *)
Lemma componentGroups_not_disjoint :
  ~ (forall screenshots img g1 g2 l1 l2,
       In (g1, l1) (Sync.componentGroups screenshots) ->
       In (g2, l2) (Sync.componentGroups screenshots) ->
       g1 <> g2 -> In img l1 -> ~ In img l2).
Proof.
  intros H.
  set (img := {| Sync.nodeId := "alert-card"; Sync.safeNodeId := "alert-card";
                 Sync.filename := "figma-alert-card.png";
                 Sync.path := "https://raw.githubusercontent.com/hellojulian/mintlify/main/public/images/figma-alert-card.png" |}).
  apply (H [img] img "alerts" "cards" [img] [img]).
  - left. reflexivity.
  - right; right; left. reflexivity.
  - discriminate.
  - left. reflexivity.
  - left. reflexivity.
Qed.

(* ===================================================================== *)
(** * The screenshot fetcher *)
(* ===================================================================== *)

Ltac run_sync :=
  unfold mbind, mret, M_bind, M_ret, bind, ret, throw, lift, try_catch,
    Sync.console_log, Sync.console_error, Sync.do_fetch, Sync.new_Date,
    Sync.readFile, Sync.writeFile, Sync.mkdir, Sync.response_json in *.

Ltac red_sync :=
  cbn beta iota zeta delta
    [fst snd negb Sync.files Sync.ticks Sync.console Sync.requests Sync.writes
     Sync.as_images Sync.as_figma_data] in *.

Ltac sync_step := run_sync; red_sync.

Lemma truthy_some (o : option string) (u : string) :
  Js.truthy o = Some u <-> o = Some u /\ u <> "".
Proof.
  unfold Js.truthy. destruct o as [s |]; [| split; [discriminate | intros [? _]; discriminate]].
  destruct (String.eqb_spec s "") as [-> | Hne]; split.
  - discriminate.
  - intros [[= ->] H]. now elim H.
  - intros [= ->]. auto.
  - intros [[= ->] _]. reflexivity.
Qed.

Lemma with_url_in (entries : list (string * option string)) (n u : string) :
  In (n, u) (with_url entries) <-> In (n, Some u) entries /\ u <> "".
Proof.
  unfold with_url. rewrite in_flat_map. split.
  - intros ([n' o] & Hin & H). cbn [fst snd] in H.
    destruct (Js.truthy o) as [u' |] eqn:Ht; [| contradiction].
    destruct H as [[= -> ->] | []]. apply truthy_some in Ht as [-> Hne]. auto.
  - intros [Hin Hne]. exists (n, Some u). split; [exact Hin |]. cbn [fst snd].
    rewrite (proj2 (truthy_some (Some u) u) (conj eq_refl Hne)). left. reflexivity.
Qed.

Lemma replace_colons_no_colon (s : string) :
  Str.has_char ":" (Str.replace_colons s) = false.
Proof.
  induction s as [| c s IH]; [reflexivity |]. cbn [Str.replace_colons Str.has_char].
  rewrite IH, orb_false_r.
  destruct (Ascii.eqb_spec c ":") as [-> | Hne]; [reflexivity |].
  now apply Ascii.eqb_neq.
Qed.

Lemma replace_colons_get (s : string) (i : nat) :
  String.get i (Str.replace_colons s)
  = option_map (fun c => if Ascii.eqb c ":" then "-"%char else c) (String.get i s).
Proof.
  revert i. induction s as [| c s IH]; intros [| i]; cbn; auto.
Qed.

Lemma has_char_app (c : ascii) (a b : string) :
  Str.has_char c (a +:+ b) = Str.has_char c a || Str.has_char c b.
Proof.
  induction a as [| x a IH]; [reflexivity |].
  simpl. rewrite IH. now rewrite orb_assoc.
Qed.

Lemma screenshot_filename_no_colon (nodeId : string) :
  Str.has_char ":" (Sync.screenshot_filename nodeId) = false.
Proof.
  unfold Sync.screenshot_filename.
  rewrite !has_char_app, replace_colons_no_colon. reflexivity.
Qed.

Lemma split_on_not_nil (sep : ascii) (s : string) : Str.split_on sep s <> [].
Proof.
  destruct s as [| c s]; cbn; [discriminate |].
  destruct (Ascii.eqb c sep); [discriminate |].
  destruct (Str.split_on sep s); discriminate.
Qed.

Lemma startsWith_app (a b : string) : Str.startsWith a (a +:+ b) = true.
Proof.
  induction a as [| c a IH]; [reflexivity |]. simpl. now rewrite Ascii.eqb_refl.
Qed.

(** The loop over the entries: what it writes is, in order, the files of a
    prefix of the entries that have a URL, and when it returns it has gone
    through all of them and added one record for each. *)
Lemma download_each_run (w : Sync.World) (cfg : Sync.Config)
    (entries : list (string * option string)) :
  forall (acc : list Sync.Screenshot) (st st' : Sync.State) (r : Res (list Sync.Screenshot)),
    Sync.download_each w cfg entries acc st = (r, st') ->
    exists k,
      Sync.writes st'
      = Sync.writes st
        ++ map (fun e => (screenshot_path (fst e), image_bytes w (snd e)))
               (firstn k (with_url entries))
      /\ (forall p, Str.startsWith "public/images/" p = false ->
                    Sync.files st' !! p = Sync.files st !! p)
      /\ (forall shots, r = Ok shots ->
            shots = acc ++ map (fun e => Sync.screenshot_record cfg (fst e)) (with_url entries)
            /\ k = List.length (with_url entries))
      /\ (Forall (download_succeeds w) (with_url entries) -> exists shots, r = Ok shots).
Proof.
  induction entries as [| [n o] rest IH]; intros acc st st' r Hrun.
  - cbn in Hrun. injection Hrun as <- <-. exists 0%nat. cbn.
    rewrite !app_nil_r. split; [reflexivity | split; [reflexivity | split]].
    + intros shots [= <-]. auto.
    + eauto.
  - cbn [Sync.download_each] in Hrun. unfold with_url. cbn [flat_map fst snd].
    fold (with_url rest).
    destruct (Js.truthy o) as [u |] eqn:Ht; [| cbn [app]; apply IH in Hrun; exact Hrun].
    unfold Sync.downloadImage in Hrun. run_sync. cbn [app].
    assert (Hstop : forall e, r = Throw e -> st' = Sync.Build_State (Sync.files st)
                      (Sync.ticks st) (Sync.console st)
                      (Sync.requests st ++ [{| Sync.url := u; Sync.req_headers := [] |}])
                      (Sync.writes st) ->
                    ~ download_succeeds w (n, u) ->
                    exists k,
                      Sync.writes st'
                      = Sync.writes st
                        ++ map (fun e => (screenshot_path (fst e), image_bytes w (snd e)))
                               (firstn k ((n, u) :: with_url rest))
                      /\ (forall p, Str.startsWith "public/images/" p = false ->
                                    Sync.files st' !! p = Sync.files st !! p)
                      /\ (forall shots, r = Ok shots ->
                            shots = acc ++ map (fun e => Sync.screenshot_record cfg (fst e))
                                               ((n, u) :: with_url rest)
                            /\ k = List.length ((n, u) :: with_url rest))
                      /\ (Forall (download_succeeds w) ((n, u) :: with_url rest) ->
                          exists shots, r = Ok shots)).
    { intros e -> -> Hfail. exists 0%nat. cbn. rewrite app_nil_r.
      split; [reflexivity | split; [reflexivity | split]]; [discriminate |].
      intros H. inversion H. contradiction. }
    destruct (Sync.fetch w {| Sync.url := u; Sync.req_headers := [] |}) as [e | resp] eqn:Hf.
    { injection Hrun as <- <-. apply (Hstop e); auto.
      intros [[r' Hr'] _]. cbn in Hr'. congruence. }
    cbn [Sync.files Sync.ticks Sync.console Sync.requests Sync.writes] in Hrun.
    destruct (Sync.write_ok w ("public/images/" +:+ Sync.screenshot_filename n)) eqn:Hw.
    2: { injection Hrun as <- <-. apply (Hstop _ eq_refl); auto.
         intros [_ Hw']. unfold screenshot_path in Hw'. cbn in Hw'. congruence. }
    clear Hstop.
    apply IH in Hrun as (k & Hwr & Hintro & Hok & Hall).
    cbn [Sync.files Sync.ticks Sync.console Sync.requests Sync.writes] in *.
    exists (S k). cbn [firstn map fst snd].
    unfold image_bytes at 1, screenshot_path at 1. rewrite Hf, Hwr, <- app_assoc. cbn [app].
    split; [reflexivity |]. split.
    { intros p Hp. rewrite (Hintro p Hp). apply lookup_insert_ne.
      intros <-. rewrite startsWith_app in Hp. discriminate. }
    split.
    { intros shots Hs. destruct (Hok shots Hs) as [-> ->].
      rewrite <- app_assoc. cbn. auto. }
    intros H. inversion H as [| ? ? _ Hrest]. auto.
Qed.

Lemma in_firstn {A : Type} (x : A) (k : nat) (l : list A) :
  In x (firstn k l) -> In x l.
Proof.
  revert l. induction k as [| k IH]; intros [| y l]; cbn; try tauto.
  intros [-> | H]; auto.
Qed.

(** C9: with the images table answered, the fetcher goes through the
    entries in order; an entry whose URL is null (or empty) gives no record
    and no file; every other entry is downloaded to
    [public/images/figma-<id with each colon replaced by a hyphen>.png] and
    listed under that file name; the node 12:34 gives figma-12-34.png.  The
    files written are those of a prefix of the entries that have a URL, all
    of them when every download goes through, and the records are then one
    for each such entry (none when a download fails). *)
Theorem fetchScreenshots_skips_null_and_names_files (w : Sync.World) (cfg : Sync.Config)
    (st : Sync.State) (ids : string) (resp : Sync.Response)
    (entries : list (string * option string)) :
  Sync.FIGMA_NODE_IDS cfg = Some ids ->
  Sync.fetch w (Sync.images_request cfg (Str.split_on "," ids)) = Sync.Responded resp ->
  Sync.ok resp = true ->
  Sync.json resp = Some (Sync.PImages (Some entries)) ->
  exists shots st' k,
    Sync.fetchScreenshots w cfg st = (Ok shots, st')
    /\ Sync.writes st'
       = Sync.writes st
         ++ map (fun e => (screenshot_path (fst e), image_bytes w (snd e)))
                (firstn k (with_url entries))
    /\ (shots = []
        \/ shots = map (fun e => Sync.screenshot_record cfg (fst e)) (with_url entries)
           /\ k = List.length (with_url entries))
    /\ (Forall (download_succeeds w) (with_url entries) ->
        shots = map (fun e => Sync.screenshot_record cfg (fst e)) (with_url entries)
        /\ k = List.length (with_url entries))
    /\ (forall shot, In shot shots ->
          (exists u, In (Sync.nodeId shot, Some u) entries /\ u <> "")
          /\ Sync.filename shot
             = "figma-" +:+ Str.replace_colons (Sync.nodeId shot) +:+ ".png"
          /\ Str.has_char ":" (Sync.filename shot) = false)
    /\ (forall e, In e (firstn k (with_url entries)) ->
          In (fst e, Some (snd e)) entries
          /\ screenshot_path (fst e)
             = "public/images/figma-" +:+ Str.replace_colons (fst e) +:+ ".png")
    /\ Sync.screenshot_filename "12:34" = "figma-12-34.png".
Proof.
  intros Hids Hfetch Hok Hjson.
  unfold Sync.fetchScreenshots. rewrite Hids.
  destruct (List.length (Str.split_on "," ids) =? 0)%nat eqn:Hlen.
  { apply Nat.eqb_eq, length_zero_iff_nil in Hlen. now apply split_on_not_nil in Hlen. }
  sync_step. rewrite Hfetch. sync_step. rewrite Hok. sync_step.
  rewrite Hjson. sync_step.
  match goal with
  | |- context [Sync.download_each w cfg entries [] ?s] =>
      destruct (Sync.download_each w cfg entries [] s) as [r st2] eqn:Hrun
  end.
  apply download_each_run in Hrun as (k & Hwr & _ & Hret & Hall).
  cbn [Sync.files Sync.ticks Sync.console Sync.requests Sync.writes] in Hwr.
  assert (Hfiles : forall e, In e (firstn k (with_url entries)) ->
            In (fst e, Some (snd e)) entries
            /\ screenshot_path (fst e)
               = "public/images/figma-" +:+ Str.replace_colons (fst e) +:+ ".png").
  { intros [n u] Hin. apply in_firstn in Hin.
    apply with_url_in in Hin as [Hin _]. split; [exact Hin | reflexivity]. }
  assert (Hshots : forall shot,
            In shot (map (fun e => Sync.screenshot_record cfg (fst e)) (with_url entries)) ->
            (exists u, In (Sync.nodeId shot, Some u) entries /\ u <> "")
            /\ Sync.filename shot
               = "figma-" +:+ Str.replace_colons (Sync.nodeId shot) +:+ ".png"
            /\ Str.has_char ":" (Sync.filename shot) = false).
  { intros shot Hin. apply in_map_iff in Hin as ([n u] & <- & Hin).
    apply with_url_in in Hin. cbn [fst Sync.screenshot_record Sync.nodeId Sync.filename].
    split; [exists u; exact Hin |]. split; [reflexivity |].
    apply screenshot_filename_no_colon. }
  destruct r as [shots | e].
  - destruct (Hret shots eq_refl) as [-> ->]. cbn [app] in *.
    eexists _, _, _. split; [reflexivity |].
    cbn [Sync.files Sync.ticks Sync.console Sync.requests Sync.writes].
    split; [exact Hwr |]. split; [right; auto |]. split; [auto |].
    split; [exact Hshots |]. split; [exact Hfiles | reflexivity].
  - eexists [], _, k. split; [reflexivity |].
    cbn [Sync.files Sync.ticks Sync.console Sync.requests Sync.writes].
    split; [exact Hwr |]. split; [left; reflexivity |]. split.
    { intros H. destruct (Hall H) as [shots Hs]. discriminate Hs. }
    split; [intros shot [] |]. split; [exact Hfiles | reflexivity].
Qed.

(* ===================================================================== *)
(** * Token classification *)
(* ===================================================================== *)

Lemma dict_get_update {A : Type} (n k : string) (v : A) (d : list (string * A)) :
  Dict.has_key k d = true ->
  Dict.get n (Dict.update k v d) = if String.eqb n k then Some v else Dict.get n d.
Proof.
  induction d as [| [k' v'] d IH]; cbn; [discriminate |].
  intros Hk. destruct (String.eqb_spec k k') as [<- | Hkk']; cbn.
  - destruct (String.eqb n k); reflexivity.
  - rewrite (IH Hk). destruct (String.eqb_spec n k') as [-> | _]; [| reflexivity].
    destruct (String.eqb_spec k' k) as [-> | _]; [now elim Hkk' | reflexivity].
Qed.

Lemma dict_get_absent {A : Type} (k : string) (d : list (string * A)) :
  Dict.has_key k d = false -> Dict.get k d = None.
Proof.
  induction d as [| [k' v'] d IH]; cbn; [reflexivity |].
  destruct (String.eqb k k'); [discriminate | exact IH].
Qed.

Lemma dict_get_insert_index {A : Type} (n k : string) (i : N) (v : A)
    (d : list (string * A)) :
  Dict.has_key k d = false ->
  Dict.get n (Dict.insert_index i k v d) = if String.eqb n k then Some v else Dict.get n d.
Proof.
  induction d as [| [k' v'] d IH]; intros Hk.
  - reflexivity.
  - cbn in Hk. apply orb_false_elim in Hk as [Hkk' Hk].
    assert (Hhere : Dict.get n ((k, v) :: (k', v') :: d)
                    = if String.eqb n k then Some v else Dict.get n ((k', v') :: d))
      by reflexivity.
    cbn [Dict.insert_index].
    destruct (Dict.array_index k') as [i' |]; [| exact Hhere].
    destruct (i' <? i)%N; [| exact Hhere].
    cbn [Dict.get]. rewrite (IH Hk).
    destruct (String.eqb_spec n k') as [-> | _]; [| reflexivity].
    apply String.eqb_neq in Hkk'.
    destruct (String.eqb_spec k' k) as [-> | _]; [now elim Hkk' | reflexivity].
Qed.

Lemma dict_get_app {A : Type} (n k : string) (v : A) (d : list (string * A)) :
  Dict.has_key k d = false ->
  Dict.get n (d ++ [(k, v)]) = if String.eqb n k then Some v else Dict.get n d.
Proof.
  induction d as [| [k' v'] d IH]; intros Hk.
  - reflexivity.
  - cbn in Hk. apply orb_false_elim in Hk as [Hkk' Hk].
    cbn. rewrite (IH Hk).
    destruct (String.eqb_spec n k') as [-> | _]; [| reflexivity].
    apply String.eqb_neq in Hkk'.
    destruct (String.eqb_spec k' k) as [-> | _]; [now elim Hkk' | reflexivity].
Qed.

(** Reading a dictionary after [d[k] = v]. *)
Lemma dict_get_set {A : Type} (n k : string) (v : A) (d : list (string * A)) :
  Dict.get n (Dict.set k v d) = if String.eqb n k then Some v else Dict.get n d.
Proof.
  unfold Dict.set. destruct (Dict.has_key k d) eqn:Hk.
  - apply dict_get_update. exact Hk.
  - destruct (Dict.array_index k).
    + apply dict_get_insert_index. exact Hk.
    + apply dict_get_app. exact Hk.
Qed.

Lemma dict_has_key_get {A : Type} (k : string) (d : list (string * A)) :
  Dict.has_key k d = true <-> exists v, Dict.get k d = Some v.
Proof.
  induction d as [| [k' v'] d IH]; cbn.
  - split; [discriminate | intros [? ?]; discriminate].
  - destruct (String.eqb k k'); cbn; [split; eauto | exact IH].
Qed.

(** [add_variable] by the category of the variable. *)
Lemma add_variable_category (c : Collection.t) (tokens : Sync.Tokens)
    (v : DesignVariable.t) (cat : Category) (n : string) :
  Dict.get n (dict_of cat (Sync.add_variable c tokens v))
  = if String.eqb (DesignVariable.variableCollectionId v) (Collection.id c) then
      match category c v with
      | Some cat' =>
          match cat, cat' with
          | Colors, Colors | Spacing, Spacing | Typography, Typography =>
              if String.eqb n (DesignVariable.name v) then Some (token_of cat c v)
              else Dict.get n (dict_of cat tokens)
          | _, _ => Dict.get n (dict_of cat tokens)
          end
      | None => Dict.get n (dict_of cat tokens)
      end
    else Dict.get n (dict_of cat tokens).
Proof.
  unfold Sync.add_variable, category, token_of.
  destruct (String.eqb (DesignVariable.variableCollectionId v) (Collection.id c));
    [| reflexivity].
  destruct (Str.includes (Str.toLowerCase (DesignVariable.name v)) "color"
            || Str.includes (Str.toLowerCase (Collection.name c)) "color").
  { destruct cat; cbn [dict_of Sync.colors Sync.spacing Sync.typography];
      rewrite ?dict_get_set; reflexivity. }
  destruct (Str.includes (Str.toLowerCase (DesignVariable.name v)) "spacing"
            || Str.includes (Str.toLowerCase (Collection.name c)) "spacing").
  { destruct cat; cbn [dict_of Sync.colors Sync.spacing Sync.typography];
      rewrite ?dict_get_set; reflexivity. }
  destruct (Str.includes (Str.toLowerCase (DesignVariable.name v)) "font"
            || Str.includes (Str.toLowerCase (Collection.name c)) "typography").
  { destruct cat; cbn [dict_of Sync.colors Sync.spacing Sync.typography];
      rewrite ?dict_get_set; reflexivity. }
  destruct cat; reflexivity.
Qed.

Lemma add_variable_get_inv (c : Collection.t) (tokens : Sync.Tokens)
    (v : DesignVariable.t) (cat : Category) (n : string) (t : Token) :
  Dict.get n (dict_of cat (Sync.add_variable c tokens v)) = Some t ->
  Dict.get n (dict_of cat tokens) = Some t
  \/ (belongs v c /\ DesignVariable.name v = n /\ category c v = Some cat
      /\ t = token_of cat c v).
Proof.
  rewrite add_variable_category. unfold belongs.
  destruct (String.eqb_spec (DesignVariable.variableCollectionId v) (Collection.id c))
    as [Hb | _]; [| auto].
  destruct (category c v) as [cat' |]; [| auto].
  destruct (String.eqb_spec n (DesignVariable.name v)) as [-> | _];
    destruct cat, cat'; auto; intros [= <-]; right; auto.
Qed.

Lemma add_variable_get_keep (c : Collection.t) (tokens : Sync.Tokens)
    (v : DesignVariable.t) (cat : Category) (n : string) :
  (exists t, Dict.get n (dict_of cat tokens) = Some t)
  \/ (belongs v c /\ DesignVariable.name v = n /\ category c v = Some cat) ->
  exists t, Dict.get n (dict_of cat (Sync.add_variable c tokens v)) = Some t.
Proof.
  rewrite add_variable_category. unfold belongs. intros [[t Ht] | (Hb & <- & Hc)].
  - destruct (String.eqb (DesignVariable.variableCollectionId v) (Collection.id c));
      [| eauto].
    destruct (category c v) as [cat' |]; [| eauto].
    destruct (String.eqb n (DesignVariable.name v)); destruct cat, cat'; eauto.
  - rewrite Hb, String.eqb_refl, Hc, String.eqb_refl. destruct cat; eauto.
Qed.

Lemma add_collection_get_inv (m : Meta) (vs : list DesignVariable.t) (c : Collection.t)
    (cat : Category) (n : string) (t : Token) :
  variables m = Some vs ->
  forall tokens,
    Dict.get n (dict_of cat (Sync.add_collection m tokens c)) = Some t ->
    Dict.get n (dict_of cat tokens) = Some t
    \/ exists v, In v vs /\ belongs v c /\ DesignVariable.name v = n
                 /\ category c v = Some cat /\ t = token_of cat c v.
Proof.
  intros Hvs. unfold Sync.add_collection. rewrite Hvs. clear Hvs.
  induction vs as [| v vs IH]; intros tokens H; cbn in H; [auto |].
  destruct (IH _ H) as [H' | (v' & Hin & H')].
  - destruct (add_variable_get_inv _ _ _ _ _ _ H') as [? | ?]; [auto |].
    right. exists v. split; [left; reflexivity | assumption].
  - right. exists v'. split; [right; exact Hin | assumption].
Qed.

Lemma add_collection_get_keep (m : Meta) (vs : list DesignVariable.t) (c : Collection.t)
    (cat : Category) (n : string) :
  variables m = Some vs ->
  forall tokens,
    (exists t, Dict.get n (dict_of cat tokens) = Some t)
    \/ (exists v, In v vs /\ belongs v c /\ DesignVariable.name v = n
                  /\ category c v = Some cat) ->
    exists t, Dict.get n (dict_of cat (Sync.add_collection m tokens c)) = Some t.
Proof.
  intros Hvs. unfold Sync.add_collection. rewrite Hvs. clear Hvs.
  induction vs as [| v vs IH]; intros tokens H; cbn.
  - destruct H as [H | (v & [] & _)]. exact H.
  - apply IH. destruct H as [H | (v' & [<- | Hin] & H)].
    + left. apply add_variable_get_keep. auto.
    + left. apply add_variable_get_keep. auto.
    + right. eauto.
Qed.

Lemma category_rule (c : Collection.t) (v : DesignVariable.t) :
  let vname := Str.toLowerCase (DesignVariable.name v) in
  let cname := Str.toLowerCase (Collection.name c) in
  let color := Str.includes vname "color" || Str.includes cname "color" in
  let spacing := Str.includes vname "spacing" || Str.includes cname "spacing" in
  let typography := Str.includes vname "font" || Str.includes cname "typography" in
  (category c v = Some Colors <-> color = true)
  /\ (category c v = Some Spacing <-> color = false /\ spacing = true)
  /\ (category c v = Some Typography
      <-> color = false /\ spacing = false /\ typography = true)
  /\ (category c v = None <-> color = false /\ spacing = false /\ typography = false).
Proof.
  cbv zeta. unfold category.
  destruct (Str.includes (Str.toLowerCase (DesignVariable.name v)) "color"
            || Str.includes (Str.toLowerCase (Collection.name c)) "color");
    destruct (Str.includes (Str.toLowerCase (DesignVariable.name v)) "spacing"
              || Str.includes (Str.toLowerCase (Collection.name c)) "spacing");
    destruct (Str.includes (Str.toLowerCase (DesignVariable.name v)) "font"
              || Str.includes (Str.toLowerCase (Collection.name c)) "typography");
    repeat split; intros; try discriminate; try tauto;
    repeat match goal with H : _ /\ _ |- _ => destruct H end; discriminate.
Qed.

Lemma fold_collections_get_inv (m : Meta) (vs : list DesignVariable.t)
    (cs : list Collection.t) (cat : Category) (n : string) (t : Token) :
  variables m = Some vs ->
  forall tokens,
    Dict.get n (dict_of cat (fold_left (Sync.add_collection m) cs tokens)) = Some t ->
    Dict.get n (dict_of cat tokens) = Some t
    \/ exists c v, In c cs /\ In v vs /\ belongs v c /\ DesignVariable.name v = n
                   /\ category c v = Some cat /\ t = token_of cat c v.
Proof.
  intros Hvs. induction cs as [| c cs IH]; intros tokens H; cbn in H; [auto |].
  destruct (IH _ H) as [H' | (c' & v & Hc & Hv)].
  - destruct (add_collection_get_inv m vs c cat n t Hvs _ H') as [? | (v & Hv)]; [auto |].
    right. exists c, v. split; [left; reflexivity | exact Hv].
  - right. exists c', v. split; [right; exact Hc | exact Hv].
Qed.

Lemma fold_collections_get_keep (m : Meta) (vs : list DesignVariable.t)
    (cs : list Collection.t) (cat : Category) (n : string) :
  variables m = Some vs ->
  forall tokens,
    (exists t, Dict.get n (dict_of cat tokens) = Some t)
    \/ (exists c v, In c cs /\ In v vs /\ belongs v c /\ DesignVariable.name v = n
                    /\ category c v = Some cat) ->
    exists t, Dict.get n (dict_of cat (fold_left (Sync.add_collection m) cs tokens)) = Some t.
Proof.
  intros Hvs. induction cs as [| c cs IH]; intros tokens H; cbn.
  - destruct H as [H | (c & v & [] & _)]. exact H.
  - apply IH. destruct H as [H | (c' & v & [<- | Hin] & H)].
    + left. apply (add_collection_get_keep m vs c cat n Hvs). auto.
    + left. apply (add_collection_get_keep m vs c cat n Hvs). right. eauto.
    + right. eauto.
Qed.



Example transform_sample :
  Sync.transformVariablesToTokens "2026-01-05T02:00:00.000Z" Sample.tokens_data
  = {| Sync.colors := [("Primary Color", {| value := JStr "#0055ff"; type := "color" |})];
       Sync.typography := [("Font Family", {| value := JStr "Inter"; type := "fontFamily" |})];
       Sync.spacing := [("Spacing/sm", {| value := JStr "8px"; type := "dimension" |})];
       Sync.lastSync := "2026-01-05T02:00:00.000Z" |}.
Proof. vm_compute. reflexivity. Qed.


Lemma fetchScreenshots_skips_null_and_names_files_witness :
  exists shots st',
    Sync.fetchScreenshots Sample.world Sample.cfg Sample.state0 = (Ok shots, st')
    /\ map Sync.filename shots = ["figma-alert-1.png"; "figma-12-34.png"]
    /\ map fst (Sync.writes st')
       = ["public/images/figma-alert-1.png"; "public/images/figma-12-34.png"].
Proof.
  destruct (fetchScreenshots_skips_null_and_names_files Sample.world Sample.cfg
              Sample.state0 "alert:1,12:34,22123:476643"
              {| Sync.status := 200; Sync.statusText := "OK";
                 Sync.json := Some (Sync.PImages (Some Sample.images));
                 Sync.buffer := "" |}
              Sample.images eq_refl eq_refl eq_refl eq_refl)
    as (shots & st' & k & Hrun & Hw & _ & Hall & _).
  destruct Hall as [-> ->].
  { repeat constructor; eexists; reflexivity. }
  eexists. exists st'. split; [exact Hrun |]. split; [reflexivity |].
  rewrite Hw. reflexivity.
Defined.

(* ===================================================================== *)
(** * Frames: what a step of the sync script may write *)
(* ===================================================================== *)

Lemma touches_only_refl (P : string -> bool) (st : Sync.State) : touches_only P st st.
Proof.
  split; [| reflexivity]. exists []. rewrite app_nil_r. split; [reflexivity | constructor].
Qed.

Lemma touches_only_trans (P : string -> bool) (st1 st2 st3 : Sync.State) :
  touches_only P st1 st2 -> touches_only P st2 st3 -> touches_only P st1 st3.
Proof.
  intros [(ws1 & Hw1 & Hf1) Hk1] [(ws2 & Hw2 & Hf2) Hk2]. split.
  - exists (ws1 ++ ws2). rewrite Hw2, Hw1, app_assoc. split; [reflexivity |].
    apply Forall_app. auto.
  - intros p Hp. rewrite (Hk2 p Hp). apply Hk1. exact Hp.
Qed.

Lemma touches_only_weaken (P Q : string -> bool) (st st' : Sync.State) :
  (forall p, P p = true -> Q p = true) ->
  touches_only P st st' -> touches_only Q st st'.
Proof.
  intros HPQ [(ws & Hw & Hf) Hk]. split.
  - exists ws. split; [exact Hw |]. eapply Forall_impl; [exact Hf |]. intros a. apply HPQ.
  - intros p Hq. apply Hk. destruct (P p) eqn:Hp; [| reflexivity].
    rewrite (HPQ p Hp) in Hq. discriminate.
Qed.

(** A step that leaves the files and the list of writes as they are. *)
Lemma touches_only_same (P : string -> bool) (st st' : Sync.State) :
  Sync.files st' = Sync.files st -> Sync.writes st' = Sync.writes st ->
  touches_only P st st'.
Proof.
  intros Hf Hw. split.
  - exists []. rewrite app_nil_r. split; [exact Hw | constructor].
  - intros p _. now rewrite Hf.
Qed.

Section Frames.

Variable P : string -> bool.

Lemma within_ret {A : Type} (a : A) : writes_within P (mret a).
Proof. intros st r st' [= <- <-]. apply touches_only_refl. Qed.

Lemma within_throw {A : Type} (e : string) : writes_within P (@throw Sync.State A e).
Proof. intros st r st' [= <- <-]. apply touches_only_refl. Qed.

Lemma within_bind {A B : Type} (m : M Sync.State A) (k : A -> M Sync.State B) :
  writes_within P m -> (forall a, writes_within P (k a)) -> writes_within P (m ≫= k).
Proof.
  intros Hm Hk st r st' H. unfold mbind, M_bind, bind in H.
  destruct (m st) as [[a | e] st1] eqn:Hrun.
  - eapply touches_only_trans; [eapply Hm; exact Hrun | eapply Hk; exact H].
  - injection H as <- <-. eapply Hm. exact Hrun.
Qed.

Lemma within_try_catch {A : Type} (m : M Sync.State A) (h : string -> M Sync.State A) :
  writes_within P m -> (forall e, writes_within P (h e)) -> writes_within P (try_catch m h).
Proof.
  intros Hm Hh st r st' H. unfold try_catch in H.
  destruct (m st) as [[a | e] st1] eqn:Hrun.
  - injection H as <- <-. eapply Hm. exact Hrun.
  - eapply touches_only_trans; [eapply Hm; exact Hrun | eapply Hh; exact H].
Qed.

Lemma within_console_log (text : string) : writes_within P (Sync.console_log text).
Proof. intros st r st' [= <- <-]. now apply touches_only_same. Qed.

Lemma within_console_error (text : string) : writes_within P (Sync.console_error text).
Proof. intros st r st' [= <- <-]. now apply touches_only_same. Qed.

Lemma within_new_Date (w : Sync.World) : writes_within P (Sync.new_Date w).
Proof. intros st r st' [= <- <-]. now apply touches_only_same. Qed.

Lemma within_do_fetch (w : Sync.World) (rq : Sync.HttpRequest) :
  writes_within P (Sync.do_fetch w rq).
Proof.
  intros st r st' H. unfold Sync.do_fetch in H.
  destruct (Sync.fetch w rq); injection H as <- <-; now apply touches_only_same.
Qed.

Lemma within_response_json (r : Sync.Response) : writes_within P (Sync.response_json r).
Proof.
  unfold Sync.response_json. destruct (Sync.json r); [apply within_ret | apply within_throw].
Qed.

Lemma within_readFile (p : string) : writes_within P (Sync.readFile p).
Proof.
  intros st r st' H. unfold Sync.readFile in H.
  destruct (Sync.files st !! p); injection H as <- <-; apply touches_only_refl.
Qed.

Lemma within_mkdir (w : Sync.World) (p : string) : writes_within P (Sync.mkdir w p).
Proof.
  intros st r st' H. unfold Sync.mkdir in H.
  destruct (Sync.mkdir_ok w p); injection H as <- <-; apply touches_only_refl.
Qed.

Lemma within_writeFile (w : Sync.World) (p content : string) :
  P p = true -> writes_within P (Sync.writeFile w p content).
Proof.
  intros Hp st r st' H. unfold Sync.writeFile in H.
  destruct (Sync.write_ok w p); injection H as <- <-; [| apply touches_only_refl].
  split; cbn.
  - exists [(p, content)]. split; [reflexivity |]. constructor; [exact Hp | constructor].
  - intros q Hq. apply lookup_insert_ne. intros ->. congruence.
Qed.

End Frames.

Ltac frame_step :=
  first
    [ apply within_bind; [| intros ?]
    | apply within_try_catch; [| intros ?]
    | apply within_ret
    | apply within_throw
    | apply within_console_log
    | apply within_console_error
    | apply within_new_Date
    | apply within_do_fetch
    | apply within_response_json
    | apply within_readFile
    | apply within_mkdir
    | apply within_writeFile; reflexivity ].

Ltac frame := repeat frame_step.

(** ** Steps that always return *)

Lemma never_throws_ret {A : Type} (a : A) : never_throws (mret a).
Proof. intros st. eexists _, _. reflexivity. Qed.

Lemma never_throws_bind {A B : Type} (m : M Sync.State A) (k : A -> M Sync.State B) :
  never_throws m -> (forall a, never_throws (k a)) -> never_throws (m ≫= k).
Proof.
  intros Hm Hk st. unfold mbind, M_bind, bind.
  destruct (Hm st) as (a & st1 & ->). apply Hk.
Qed.

Lemma never_throws_try_catch {A : Type} (m : M Sync.State A) (h : string -> M Sync.State A) :
  (forall e, never_throws (h e)) -> never_throws (try_catch m h).
Proof.
  intros Hh st. unfold try_catch.
  destruct (m st) as [[a | e] st1]; [eexists _, _; reflexivity | apply Hh].
Qed.

Lemma never_throws_console_log (text : string) : never_throws (Sync.console_log text).
Proof. intros st. eexists _, _. reflexivity. Qed.

Lemma never_throws_console_error (text : string) : never_throws (Sync.console_error text).
Proof. intros st. eexists _, _. reflexivity. Qed.

Ltac total_step :=
  first
    [ apply never_throws_try_catch; intros ?
    | apply never_throws_bind; [| intros ?]
    | apply never_throws_ret
    | apply never_throws_console_log
    | apply never_throws_console_error ].

Ltac total := repeat total_step.

Lemma fetchDesignTokens_never_throws (w : Sync.World) (cfg : Sync.Config) :
  never_throws (Sync.fetchDesignTokens w cfg).
Proof. unfold Sync.fetchDesignTokens. total. Qed.

Lemma fetchScreenshots_never_throws (w : Sync.World) (cfg : Sync.Config) :
  never_throws (Sync.fetchScreenshots w cfg).
Proof.
  unfold Sync.fetchScreenshots.
  apply never_throws_bind; [apply never_throws_console_log | intros _].
  destruct (_ =? _)%nat; total.
Qed.

Lemma updateComponentPage_never_throws (w : Sync.World) (componentType : string)
    (images : list Sync.Screenshot) :
  never_throws (Sync.updateComponentPage w componentType images).
Proof. unfold Sync.updateComponentPage. total. Qed.

Lemma update_groups_never_throws (w : Sync.World)
    (groups : list (string * list Sync.Screenshot)) :
  never_throws (Sync.update_groups w groups).
Proof.
  induction groups as [| [componentType images] groups IH]; cbn [Sync.update_groups].
  - apply never_throws_ret.
  - destruct (_ || _); [exact IH |].
    apply never_throws_bind; [apply updateComponentPage_never_throws | intros _; exact IH].
Qed.

Lemma updateComponentPages_never_throws (w : Sync.World) (screenshots : list Sync.Screenshot) :
  never_throws (Sync.updateComponentPages w screenshots).
Proof.
  unfold Sync.updateComponentPages.
  apply never_throws_bind; [apply never_throws_console_log | intros _].
  destruct (_ =? _)%nat; [apply never_throws_console_log | apply update_groups_never_throws].
Qed.

Lemma updateDocumentation_never_throws (w : Sync.World) (tokens : option Sync.Tokens)
    (screenshots : list Sync.Screenshot) :
  never_throws (Sync.updateDocumentation w tokens screenshots).
Proof. unfold Sync.updateDocumentation. total. Qed.

(** ** What each part writes *)

Lemma download_each_within (w : Sync.World) (cfg : Sync.Config)
    (entries : list (string * option string)) (acc : list Sync.Screenshot) :
  writes_within images_dir (Sync.download_each w cfg entries acc).
Proof.
  revert acc. induction entries as [| [n o] rest IH]; intros acc; cbn [Sync.download_each].
  - apply within_ret.
  - destruct (Js.truthy o); [| apply IH].
    unfold Sync.downloadImage. frame; apply IH.
Qed.

Lemma fetchScreenshots_within (w : Sync.World) (cfg : Sync.Config) :
  writes_within images_dir (Sync.fetchScreenshots w cfg).
Proof.
  unfold Sync.fetchScreenshots. frame.
  destruct (_ =? _)%nat; frame.
  destruct (negb _); frame.
  destruct (Sync.as_images _); frame. apply download_each_within.
Qed.

Lemma updateComponentPage_within (w : Sync.World) (componentType : string)
    (images : list Sync.Screenshot) :
  writes_within pages_without_tokens (Sync.updateComponentPage w componentType images).
Proof.
  unfold Sync.updateComponentPage. frame.
Qed.

Lemma update_groups_within (w : Sync.World) (groups : list (string * list Sync.Screenshot)) :
  writes_within pages_without_tokens (Sync.update_groups w groups).
Proof.
  induction groups as [| [componentType images] groups IH]; cbn [Sync.update_groups].
  - apply within_ret.
  - destruct (_ || _); [exact IH |].
    apply within_bind; [apply updateComponentPage_within | intros _; exact IH].
Qed.

Lemma updateComponentPages_within (w : Sync.World) (screenshots : list Sync.Screenshot) :
  writes_within pages_without_tokens (Sync.updateComponentPages w screenshots).
Proof.
  unfold Sync.updateComponentPages. frame.
  destruct (_ =? _)%nat; frame. apply update_groups_within.
Qed.

Lemma updateDocumentation_without_tokens_within (w : Sync.World)
    (screenshots : list Sync.Screenshot) :
  writes_within pages_without_tokens (Sync.updateDocumentation w None screenshots).
Proof.
  unfold Sync.updateDocumentation. frame.
  destruct (_ <? _)%nat; [apply updateComponentPages_within | apply within_ret].
Qed.

(* ===================================================================== *)
(** * Partial failure: the token fetch fails *)
(* ===================================================================== *)

Lemma fetchDesignTokens_refused (w : Sync.World) (cfg : Sync.Config) (st : Sync.State)
    (resp : Sync.Response) :
  Sync.fetch w (Sync.tokens_request cfg) = Sync.Responded resp ->
  Sync.ok resp = false ->
  exists st1,
    Sync.fetchDesignTokens w cfg st = (Ok None, st1)
    /\ Sync.files st1 = Sync.files st
    /\ Sync.writes st1 = Sync.writes st
    /\ Sync.ticks st1 = Sync.ticks st
    /\ Sync.requests st1 = Sync.requests st ++ [Sync.tokens_request cfg].
Proof.
  intros Hf Hok. unfold Sync.fetchDesignTokens. sync_step.
  rewrite Hf. sync_step. rewrite Hok. sync_step.
  eexists. split; [reflexivity |]. repeat split.
Qed.

(** With the introduction page readable and writable and at least one
    screenshot, the updater reaches the component pages. *)
Lemma updateDocumentation_reaches_component_pages (w : Sync.World)
    (screenshots : list Sync.Screenshot) (st : Sync.State) (intro : string) :
  Sync.files st !! "introduction.mdx" = Some intro ->
  Sync.write_ok w "introduction.mdx" = true ->
  screenshots <> [] ->
  exists sa sb,
    Sync.updateComponentPages w screenshots sa = (Ok tt, sb)
    /\ Sync.updateDocumentation w None screenshots st
       = (Ok tt, logged sb (Sync.Log, "✅ Documentation updated")).
Proof.
  intros Hintro Hw Hne. unfold Sync.updateDocumentation. sync_step.
  rewrite Hintro. sync_step. rewrite Hw. sync_step.
  destruct screenshots as [| shot rest]; [now elim Hne |].
  cbn [List.length Nat.ltb Nat.leb].
  match goal with
  | |- context [Sync.updateComponentPages w ?l ?s] =>
      destruct (updateComponentPages_never_throws w l s) as ([] & sb & Hrun);
      exists s, sb
  end.
  split; [exact Hrun |]. rewrite Hrun. reflexivity.
Qed.

Lemma token_paths_outside (p : string) :
  In p token_paths -> paths_without_tokens p = false.
Proof.
  intros H. repeat (destruct H as [<- | H]; [reflexivity |]). destruct H.
Qed.


(* ===================================================================== *)
(** * Searching and cutting strings *)
(* ===================================================================== *)

Lemma sapp_cons (x : ascii) (a b : string) : String x a +:+ b = String x (a +:+ b).
Proof. reflexivity. Qed.

Lemma sapp_nil_l (a : string) : "" +:+ a = a.
Proof. reflexivity. Qed.

Lemma sapp_assoc (a b c : string) : (a +:+ b) +:+ c = a +:+ b +:+ c.
Proof.
  induction a as [| x a IH]; [reflexivity |]. rewrite !sapp_cons. now rewrite IH.
Qed.

Lemma sapp_nil_r (a : string) : a +:+ "" = a.
Proof.
  induction a as [| x a IH]; [reflexivity |]. rewrite sapp_cons. now rewrite IH.
Qed.

Lemma sapp_length (a b : string) :
  String.length (a +:+ b) = (String.length a + String.length b)%nat.
Proof.
  induction a as [| x a IH]; [reflexivity |]. rewrite sapp_cons. simpl. now rewrite IH.
Qed.

Lemma startsWith_cut (pat s : string) :
  Str.startsWith pat s = true -> s = pat +:+ Str.drop (String.length pat) s.
Proof.
  revert s. induction pat as [| c pat IH]; intros s H; [reflexivity |].
  destruct s as [| d s]; [discriminate |]. simpl in H.
  destruct (Ascii.eqb_spec c d) as [-> | _]; [| discriminate].
  rewrite sapp_cons. simpl. f_equal. now apply IH.
Qed.

(** A found pattern cuts the string in three. *)
Lemma split_at_cut (pat s a b : string) :
  Str.split_at pat s = Some (a, b) -> s = a +:+ pat +:+ b.
Proof.
  revert a b. induction s as [| c s IH]; intros a b H.
  - cbn in H. destruct (Str.startsWith pat "") eqn:Hp; [| discriminate].
    injection H as <- <-. now apply startsWith_cut.
  - cbn [Str.split_at] in H. destruct (Str.startsWith pat (String c s)) eqn:Hp.
    + injection H as <- <-. now apply startsWith_cut.
    + destruct (Str.split_at pat s) as [[a' b'] |]; [| discriminate].
      injection H as <- <-. rewrite sapp_cons. f_equal. now apply IH.
Qed.

Lemma split_at_shorter (pat s a b : string) :
  Str.split_at pat s = Some (a, b) ->
  (String.length b + String.length pat <= String.length s)%nat.
Proof.
  intros H. apply split_at_cut in H. subst s. rewrite !sapp_length. lia.
Qed.

Lemma startsWith_colon (pat w y : string) :
  Str.has_char ":" pat = false ->
  Str.startsWith pat (w +:+ String ":" y) = Str.startsWith pat w.
Proof.
  revert w. induction pat as [| c pat IH]; intros w H; [reflexivity |].
  simpl in H. apply orb_false_elim in H as [Hc Hpat].
  destruct w as [| d w]; simpl.
  - now rewrite Hc.
  - destruct (Ascii.eqb c d); [now apply IH | reflexivity].
Qed.

Lemma drop_app (n : nat) (w y : string) :
  (n <= String.length w)%nat -> Str.drop n (w +:+ y) = Str.drop n w +:+ y.
Proof.
  revert w. induction n as [| n IH]; intros w H; [reflexivity |].
  destruct w as [| c w]; simpl in *; [lia |]. apply IH. lia.
Qed.

Lemma startsWith_length (pat s : string) :
  Str.startsWith pat s = true -> (String.length pat <= String.length s)%nat.
Proof.
  intros H. pose proof (f_equal String.length (startsWith_cut pat s H)) as Hlen.
  rewrite sapp_length in Hlen. lia.
Qed.

(** Searching a text that has a colon, for a pattern that has none: the
    pattern is found before the colon, or else after it. *)
Lemma split_at_colon (pat w y : string) :
  Str.has_char ":" pat = false -> pat <> "" ->
  Str.split_at pat (w +:+ String ":" y)
  = match Str.split_at pat w with
    | Some (a, b) => Some (a, b +:+ String ":" y)
    | None =>
        match Str.split_at pat y with
        | Some (a, b) => Some (w +:+ String ":" a, b)
        | None => None
        end
    end.
Proof.
  intros Hpat Hne. induction w as [| c w IH].
  - destruct pat as [| p0 pat]; [now elim Hne |].
    simpl in Hpat. apply orb_false_elim in Hpat as [Hp0 _].
    rewrite sapp_nil_l. cbn [Str.split_at Str.startsWith]. rewrite Hp0.
    destruct (Str.split_at (String p0 pat) y) as [[a b] |]; reflexivity.
  - rewrite (startsWith_colon pat (String c w) y Hpat) || idtac.
    rewrite sapp_cons. cbn [Str.split_at].
    rewrite <- sapp_cons, (startsWith_colon pat (String c w) y Hpat).
    destruct (Str.startsWith pat (String c w)) eqn:Hs.
    + f_equal. f_equal. apply drop_app. now apply startsWith_length.
    + rewrite IH.
      destruct (Str.split_at pat w) as [[a b] |]; [reflexivity |].
      destruct (Str.split_at pat y) as [[a b] |]; reflexivity.
Qed.

(** Searching past a text that has no first byte of the pattern. *)
Lemma split_at_skip (c0 : ascii) (pat x y : string) :
  Str.has_char c0 x = false ->
  Str.split_at (String c0 pat) (x +:+ y)
  = match Str.split_at (String c0 pat) y with
    | Some (a, b) => Some (x +:+ a, b)
    | None => None
    end.
Proof.
  induction x as [| c x IH]; intros H.
  - rewrite sapp_nil_l. destruct (Str.split_at (String c0 pat) y) as [[a b] |]; reflexivity.
  - simpl in H. apply orb_false_elim in H as [Hc Hx].
    rewrite sapp_cons. cbn [Str.split_at Str.startsWith].
    rewrite Ascii.eqb_sym, Hc, (IH Hx).
    destruct (Str.split_at (String c0 pat) y) as [[a b] |]; reflexivity.
Qed.

Lemma skip_ws_eq (s : string) :
  Str.skip_ws s
  = match s with
    | EmptyString => s
    | String a r1 =>
        if Str.ws1 (nat_of_ascii a) then Str.skip_ws r1
        else match r1 with
             | EmptyString => s
             | String b r2 =>
                 if Str.ws2 (nat_of_ascii a) (nat_of_ascii b) then Str.skip_ws r2
                 else match r2 with
                      | EmptyString => s
                      | String c r3 =>
                          if Str.ws3 (nat_of_ascii a) (nat_of_ascii b) (nat_of_ascii c)
                          then Str.skip_ws r3 else s
                      end
             end
    end.
Proof. destruct s; reflexivity. Qed.

Lemma skip_ws_shorter (s : string) :
  (String.length (Str.skip_ws s) <= String.length s)%nat.
Proof.
  remember (String.length s) as n eqn:Hn.
  revert s Hn. induction n as [n IH] using lt_wf_ind. intros s ->.
  assert (Hrec : forall r, (String.length r < String.length s)%nat ->
                           (String.length (Str.skip_ws r) <= String.length r)%nat).
  { intros r Hr. exact (IH _ Hr r eq_refl). }
  clear IH. rewrite skip_ws_eq.
  destruct s as [| a r1]; [lia |].
  destruct (Str.ws1 _).
  { specialize (Hrec r1). cbn [String.length] in *. lia. }
  destruct r1 as [| b r2]; [lia |].
  destruct (Str.ws2 _ _).
  { specialize (Hrec r2). cbn [String.length] in *. lia. }
  destruct r2 as [| c r3]; [lia |].
  destruct (Str.ws3 _ _ _); [| lia].
  specialize (Hrec r3). cbn [String.length] in *. lia.
Qed.

Lemma ws2_colon_first (b : nat) : Str.ws2 (nat_of_ascii ":") b = false.
Proof. reflexivity. Qed.

Lemma ws3_colon_first (b c : nat) : Str.ws3 (nat_of_ascii ":") b c = false.
Proof. reflexivity. Qed.

Lemma ws2_colon (a : nat) : Str.ws2 a (nat_of_ascii ":") = false.
Proof. unfold Str.ws2. cbn. apply andb_false_r. Qed.

Lemma ws3_colon_mid (a c : nat) : Str.ws3 a (nat_of_ascii ":") c = false.
Proof.
  unfold Str.ws3. cbn.
  repeat match goal with |- context [(a =? ?k)%nat] => destruct (a =? k)%nat end;
    reflexivity.
Qed.

Lemma ws3_colon_end (a b : nat) : Str.ws3 a b (nat_of_ascii ":") = false.
Proof.
  unfold Str.ws3. cbn.
  repeat match goal with |- context [(a =? ?k)%nat] => destruct (a =? k)%nat end;
    repeat match goal with |- context [(b =? ?k)%nat] => destruct (b =? k)%nat end;
    reflexivity.
Qed.

(** Skipping white space stops at a colon at the latest. *)
Lemma skip_ws_colon (x : string) :
  exists x', (String.length x' <= String.length x)%nat
             /\ forall y, Str.skip_ws (x +:+ String ":" y) = x' +:+ String ":" y.
Proof.
  remember (String.length x) as n eqn:Hn.
  revert x Hn. induction n as [n IH] using lt_wf_ind. intros x ->.
  assert (Hrec : forall r, (String.length r < String.length x)%nat ->
            exists x', (String.length x' <= String.length x)%nat
                       /\ forall y, Str.skip_ws (r +:+ String ":" y) = x' +:+ String ":" y).
  { intros r Hr. destruct (IH _ Hr r eq_refl) as (x' & Hlen & Hx').
    exists x'. split; [lia | exact Hx']. }
  clear IH.
  assert (Hstay : (forall y, Str.skip_ws (x +:+ String ":" y) = x +:+ String ":" y) ->
            exists x', (String.length x' <= String.length x)%nat
                       /\ forall y, Str.skip_ws (x +:+ String ":" y) = x' +:+ String ":" y).
  { intros H. exists x. split; [lia | exact H]. }
  destruct x as [| a r1].
  { apply Hstay. intros y. rewrite sapp_nil_l, skip_ws_eq.
    change (Str.ws1 (nat_of_ascii ":")) with false. cbv iota.
    destruct y as [| b r2]; [reflexivity |]. rewrite ws2_colon_first.
    destruct r2 as [| c r3]; [reflexivity |]. now rewrite ws3_colon_first. }
  destruct (Str.ws1 (nat_of_ascii a)) eqn:H1.
  { destruct (Hrec r1) as (x' & Hlen & Hx'); [cbn; lia |].
    exists x'. split; [exact Hlen |]. intros y.
    rewrite sapp_cons, skip_ws_eq, H1. apply Hx'. }
  destruct r1 as [| b r2].
  { apply Hstay. intros y. rewrite sapp_cons, sapp_nil_l, skip_ws_eq, H1, ws2_colon.
    destruct y as [| c r3]; [reflexivity |]. now rewrite ws3_colon_mid. }
  destruct (Str.ws2 (nat_of_ascii a) (nat_of_ascii b)) eqn:H2.
  { destruct (Hrec r2) as (x' & Hlen & Hx'); [cbn; lia |].
    exists x'. split; [exact Hlen |]. intros y.
    rewrite !sapp_cons, skip_ws_eq, H1, H2. apply Hx'. }
  destruct r2 as [| c r3].
  { apply Hstay. intros y.
    rewrite !sapp_cons, sapp_nil_l, skip_ws_eq, H1, H2, ws3_colon_end. reflexivity. }
  destruct (Str.ws3 (nat_of_ascii a) (nat_of_ascii b) (nat_of_ascii c)) eqn:H3.
  { destruct (Hrec r3) as (x' & Hlen & Hx'); [cbn; lia |].
    exists x'. split; [exact Hlen |]. intros y.
    rewrite !sapp_cons, skip_ws_eq, H1, H2, H3. apply Hx'. }
  apply Hstay. intros y. rewrite !sapp_cons, skip_ws_eq, H1, H2, H3. reflexivity.
Qed.

(* ===================================================================== *)
(** * Removing warnings from a text with a time stamp *)
(* ===================================================================== *)

Lemma strip_warnings_fuel (f f' : nat) (s : string) :
  (String.length s < f)%nat -> (String.length s < f')%nat ->
  Sync.strip_warnings f s = Sync.strip_warnings f' s.
Proof.
  revert f' s. induction f as [| f IH]; intros f' s Hf Hf'; [lia |].
  destruct f' as [| f']; [lia |]. cbn [Sync.strip_warnings].
  destruct (Str.split_at "<Warning>" s) as [[before rest] |] eqn:Hw; [| reflexivity].
  destruct (Str.split_at "</Warning>" rest) as [[inside after] |] eqn:Hc; [| reflexivity].
  apply split_at_shorter in Hw, Hc. cbn [String.length] in Hw, Hc.
  pose proof (skip_ws_shorter after).
  f_equal. apply IH; lia.
Qed.

(** The removal, one warning at a time. *)
Lemma remove_warnings_eq (s : string) :
  Sync.remove_warnings s
  = match Str.split_at "<Warning>" s with
    | None => s
    | Some (before, rest) =>
        match Str.split_at "</Warning>" rest with
        | None => s
        | Some (_, after) => before +:+ Sync.remove_warnings (Str.skip_ws after)
        end
    end.
Proof.
  unfold Sync.remove_warnings at 1. cbn [Sync.strip_warnings].
  destruct (Str.split_at "<Warning>" s) as [[before rest] |] eqn:Hw; [| reflexivity].
  destruct (Str.split_at "</Warning>" rest) as [[inside after] |] eqn:Hc; [| reflexivity].
  apply split_at_shorter in Hw, Hc. cbn [String.length] in Hw, Hc.
  pose proof (skip_ws_shorter after).
  f_equal. unfold Sync.remove_warnings. apply strip_warnings_fuel; lia.
Qed.

(** Searching a tag in a text [u: t v] whose stamp [t] has no opening
    angle bracket: the tag is found in [u], or else in [v]. *)
Lemma split_at_stamp (pat u t v : string) :
  Str.has_char ":" (String "<" pat) = false ->
  Str.has_char "<" t = false ->
  Str.split_at (String "<" pat) (u +:+ String ":" (String " " (t +:+ v)))
  = match Str.split_at (String "<" pat) u with
    | Some (a, b) => Some (a, b +:+ String ":" (String " " (t +:+ v)))
    | None =>
        match Str.split_at (String "<" pat) v with
        | Some (a, b) => Some (u +:+ String ":" (String " " (t +:+ a)), b)
        | None => None
        end
    end.
Proof.
  intros Hpat Ht. rewrite split_at_colon; [| exact Hpat | discriminate].
  destruct (Str.split_at (String "<" pat) u) as [[a b] |]; [reflexivity |].
  rewrite <- sapp_cons, split_at_skip; [| cbn; exact Ht].
  destruct (Str.split_at (String "<" pat) v) as [[a b] |]; reflexivity.
Qed.

Lemma stamp_regroup (u t v : string) :
  u +:+ String ":" (String " " (t +:+ v)) = (u +:+ ": ") +:+ t +:+ v.
Proof. now rewrite sapp_assoc. Qed.

(** The warnings removed from [u: t v]: the result is a fixed text, then
    the stamp and a fixed text, or a fixed text that lost the stamp inside a
    warning; which one does not depend on the stamp. *)
Lemma remove_warnings_hole (u v : string) :
  exists A oB, forall t,
    Str.has_char "<" t = false ->
    Sync.remove_warnings (u +:+ String ":" (String " " (t +:+ v))) = A +:+ hole oB t.
Proof.
  remember (String.length u) as n eqn:Hn.
  revert u Hn. induction n as [n IH] using lt_wf_ind. intros u ->.
  assert (Hsame : exists A oB, forall t,
             Str.has_char "<" t = false ->
             u +:+ String ":" (String " " (t +:+ v)) = A +:+ hole oB t).
  { exists (u +:+ ": "), (Some v). intros t _. apply stamp_regroup. }
  destruct (Str.split_at "<Warning>" u) as [[a r] |] eqn:Hw.
  - destruct (Str.split_at "</Warning>" r) as [[inside r'] |] eqn:Hc.
    + destruct (skip_ws_colon r') as (r'' & Hlen & Hskip).
      apply split_at_shorter in Hw as Hw', Hc as Hc'. cbn [String.length] in Hw', Hc'.
      destruct (IH (String.length r'') ltac:(lia) r'' eq_refl) as (A & oB & HA).
      exists (a +:+ A), oB. intros t Ht.
      rewrite remove_warnings_eq, split_at_stamp, Hw by (reflexivity || exact Ht).
      rewrite split_at_stamp, Hc by (reflexivity || exact Ht).
      rewrite Hskip, (HA t Ht). now rewrite sapp_assoc.
    + destruct (Str.split_at "</Warning>" v) as [[inside after] |] eqn:Hcv.
      * exists (a +:+ Sync.remove_warnings (Str.skip_ws after)), None. intros t Ht.
        rewrite remove_warnings_eq, split_at_stamp, Hw by (reflexivity || exact Ht).
        rewrite split_at_stamp, Hc, Hcv by (reflexivity || exact Ht).
        cbn [hole]. now rewrite sapp_nil_r.
      * destruct Hsame as (A & oB & HA). exists A, oB. intros t Ht.
        rewrite remove_warnings_eq, split_at_stamp, Hw by (reflexivity || exact Ht).
        rewrite split_at_stamp, Hc, Hcv by (reflexivity || exact Ht).
        apply HA. exact Ht.
  - destruct (Str.split_at "<Warning>" v) as [[av bv] |] eqn:Hwv.
    + destruct (Str.split_at "</Warning>" bv) as [[inside after] |] eqn:Hcb.
      * exists (u +:+ ": "), (Some (av +:+ Sync.remove_warnings (Str.skip_ws after))).
        intros t Ht.
        rewrite remove_warnings_eq, split_at_stamp, Hw, Hwv, Hcb by (reflexivity || exact Ht).
        cbn [hole]. now rewrite stamp_regroup, !sapp_assoc.
      * destruct Hsame as (A & oB & HA). exists A, oB. intros t Ht.
        rewrite remove_warnings_eq, split_at_stamp, Hw, Hwv, Hcb by (reflexivity || exact Ht).
        apply HA. exact Ht.
    + destruct Hsame as (A & oB & HA). exists A, oB. intros t Ht.
      rewrite remove_warnings_eq, split_at_stamp, Hw, Hwv by (reflexivity || exact Ht).
      apply HA. exact Ht.
Qed.

(* ===================================================================== *)
(** * Two runs of the documentation updater *)
(* ===================================================================== *)

Lemma expand_replacement_plain (matched before after x y : string) :
  Str.has_char "$" x = false ->
  Str.expand_replacement matched before after (x +:+ y)
  = x +:+ Str.expand_replacement matched before after y.
Proof.
  induction x as [| c x IH]; intros H; [reflexivity |].
  simpl in H. apply orb_false_elim in H as [Hc Hx].
  rewrite !sapp_cons. cbn [Str.expand_replacement]. rewrite Hc. now rewrite (IH Hx).
Qed.

Section TwoClocks.

Variables c1 c2 : nat -> Sync.Instant.

Local Notation "a ~~ b" := (same_but_stamps c1 c2 a b) (at level 70).

Lemma same_refl (a : string) : a ~~ a.
Proof. induction a; constructor; assumption. Qed.

Lemma same_app (a b c d : string) : a ~~ b -> c ~~ d -> a +:+ c ~~ b +:+ d.
Proof.
  intros Hab Hcd. induction Hab as [| x a b _ IH | n a b _ IH].
  - exact Hcd.
  - rewrite !sapp_cons. now constructor.
  - rewrite !sapp_assoc. now constructor.
Qed.

Lemma same_stamp (n : nat) : Sync.toLocaleString (c1 n) ~~ Sync.toLocaleString (c2 n).
Proof.
  rewrite <- (sapp_nil_r (Sync.toLocaleString (c1 n))),
    <- (sapp_nil_r (Sync.toLocaleString (c2 n))).
  constructor. constructor.
Qed.

(** A fixed text around a stamp. *)
Lemma same_around (A B : string) (n : nat) :
  A +:+ Sync.toLocaleString (c1 n) +:+ B ~~ A +:+ Sync.toLocaleString (c2 n) +:+ B.
Proof. apply same_app; [apply same_refl |]. constructor. apply same_refl. Qed.

Lemma same_hole (A : string) (oB : option string) (n : nat) :
  A +:+ hole oB (Sync.toLocaleString (c1 n)) ~~ A +:+ hole oB (Sync.toLocaleString (c2 n)).
Proof. destruct oB as [B |]; [apply same_around | apply same_refl]. Qed.

Hypothesis stamps_plain :
  forall n, plain (Sync.toLocaleString (c1 n)) /\ plain (Sync.toLocaleString (c2 n)).

(** The introduction page. *)
Lemma replace_all_same (fuel : nat) (pat prefix : string) (n : nat) :
  Str.has_char "$" prefix = false ->
  forall done s,
    Str.replace_all_from fuel pat (prefix +:+ Sync.toLocaleString (c1 n)) done s
    ~~ Str.replace_all_from fuel pat (prefix +:+ Sync.toLocaleString (c2 n)) done s.
Proof.
  intros Hprefix. destruct (stamps_plain n) as [[H1 _] [H2 _]].
  induction fuel as [| fuel IH]; intros done s; cbn [Str.replace_all_from].
  - apply same_refl.
  - destruct (Str.split_at pat s) as [[before after] |]; [| apply same_refl].
    apply same_app; [apply same_refl |]. apply same_app; [| apply IH].
    rewrite !expand_replacement_plain by assumption.
    rewrite <- (sapp_nil_r (Sync.toLocaleString (c1 n))) at 1.
    rewrite <- (sapp_nil_r (Sync.toLocaleString (c2 n))) at 1.
    rewrite !expand_replacement_plain by assumption.
    apply same_app; [apply same_refl |]. cbn [Str.expand_replacement].
    rewrite !sapp_nil_r. apply same_stamp.
Qed.

(** A token page. *)
Lemma token_page_same (title description heading body : string) (n : nat) :
  Sync.token_page title description heading (Sync.toLocaleString (c1 n)) body
  ~~ Sync.token_page title description heading (Sync.toLocaleString (c2 n)) body.
Proof.
  unfold Sync.token_page. repeat (apply same_app; [apply same_refl |]).
  constructor. apply same_refl.
Qed.

(** A component page. *)
Lemma component_page_same (content section : string) (n : nat) :
  Sync.remove_warnings
    (Sync.replace_section
       (Sync.section_replacement (Sync.toLocaleString (c1 n)) section) content)
  ~~ Sync.remove_warnings
       (Sync.replace_section
          (Sync.section_replacement (Sync.toLocaleString (c2 n)) section) content).
Proof.
  destruct (stamps_plain n) as [[Hd1 Hl1] [Hd2 Hl2]].
  unfold Sync.replace_section.
  destruct (Str.split_at Sync.section_heading content) as [[before rest] |];
    [| apply same_refl].
  set (cut := match Str.split_at "##" rest with
              | Some (m, a) => (m, "##" +:+ a)
              | None => (rest, "")
              end).
  destruct cut as [middle after].
  set (matched := Sync.section_heading +:+ middle).
  assert (Hshape : forall t,
            Str.has_char "$" t = false ->
            before +:+ Str.expand_replacement matched before after
                         (Sync.section_replacement t section) +:+ after
            = (before +:+ Sync.section_heading +:+ nl +:+ nl +:+ "<Note>" +:+ nl
               +:+ "  Last updated")
              +:+ String ":" (String " "
                    (t +:+ Str.expand_replacement matched before after
                             (nl +:+ "</Note>" +:+ nl +:+ nl +:+ section +:+ nl +:+ nl)
                       +:+ after))).
  { intros t Ht.
    change (Sync.section_replacement t section)
      with ((Sync.section_heading +:+ nl +:+ nl +:+ "<Note>" +:+ nl +:+ "  Last updated: ")
            +:+ t +:+ nl +:+ "</Note>" +:+ nl +:+ nl +:+ section +:+ nl +:+ nl).
    rewrite expand_replacement_plain by reflexivity.
    rewrite expand_replacement_plain by exact Ht.
    rewrite !sapp_assoc. reflexivity. }
  rewrite !Hshape by assumption.
  match goal with
  | |- Sync.remove_warnings (?u +:+ String ":" (String " " (_ +:+ ?v))) ~~ _ =>
      destruct (remove_warnings_hole u v) as (A & oB & HA)
  end.
  rewrite !HA by assumption. apply same_hole.
Qed.

End TwoClocks.

Section TwoRuns.

Variable fetch : Sync.HttpRequest -> Sync.FetchResult.
Variables mkdir_ok write_ok : string -> bool.
Variables c1 c2 : nat -> Sync.Instant.

Hypothesis stamps_plain :
  forall n, plain (Sync.toLocaleString (c1 n)) /\ plain (Sync.toLocaleString (c2 n)).

Local Notation "'w1'" := (world_at fetch mkdir_ok write_ok c1).
Local Notation "'w2'" := (world_at fetch mkdir_ok write_ok c2).
Local Notation "a ~~ b" := (same_but_stamps c1 c2 a b) (at level 70).

Lemma states_agree_weaken (D D' : list string) (st1 st2 : Sync.State) :
  incl D D' -> states_agree c1 c2 D st1 st2 -> states_agree c1 c2 D' st1 st2.
Proof.
  intros Hincl (Ht & Hc & Hr & Hw & Hclean & Hfiles).
  split; [exact Ht |]. split; [exact Hc |]. split; [exact Hr |]. split; [exact Hw |].
  split; [| exact Hfiles].
  intros p Hp. apply Hclean. intros Hin. apply Hp, Hincl, Hin.
Qed.

Lemma runs_agree_weaken {A : Type} (RA : A -> A -> Prop) (D D1 D2 : list string)
    (m1 m2 : M Sync.State A) :
  runs_agree c1 c2 RA D D1 m1 m2 -> incl D1 D2 -> runs_agree c1 c2 RA D D2 m1 m2.
Proof.
  intros H Hincl st1 st2 Hst. destruct (H st1 st2 Hst) as [Hs Hr].
  split; [eapply states_agree_weaken; eassumption | exact Hr].
Qed.

Lemma agree_ret {A : Type} (RA : A -> A -> Prop) (D : list string) (a1 a2 : A) :
  RA a1 a2 -> runs_agree c1 c2 RA D D (mret a1) (mret a2).
Proof. intros Ha st1 st2 Hst. split; [exact Hst | exact Ha]. Qed.

Lemma agree_bind {A B : Type} (RA : A -> A -> Prop) (RB : B -> B -> Prop)
    (D D1 D2 : list string) (m1 m2 : M Sync.State A) (k1 k2 : A -> M Sync.State B) :
  runs_agree c1 c2 RA D D1 m1 m2 ->
  (forall a1 a2, RA a1 a2 -> runs_agree c1 c2 RB D1 D2 (k1 a1) (k2 a2)) ->
  incl D1 D2 ->
  runs_agree c1 c2 RB D D2 (m1 ≫= k1) (m2 ≫= k2).
Proof.
  intros Hm Hk Hincl st1 st2 Hst. unfold mbind, M_bind, bind.
  destruct (Hm st1 st2 Hst) as [Hs Hr].
  destruct (m1 st1) as [[a1 | e1] s1], (m2 st2) as [[a2 | e2] s2];
    cbn [fst snd results_agree] in *; try contradiction.
  - apply Hk; assumption.
  - split; [eapply states_agree_weaken; eassumption | exact Hr].
Qed.

Lemma agree_try_catch {A : Type} (RA : A -> A -> Prop) (D D1 D2 : list string)
    (m1 m2 : M Sync.State A) (h1 h2 : string -> M Sync.State A) :
  runs_agree c1 c2 RA D D1 m1 m2 ->
  (forall e, runs_agree c1 c2 RA D1 D2 (h1 e) (h2 e)) ->
  incl D1 D2 ->
  runs_agree c1 c2 RA D D2 (try_catch m1 h1) (try_catch m2 h2).
Proof.
  intros Hm Hh Hincl st1 st2 Hst. unfold try_catch.
  destruct (Hm st1 st2 Hst) as [Hs Hr].
  destruct (m1 st1) as [[a1 | e1] s1], (m2 st2) as [[a2 | e2] s2];
    cbn [fst snd results_agree] in *; try contradiction.
  - split; [eapply states_agree_weaken; eassumption | exact Hr].
  - subst e2. apply Hh. exact Hs.
Qed.

Lemma agree_console_log (D : list string) (text : string) :
  runs_agree c1 c2 anything D D (Sync.console_log text) (Sync.console_log text).
Proof.
  intros st1 st2 (Ht & Hc & Hr & Hw & Hclean & Hfiles).
  split; [| exact I]. repeat split; cbn; auto. now rewrite Hc.
Qed.

Lemma agree_console_error (D : list string) (text : string) :
  runs_agree c1 c2 anything D D (Sync.console_error text) (Sync.console_error text).
Proof.
  intros st1 st2 (Ht & Hc & Hr & Hw & Hclean & Hfiles).
  split; [| exact I]. repeat split; cbn; auto. now rewrite Hc.
Qed.

Lemma agree_new_Date (D : list string) :
  runs_agree c1 c2 (same_reading c1 c2) D D (Sync.new_Date w1) (Sync.new_Date w2).
Proof.
  intros st1 st2 (Ht & Hc & Hr & Hw & Hclean & Hfiles). split.
  - repeat split; cbn; auto.
  - cbn. exists (Sync.ticks st1). split; [reflexivity | now rewrite Ht].
Qed.

Lemma agree_readFile (D : list string) (p : string) :
  ~ In p D -> runs_agree c1 c2 eq D D (Sync.readFile p) (Sync.readFile p).
Proof.
  intros Hp st1 st2 Hst. pose proof Hst as (_ & _ & _ & _ & Hclean & _).
  unfold Sync.readFile. rewrite <- (Hclean p Hp).
  destruct (Sync.files st1 !! p); cbn; auto.
Qed.

Lemma agree_writeFile (D : list string) (p a b : string) :
  a ~~ b ->
  runs_agree c1 c2 anything D (p :: D) (Sync.writeFile w1 p a) (Sync.writeFile w2 p b).
Proof.
  intros Hab st1 st2 Hst. unfold Sync.writeFile. cbn [Sync.write_ok world_at].
  destruct (write_ok p).
  - split; [| exact I]. destruct Hst as (Ht & Hc & Hr & Hw & Hclean & Hfiles).
    repeat split; cbn [Sync.files Sync.ticks Sync.console Sync.requests Sync.writes snd];
      auto.
    + rewrite !map_app, Hw. reflexivity.
    + intros q Hq. rewrite !lookup_insert_ne by (intros ->; apply Hq; left; reflexivity).
      apply Hclean. intros Hin. apply Hq. right. exact Hin.
    + intros q. destruct (String.eqb_spec p q) as [-> | Hne].
      * rewrite !lookup_insert_eq. exact Hab.
      * rewrite !lookup_insert_ne by assumption. apply Hfiles.
  - split; [| reflexivity]. cbn [snd].
    eapply states_agree_weaken; [| exact Hst]. intros q Hq. right. exact Hq.
Qed.

Lemma agree_page (D : list string) (title description heading body : string) :
  runs_agree c1 c2 (same_but_stamps c1 c2) D D
    (now ← Sync.new_Date w1;
     mret (Sync.token_page title description heading (Sync.toLocaleString now) body))
    (now ← Sync.new_Date w2;
     mret (Sync.token_page title description heading (Sync.toLocaleString now) body)).
Proof.
  eapply agree_bind; [apply agree_new_Date | | apply incl_refl].
  intros i1 i2 (n & -> & ->). apply agree_ret. apply token_page_same.
Qed.

Lemma agree_updateTokensPages (D : list string) (tokens : Sync.Tokens) :
  runs_agree c1 c2 anything D
    ("tokens/typography.mdx" :: "tokens/spacing.mdx" :: "tokens/colors.mdx" :: D)
    (Sync.updateTokensPages w1 tokens) (Sync.updateTokensPages w2 tokens).
Proof.
  unfold Sync.updateTokensPages, Sync.generateColorsPage, Sync.generateSpacingPage,
    Sync.generateTypographyPage.
  eapply agree_bind; [apply agree_page | | do 2 apply incl_tl; apply incl_tl, incl_refl].
  intros a1 a2 Ha.
  eapply agree_bind; [apply agree_writeFile; exact Ha | | do 2 apply incl_tl; apply incl_refl].
  intros _ _ _.
  eapply agree_bind; [apply agree_page | | do 2 apply incl_tl; apply incl_refl].
  intros b1 b2 Hb.
  eapply agree_bind; [apply agree_writeFile; exact Hb | | apply incl_tl, incl_refl].
  intros _ _ _.
  eapply agree_bind; [apply agree_page | | apply incl_tl, incl_refl].
  intros d1 d2 Hd. apply agree_writeFile. exact Hd.
Qed.

Lemma agree_updateComponentPage (D : list string) (componentType : string)
    (images : list Sync.Screenshot) :
  ~ In ("components/" +:+ componentType +:+ ".mdx") D ->
  runs_agree c1 c2 anything D (("components/" +:+ componentType +:+ ".mdx") :: D)
    (Sync.updateComponentPage w1 componentType images)
    (Sync.updateComponentPage w2 componentType images).
Proof.
  intros Hclean. unfold Sync.updateComponentPage.
  eapply agree_try_catch with (D1 := ("components/" +:+ componentType +:+ ".mdx") :: D);
    [| intros e; apply agree_console_error | apply incl_refl].
  eapply agree_bind; [apply agree_readFile; exact Hclean | | apply incl_tl, incl_refl].
  intros content ? <-.
  eapply agree_bind; [apply agree_new_Date | | apply incl_tl, incl_refl].
  intros i1 i2 (n & -> & ->).
  eapply agree_bind; [apply agree_writeFile | | apply incl_refl].
  - apply component_page_same. exact stamps_plain.
  - intros _ _ _. apply agree_console_log.
Qed.

(** One group of the loop: skipped on both sides, or its page updated on
    both sides. *)
Lemma agree_group (D D2 : list string) (skip : bool) (componentType : string)
    (images : list Sync.Screenshot) (rest1 rest2 : M Sync.State unit) :
  ~ In ("components/" +:+ componentType +:+ ".mdx") D ->
  runs_agree c1 c2 anything (("components/" +:+ componentType +:+ ".mdx") :: D) D2
    rest1 rest2 ->
  incl (("components/" +:+ componentType +:+ ".mdx") :: D) D2 ->
  runs_agree c1 c2 anything D D2
    (if skip then rest1 else Sync.updateComponentPage w1 componentType images;; rest1)
    (if skip then rest2 else Sync.updateComponentPage w2 componentType images;; rest2).
Proof.
  intros Hclean Hrest Hincl. destruct skip.
  - intros st1 st2 Hst. apply Hrest. eapply states_agree_weaken; [| exact Hst].
    apply incl_tl, incl_refl.
  - eapply agree_bind; [apply agree_updateComponentPage; exact Hclean | | exact Hincl].
    intros _ _ _. exact Hrest.
Qed.

Lemma agree_updateComponentPages (D : list string) (screenshots : list Sync.Screenshot) :
  (forall p, In p ["components/alerts.mdx"; "components/forms.mdx"; "components/cards.mdx"] ->
             ~ In p D) ->
  runs_agree c1 c2 anything D
    ("components/cards.mdx" :: "components/forms.mdx" :: "components/alerts.mdx" :: D)
    (Sync.updateComponentPages w1 screenshots) (Sync.updateComponentPages w2 screenshots).
Proof.
  intros Hclean. unfold Sync.updateComponentPages.
  eapply agree_bind; [apply agree_console_log | | do 3 apply incl_tl; apply incl_refl].
  intros _ _ _.
  destruct (List.length screenshots =? 0)%nat.
  { eapply runs_agree_weaken; [apply agree_console_log |].
    do 3 apply incl_tl; apply incl_refl. }
  cbn [Sync.componentGroups Sync.update_groups].
  apply (agree_group D _ _ "alerts").
  { apply Hclean. left. reflexivity. }
  2: { intros p [<- | Hp]; [right; right; left; reflexivity | do 3 right; exact Hp]. }
  apply (agree_group _ _ _ "forms").
  { intros [H | H]; [discriminate H |]. revert H. apply Hclean. right; left. reflexivity. }
  2: { intros p [<- | Hp]; [right; left; reflexivity | right; right; exact Hp]. }
  apply (agree_group _ _ _ "cards").
  { intros [H | [H | H]]; [discriminate H | discriminate H |].
    revert H. apply Hclean. right; right; left. reflexivity. }
  2: { apply incl_refl. }
  cbn. apply agree_ret. exact I.
Qed.

Lemma agree_updateDocumentation (tokens : option Sync.Tokens)
    (screenshots : list Sync.Screenshot) :
  runs_agree c1 c2 anything [] updater_paths
    (Sync.updateDocumentation w1 tokens screenshots)
    (Sync.updateDocumentation w2 tokens screenshots).
Proof.
  unfold Sync.updateDocumentation, updater_paths.
  eapply agree_bind; [apply agree_console_log | | intros p []].
  intros _ _ _.
  eapply agree_try_catch; [| intros e; apply agree_console_error | apply incl_refl].
  eapply agree_bind; [apply agree_readFile; intros [] | | intros p []].
  intros content ? <-.
  eapply agree_bind; [apply agree_new_Date | | intros p []].
  intros i1 i2 (n & -> & ->).
  eapply agree_bind with (D1 := ["introduction.mdx"]);
    [apply agree_writeFile | | do 6 apply incl_tl; apply incl_refl].
  { apply replace_all_same; [exact stamps_plain | reflexivity]. }
  intros _ _ _.
  eapply agree_bind
    with (D1 := ["tokens/typography.mdx"; "tokens/spacing.mdx"; "tokens/colors.mdx";
                 "introduction.mdx"]);
    [| | do 3 apply incl_tl; apply incl_refl].
  { destruct tokens as [tokens |].
    - apply agree_updateTokensPages.
    - eapply runs_agree_weaken; [apply agree_ret; exact I |].
      do 3 apply incl_tl; apply incl_refl. }
  intros _ _ _.
  eapply agree_bind; [| intros _ _ _; apply agree_console_log | apply incl_refl].
  destruct (0 <? List.length screenshots)%nat.
  - apply agree_updateComponentPages.
    intros p Hp Hin. cbn in Hp, Hin.
    destruct Hp as [<- | [<- | [<- | []]]];
      repeat (destruct Hin as [Hin | Hin]; [discriminate Hin |]); exact Hin.
  - eapply runs_agree_weaken; [apply agree_ret; exact I |].
    do 3 apply incl_tl; apply incl_refl.
Qed.

End TwoRuns.

Lemma states_agree_refl (c1 c2 : nat -> Sync.Instant) (st : Sync.State) :
  states_agree c1 c2 [] st st.
Proof.
  repeat split. intros p. destruct (Sync.files st !! p); [apply same_refl | exact I].
Qed.


Lemma digit_not (c : ascii) (n : nat) :
  (nat_of_ascii c < 48 \/ 57 < nat_of_ascii c)%nat -> Ascii.eqb (Str.digit n) c = false.
Proof.
  intros Hc. apply Ascii.eqb_neq. intros <-. unfold Str.digit in Hc.
  pose proof (Nat.mod_upper_bound n 10 ltac:(discriminate)) as Hlt.
  rewrite nat_ascii_embedding in Hc; lia.
Qed.

Lemma of_nat_fuel_has_char (c : ascii) (fuel n : nat) (acc : string) :
  (nat_of_ascii c < 48 \/ 57 < nat_of_ascii c)%nat ->
  Str.has_char c acc = false -> Str.has_char c (Str.of_nat_fuel fuel n acc) = false.
Proof.
  intros Hc. revert n acc. induction fuel as [| fuel IH]; intros n acc Hacc; [exact Hacc |].
  cbn [Str.of_nat_fuel].
  assert (Hstep : Str.has_char c (String (Str.digit n) acc) = false).
  { cbn [Str.has_char]. now rewrite (digit_not c n Hc), Hacc. }
  destruct (n <? 10)%nat; [exact Hstep | apply IH; exact Hstep].
Qed.

Lemma sample_clocks_plain (n : nat) :
  plain (Sync.toLocaleString (Sample.clock n))
  /\ plain (Sync.toLocaleString (Sample.later_clock n)).
Proof.
  unfold plain, Sample.clock, Sample.later_clock, Str.of_nat. cbn [Sync.toLocaleString].
  rewrite !has_char_app.
  rewrite !of_nat_fuel_has_char by (reflexivity || (vm_compute; lia)).
  repeat split; reflexivity.
Qed.


(** A second run on the files the first run left is another matter: the
    section the updater replaces ends at the first [##], which is now the
    sub-heading of the first entry, so the entries of the first run stay and
    those of the second are added before them. *)
Example second_run_repeats_entries :
  let shots := [Sync.screenshot_record Sample.cfg "alert:1"] in
  let once := snd (Sync.updateDocumentation (Sample.world_ok Sample.clock) None shots
                     Sample.state0) in
  let twice := snd (Sync.updateDocumentation (Sample.world_ok Sample.later_clock) None shots
                      once) in
  option_map (occurrences "## alert-1") (Sync.files once !! "components/alerts.mdx") = Some 1%nat
  /\ option_map (occurrences "## alert-1") (Sync.files twice !! "components/alerts.mdx")
     = Some 2%nat.
Proof. vm_compute. split; reflexivity. Qed.

(* ===================================================================== *)
(** * The receiver as a whole *)
(* ===================================================================== *)

Lemma nullish_dec (v : jsval) : nullish v \/ ~ nullish v.
Proof. unfold nullish. destruct v; auto; right; intros [? | ?]; discriminate. Qed.

(** The forwarder sends nothing or one POST. *)
Lemma triggerGitHubAction_at_most_one_post (w : Webhook.World) (ev : jsval)
    (st : Webhook.Effects) :
  exists r st',
    Webhook.triggerGitHubAction w ev st = (r, st')
    /\ (Webhook.sent st' = Webhook.sent st
        \/ exists rq, Webhook.sent st' = Webhook.sent st ++ [rq]
                      /\ Webhook.http_method rq = "POST").
Proof.
  destruct (Js.truthy (Webhook.GITHUB_TOKEN (Webhook.env w))) as [token |] eqn:Ht;
    [destruct (Js.truthy (Webhook.GITHUB_REPOSITORY (Webhook.env w)))
       as [repository |] eqn:Hr |].
  2, 3: rewrite triggerGitHubAction_config_absent by (unfold config_absent; auto);
        eexists _, _; split; [reflexivity | left; reflexivity].
  assert (Hcfg : forge_configured w token repository) by (split; assumption).
  destruct (nullish_dec ev) as [Hnull | Hobj].
  - destruct (triggerGitHubAction_nullish w ev st token repository Hcfg Hnull) as [e ->].
    eexists _, _. split; [reflexivity | left; reflexivity].
  - destruct (triggerGitHubAction_sends w ev st token repository Hcfg Hobj)
      as (rq & [Hpost _] & ->).
    destruct (Webhook.fetch w rq) as [e | s t]; [| destruct (Webhook.ok s)];
      eexists _, _; (split; [reflexivity | right; exists rq; split; [reflexivity | exact Hpost]]).
Qed.

(** X1: Every request is answered: the receiver never raises, its answer is
    200, 401, 405 or 500, and it sends nothing or, before a 200 or a 500, one
    POST. *)
Theorem handler_always_replies (w : Webhook.World) (req : Webhook.Request)
    (st : Webhook.Effects) :
  exists reply st',
    Webhook.handler w req st = (Ok reply, st')
    /\ In (Webhook.status reply) [200; 401; 405; 500]%nat
    /\ (Webhook.sent st' = Webhook.sent st
        \/ exists rq, Webhook.sent st' = Webhook.sent st ++ [rq]
                      /\ Webhook.http_method rq = "POST"
                      /\ (Webhook.status reply = 200 \/ Webhook.status reply = 500)%nat).
Proof.
  unfold Webhook.handler.
  destruct (String.eqb (Webhook.method req) "OPTIONS").
  { eexists _, _. split; [reflexivity |]. split; [cbn; auto | left; reflexivity]. }
  destruct (String.eqb (Webhook.method req) "POST"); cbn [negb].
  2: { eexists _, _. split; [reflexivity |]. split; [cbn; auto | left; reflexivity]. }
  assert (Hcatch : forall e st1,
            Webhook.sent st1 = Webhook.sent st
            \/ (exists rq, Webhook.sent st1 = Webhook.sent st ++ [rq]
                           /\ Webhook.http_method rq = "POST") ->
            exists reply st',
              (Webhook.console_error "Webhook processing error:" (Some (JStr e));;
               mret {| Webhook.status := 500;
                       Webhook.json := JObj [("error", JStr "Internal server error")] |})
                st1 = (Ok reply, st')
              /\ In (Webhook.status reply) [200; 401; 405; 500]%nat
              /\ (Webhook.sent st' = Webhook.sent st
                  \/ exists rq, Webhook.sent st' = Webhook.sent st ++ [rq]
                                /\ Webhook.http_method rq = "POST"
                                /\ (Webhook.status reply = 200
                                    \/ Webhook.status reply = 500)%nat)).
  { intros e st1 Hsent. eexists _, _. split; [reflexivity |]. split; [cbn; auto |].
    cbn [Webhook.sent Webhook.status].
    destruct Hsent as [H | (rq & H & Hp)]; [left; exact H | right; exists rq; auto]. }
  assert (Hevent : forall st1,
            Webhook.sent st1 = Webhook.sent st ->
            exists reply st',
              try_catch
                (let event := Webhook.body req in
                 Webhook.console_log "Received Figma webhook:" (Some event);;
                 event_type ← lift (Js.get event "event_type");
                 if Js.strict_eq_str event_type "FILE_UPDATE" then
                   Webhook.triggerGitHubAction w event;;
                   mret {| Webhook.status := 200;
                           Webhook.json :=
                             JObj [("message", JStr "Webhook processed successfully");
                                   ("triggered", JBool true)] |}
                 else
                   mret {| Webhook.status := 200;
                           Webhook.json := JObj [("message", JStr "Event ignored");
                                                 ("event_type", event_type)] |})
                (fun error =>
                   Webhook.console_error "Webhook processing error:" (Some (JStr error));;
                   mret {| Webhook.status := 500;
                           Webhook.json := JObj [("error", JStr "Internal server error")] |})
                st1 = (Ok reply, st')
              /\ In (Webhook.status reply) [200; 401; 405; 500]%nat
              /\ (Webhook.sent st' = Webhook.sent st
                  \/ exists rq, Webhook.sent st' = Webhook.sent st ++ [rq]
                                /\ Webhook.http_method rq = "POST"
                                /\ (Webhook.status reply = 200
                                    \/ Webhook.status reply = 500)%nat)).
  { intros st1 Hst1. cbv zeta. unfold try_catch at 1, mbind at 1 2, M_bind at 1 2, bind at 1 2.
    unfold Webhook.console_log at 1, lift at 1.
    destruct (Js.get (Webhook.body req) "event_type") as [event_type | e].
    2: { apply Hcatch. left. exact Hst1. }
    destruct (Js.strict_eq_str event_type "FILE_UPDATE").
    2: { eexists _, _. split; [reflexivity |]. split; [cbn; auto | left; exact Hst1]. }
    unfold mbind, M_bind, bind.
    match goal with
    | |- context [Webhook.triggerGitHubAction w ?ev ?s] =>
        destruct (triggerGitHubAction_at_most_one_post w ev s) as (r & s2 & -> & Hsent)
    end.
    cbn [Webhook.sent] in Hsent. rewrite Hst1 in Hsent.
    destruct r as [[] | e].
    - eexists _, _. split; [reflexivity |]. split; [cbn; auto |].
      cbn [Webhook.status].
      destruct Hsent as [H | (rq & H & Hp)]; [left; exact H | right; exists rq; auto].
    - apply Hcatch. exact Hsent. }
  destruct (Js.truthy (Webhook.FIGMA_WEBHOOK_SECRET (Webhook.env w))) as [secret |].
  2: { apply (Hevent st). reflexivity. }
  unfold Webhook.verifyFigmaWebhook.
  destruct (Js.stringify (Webhook.body req)) as [payload |].
  2: { unfold try_catch at 1, mbind at 1 2, M_bind at 1 2, bind at 1 2, lift at 1.
       apply Hcatch. left. reflexivity. }
  destruct (match Webhook.header "x-figma-signature" (Webhook.headers req) with
            | Some s => String.eqb s (hmac_sha256_hex payload secret)
            | None => false
            end) eqn:Hvalid.
  - apply (Hevent st). reflexivity.
  - eexists _, _. split; [reflexivity |]. split; [cbn; auto | left; reflexivity].
Qed.

(** X2: Without a signing secret (unset or empty) the signature header is not
    read: the receiver treats a request the same whatever its headers. *)
Theorem handler_without_secret_ignores_headers (w : Webhook.World) (req : Webhook.Request)
    (hs : list (string * string)) (st : Webhook.Effects) :
  Js.truthy (Webhook.FIGMA_WEBHOOK_SECRET (Webhook.env w)) = None ->
  Webhook.handler w {| Webhook.method := Webhook.method req;
                       Webhook.body := Webhook.body req;
                       Webhook.headers := hs |} st
  = Webhook.handler w req st.
Proof.
  intros Hs. unfold Webhook.handler. cbn [Webhook.method Webhook.body Webhook.headers].
  rewrite Hs. reflexivity.
Qed.

Lemma handler_without_secret_ignores_headers_witness :
  Webhook.handler Cases.open_receiver
    {| Webhook.method := "POST"; Webhook.body := Sample.file_update;
       Webhook.headers := [("x-figma-signature", "forged")] |} Webhook.no_effects
  = Webhook.handler Cases.open_receiver (Sample.unsigned_post Sample.file_update)
      Webhook.no_effects.
Proof.
  apply (handler_without_secret_ignores_headers Cases.open_receiver
           (Sample.unsigned_post Sample.file_update)
           [("x-figma-signature", "forged")] Webhook.no_effects).
  reflexivity.
Defined.

(** X3: A failed dispatch is answered 500 with a fixed error object: the cause
    (configuration absent, no response, or a response outside 200..299) is
    only written to the console.  Nothing is sent when the configuration is
    absent, one request otherwise. *)
Theorem handler_dispatch_failure_is_500 (w : Webhook.World) (req : Webhook.Request)
    (st : Webhook.Effects) :
  Webhook.method req = "POST" ->
  signature_accepted w req ->
  Js.get (Webhook.body req) "event_type" = Ok (JStr "FILE_UPDATE") ->
  (config_absent w
   \/ forall rq, (exists e, Webhook.fetch w rq = Webhook.NetworkError e)
                 \/ exists s t, Webhook.fetch w rq = Webhook.Response s t
                                /\ Webhook.ok s = false) ->
  exists e st',
    Webhook.handler w req st
    = (Ok {| Webhook.status := 500;
             Webhook.json := JObj [("error", JStr "Internal server error")] |}, st')
    /\ Webhook.console st'
       = Webhook.console st
         ++ [(Webhook.Log, "Received Figma webhook:", Some (Webhook.body req));
             (Webhook.Error, "Webhook processing error:", Some (JStr e))]
    /\ (config_absent w ->
        Webhook.sent st' = Webhook.sent st /\ e = "Missing GitHub configuration")
    /\ (~ config_absent w ->
        exists rq, Webhook.sent st' = Webhook.sent st ++ [rq]
                   /\ match Webhook.fetch w rq with
                      | Webhook.NetworkError e' => e = e'
                      | Webhook.Response s t =>
                          e = "GitHub API error: " +:+ Str.of_nat s +:+ " " +:+ t
                      end).
Proof.
  intros Hm Hsig Hget Hfail. rewrite (handler_accepted w req st Hm Hsig).
  unfold try_catch, mbind, M_bind, bind at 1 2, Webhook.console_log at 1, lift at 1.
  rewrite Hget. cbn [Js.strict_eq_str String.eqb Ascii.eqb Bool.eqb].
  unfold bind at 1.
  destruct (Js.truthy (Webhook.GITHUB_TOKEN (Webhook.env w))) as [token |] eqn:Ht;
    [destruct (Js.truthy (Webhook.GITHUB_REPOSITORY (Webhook.env w)))
       as [repository |] eqn:Hr |].
  2, 3: assert (Habs : config_absent w) by (unfold config_absent; auto);
        rewrite (triggerGitHubAction_config_absent w _ _ Habs);
        eexists _, _; split; [reflexivity |]; cbn [Webhook.console Webhook.sent];
        split; [now rewrite <- app_assoc |];
        split; [auto | intros H; now elim H].
  assert (Hcfg : forge_configured w token repository) by (split; assumption).
  assert (Hpresent : ~ config_absent w).
  { unfold config_absent. rewrite Ht, Hr. intros [? | ?]; discriminate. }
  destruct Hfail as [Habs | Hfail]; [now elim Hpresent |].
  match goal with
  | |- context [Webhook.triggerGitHubAction w ?ev ?s] =>
      destruct (triggerGitHubAction_sends w ev s token repository Hcfg
                  (get_ok_not_nullish _ _ _ Hget)) as (rq & _ & ->)
  end.
  destruct (Hfail rq) as [[e He] | (s & t & Hf & Hok)].
  - rewrite He. eexists _, _. split; [reflexivity |].
    cbn [Webhook.console Webhook.sent after_request].
    split; [now rewrite <- app_assoc |].
    split; [intros H; now elim Hpresent |].
    intros _. exists rq. rewrite He. auto.
  - rewrite Hf, Hok. eexists _, _. split; [reflexivity |].
    cbn [Webhook.console Webhook.sent after_request].
    split; [now rewrite <- app_assoc |].
    split; [intros H; now elim Hpresent |].
    intros _. exists rq. rewrite Hf. auto.
Qed.

Lemma handler_dispatch_failure_is_500_witness :
  exists e st',
    Webhook.handler Cases.forge_refuses (Sample.signed_post Sample.file_update)
      Webhook.no_effects
    = (Ok {| Webhook.status := 500;
             Webhook.json := JObj [("error", JStr "Internal server error")] |}, st')
    /\ Webhook.console st'
       = [(Webhook.Log, "Received Figma webhook:", Some Sample.file_update);
          (Webhook.Error, "Webhook processing error:", Some (JStr e))]
    /\ e = "GitHub API error: 401 Bad credentials".
Proof.
  destruct (handler_dispatch_failure_is_500 Cases.forge_refuses
              (Sample.signed_post Sample.file_update) Webhook.no_effects)
    as (e & st' & Hrun & Hcons & _ & Hsent).
  - reflexivity.
  - apply (sample_signature_accepted Sample.file_update _ eq_refl).
  - reflexivity.
  - right. intros rq. right. exists 401%nat, "Bad credentials". split; reflexivity.
  - exists e, st'. split; [exact Hrun |]. split; [exact Hcons |].
    destruct Hsent as (rq & _ & He).
    + intros [H | H]; discriminate H.
    + exact He.
Defined.

(** ** Where the dispatch goes *)

Lemma split_on_whole (sep : ascii) (s : string) :
  Str.has_char sep s = false -> Str.split_on sep s = [s].
Proof.
  induction s as [| c s IH]; [reflexivity |]. cbn [Str.has_char Str.split_on].
  intros H. apply orb_false_elim in H as [Hc Hs]. rewrite Hc, (IH Hs). reflexivity.
Qed.

Lemma split_on_first (sep : ascii) (a b : string) :
  Str.has_char sep a = false ->
  Str.split_on sep (a +:+ String sep b) = a :: Str.split_on sep b.
Proof.
  induction a as [| c a IH]; intros H.
  - rewrite sapp_nil_l. cbn [Str.split_on]. now rewrite Ascii.eqb_refl.
  - cbn [Str.has_char] in H. apply orb_false_elim in H as [Hc Ha].
    rewrite sapp_cons. cbn [Str.split_on]. rewrite Hc, (IH Ha). reflexivity.
Qed.

(** X4: The dispatch goes to the repository named by the first two segments of
    the repository setting: what follows a second slash is dropped, and a
    setting without a slash gives the repository name undefined. *)
Theorem dispatch_uses_first_two_segments (w : Webhook.World) (ev : jsval)
    (st : Webhook.Effects) (token repository : string) :
  forge_configured w token repository -> ~ nullish ev ->
  exists rq,
    Webhook.sent (snd (Webhook.triggerGitHubAction w ev st)) = Webhook.sent st ++ [rq]
    /\ (Str.has_char "/" repository = false ->
        Webhook.url rq
        = "https://api.github.com/repos/" +:+ repository +:+ "/undefined/dispatches")
    /\ (forall owner repo rest,
          Str.has_char "/" owner = false -> Str.has_char "/" repo = false ->
          repository = owner +:+ "/" +:+ repo +:+ rest ->
          rest = "" \/ Str.startsWith "/" rest = true ->
          Webhook.url rq
          = "https://api.github.com/repos/" +:+ owner +:+ "/" +:+ repo +:+ "/dispatches").
Proof.
  intros Hcfg Hev.
  destruct (triggerGitHubAction_sends w ev st token repository Hcfg Hev)
    as (rq & [_ Hurl] & ->).
  exists rq. split.
  { destruct (Webhook.fetch w rq) as [e | s t]; [| destruct (Webhook.ok s)]; reflexivity. }
  rewrite Hurl. unfold dispatch_endpoint, Webhook.dispatch_url. split.
  - intros Hno. rewrite (split_on_whole _ _ Hno). reflexivity.
  - intros owner repo rest Ho Hr -> Hrest.
    change (owner +:+ "/" +:+ repo +:+ rest) with (owner +:+ String "/" (repo +:+ rest)).
    rewrite (split_on_first _ _ _ Ho).
    destruct Hrest as [-> | Hrest].
    + rewrite sapp_nil_r, (split_on_whole _ _ Hr). reflexivity.
    + destruct rest as [| c rest]; cbn [Str.startsWith] in Hrest; [discriminate Hrest |].
      destruct (Ascii.eqb_spec "/" c) as [<- | _]; [| discriminate Hrest].
      rewrite (split_on_first _ _ _ Hr). reflexivity.
Qed.

Lemma dispatch_uses_first_two_segments_witness :
  exists rq,
    Webhook.sent (snd (Webhook.triggerGitHubAction Cases.bare_repository Sample.file_update
                         Webhook.no_effects)) = [rq]
    /\ Webhook.url rq = "https://api.github.com/repos/documentation/undefined/dispatches".
Proof.
  destruct (dispatch_uses_first_two_segments Cases.bare_repository Sample.file_update
              Webhook.no_effects "ghp_0123" "documentation")
    as (rq & Hsent & Hbare & _).
  - split; reflexivity.
  - intros [H | H]; discriminate H.
  - exists rq. split; [exact Hsent | apply Hbare; reflexivity].
Defined.

(* ===================================================================== *)
(** * The sync script as a whole *)
(* ===================================================================== *)

(** X5: The exit code: 1 exactly when the token or the file key is missing from
    the environment or one of the three directories cannot be created, and
    then nothing was requested and nothing written; any later failure
    (network, design API, file system) is logged and the run ends with 0. *)
Theorem script_exit_code (w : Sync.World) (e : Sync.Env) (st : Sync.State) :
  exists code st',
    Sync.script w e st = (Ok code, st')
    /\ (code = 0 \/ code = 1)%nat
    /\ (code = 0%nat
        <-> Js.truthy (Sync.env_FIGMA_TOKEN e) <> None
            /\ Js.truthy (Sync.env_FIGMA_FILE_KEY e) <> None
            /\ directories_ok w)
    /\ (code = 1%nat ->
        Sync.files st' = Sync.files st /\ Sync.writes st' = Sync.writes st
        /\ Sync.requests st' = Sync.requests st).
Proof.
  unfold Sync.script, directories_ok.
  destruct (Js.truthy (Sync.env_FIGMA_TOKEN e)) as [token |].
  2: { eexists _, _. split; [reflexivity |]. split; [auto |]. split.
       - split; [discriminate | intros [H _]; now elim H].
       - intros _. repeat split. }
  destruct (Js.truthy (Sync.env_FIGMA_FILE_KEY e)) as [key |].
  2: { eexists _, _. split; [reflexivity |]. split; [auto |]. split.
       - split; [discriminate | intros (_ & H & _); now elim H].
       - intros _. repeat split. }
  set (cfg := {| Sync.FIGMA_TOKEN := token; Sync.FIGMA_FILE_KEY := key;
                 Sync.GITHUB_REPOSITORY :=
                   default "hellojulian/mintlify" (Js.truthy (Sync.env_GITHUB_REPOSITORY e));
                 Sync.FIGMA_NODE_IDS := Sync.env_FIGMA_NODE_IDS e |}).
  unfold Sync.main, try_catch, mbind, M_bind, bind, Sync.mkdir, Sync.console_log at 1.
  assert (Hstop : forall text,
            exists code st',
              (Sync.console_error text;; mret 1%nat)
                (logged st (Sync.Log, "🎨 Starting Figma sync...")) = (Ok code, st')
              /\ (code = 0 \/ code = 1)%nat
              /\ (code = 0%nat -> False)
              /\ (code = 1%nat ->
                  Sync.files st' = Sync.files st /\ Sync.writes st' = Sync.writes st
                  /\ Sync.requests st' = Sync.requests st)).
  { intros text. eexists _, _. split; [reflexivity |]. split; [auto |].
    split; [discriminate |]. intros _. repeat split. }
  unfold logged in Hstop.
  destruct (Sync.mkdir_ok w "tokens/_data") eqn:Hd1.
  2: { destruct (Hstop ("💥 Sync failed: "
                        +:+ "EACCES: permission denied, mkdir '" +:+ "tokens/_data" +:+ "'"))
         as (code & st' & Hrun & Hcode & H0 & H1).
       exists code, st'. split; [exact Hrun |]. split; [exact Hcode |]. split; [| exact H1].
       split; [intros H; now apply H0 in H | intros (_ & _ & H & _); discriminate H]. }
  destruct (Sync.mkdir_ok w "public/images") eqn:Hd2.
  2: { destruct (Hstop ("💥 Sync failed: "
                        +:+ "EACCES: permission denied, mkdir '" +:+ "public/images" +:+ "'"))
         as (code & st' & Hrun & Hcode & H0 & H1).
       exists code, st'. split; [exact Hrun |]. split; [exact Hcode |]. split; [| exact H1].
       split; [intros H; now apply H0 in H | intros (_ & _ & _ & H & _); discriminate H]. }
  destruct (Sync.mkdir_ok w "components") eqn:Hd3.
  2: { destruct (Hstop ("💥 Sync failed: "
                        +:+ "EACCES: permission denied, mkdir '" +:+ "components" +:+ "'"))
         as (code & st' & Hrun & Hcode & H0 & H1).
       exists code, st'. split; [exact Hrun |]. split; [exact Hcode |]. split; [| exact H1].
       split; [intros H; now apply H0 in H | intros (_ & _ & _ & _ & H); discriminate H]. }
  match goal with
  | |- context [Sync.fetchDesignTokens w cfg ?s] =>
      destruct (fetchDesignTokens_never_throws w cfg s) as (tokens & s1 & ->)
  end.
  destruct (fetchScreenshots_never_throws w cfg s1) as (screenshots & s2 & ->).
  destruct (updateDocumentation_never_throws w tokens screenshots s2) as ([] & s3 & ->).
  eexists _, _. split; [reflexivity |]. split; [auto |]. split.
  - split; [intros _ | reflexivity]. repeat split; discriminate.
  - discriminate.
Qed.

(* ===================================================================== *)
(** * The token fetcher *)
(* ===================================================================== *)


(* ===================================================================== *)
(** * The screenshot fetcher: the list of nodes *)
(* ===================================================================== *)

Lemma download_each_appends (w : Sync.World) (cfg : Sync.Config)
    (entries : list (string * option string)) :
  forall (acc : list Sync.Screenshot) (st : Sync.State),
    exists more,
      Sync.requests (snd (Sync.download_each w cfg entries acc st))
      = Sync.requests st ++ more.
Proof.
  induction entries as [| [n o] rest IH]; intros acc st; cbn [Sync.download_each].
  - exists []. now rewrite app_nil_r.
  - destruct (Js.truthy o) as [u |]; [| apply IH].
    unfold Sync.downloadImage. sync_step.
    destruct (Sync.fetch w _) as [e | resp]; red_sync.
    { eexists. reflexivity. }
    destruct (Sync.write_ok w _); red_sync.
    2: { eexists. reflexivity. }
    match goal with
    | |- context [Sync.download_each w cfg rest ?a ?s] =>
        destruct (IH a s) as [more Hmore]
    end.
    rewrite Hmore. red_sync. rewrite <- app_assoc. eexists. reflexivity.
Qed.

(** X7: With the list of nodes unset the fetcher returns no record and sends
    nothing; with the list set, even to the empty text, it asks the design
    API for the images of the comma-separated pieces (one empty piece for the
    empty text). *)
Theorem fetchScreenshots_node_ids (w : Sync.World) (cfg : Sync.Config) (st : Sync.State) :
  match Sync.FIGMA_NODE_IDS cfg with
  | None =>
      Sync.fetchScreenshots w cfg st
      = (Ok [],
         logged (logged st (Sync.Log, "📸 Fetching screenshots..."))
           (Sync.Log,
            "⚠️  No node IDs specified. Set FIGMA_NODE_IDS env var with comma-separated node IDs"))
  | Some ids =>
      exists more,
        Sync.requests (snd (Sync.fetchScreenshots w cfg st))
        = Sync.requests st ++ Sync.images_request cfg (Str.split_on "," ids) :: more
  end
  /\ Sync.url (Sync.images_request cfg (Str.split_on "," ""))
     = "https://api.figma.com/v1/images/" +:+ Sync.FIGMA_FILE_KEY cfg
       +:+ "?ids=&format=png&scale=2".
Proof.
  split; [| reflexivity].
  unfold Sync.fetchScreenshots.
  destruct (Sync.FIGMA_NODE_IDS cfg) as [ids |]; [| reflexivity].
  destruct (List.length (Str.split_on "," ids) =? 0)%nat eqn:Hlen.
  { apply Nat.eqb_eq, length_zero_iff_nil in Hlen. now apply split_on_not_nil in Hlen. }
  sync_step.
  destruct (Sync.fetch w _) as [e | resp]; sync_step; [eexists; reflexivity |].
  destruct (Sync.ok resp); sync_step; [| eexists; reflexivity].
  destruct (Sync.json resp) as [payload |]; sync_step; [| eexists; reflexivity].
  destruct (Sync.as_images payload) as [images |]; sync_step; [| eexists; reflexivity].
  match goal with
  | |- context [Sync.download_each w cfg images ?a ?s] =>
      destruct (download_each_appends w cfg images a s) as [more Hmore];
      destruct (Sync.download_each w cfg images a s) as [[shots | e] s2]
  end; cbn [snd] in Hmore; red_sync; rewrite Hmore; red_sync;
    rewrite <- app_assoc; eexists; reflexivity.
Qed.

(* ===================================================================== *)
(** * Component pages: failures and pages without the section *)
(* ===================================================================== *)

(** X8: A page that cannot be read or written is reported on the console and
    left alone: the updater returns normally, so the pages after it are still
    treated. *)
Theorem updateComponentPage_failure_is_contained (w : Sync.World) (componentType : string)
    (images : list Sync.Screenshot) (st : Sync.State) :
  Sync.files st !! ("components/" +:+ componentType +:+ ".mdx") = None
  \/ Sync.write_ok w ("components/" +:+ componentType +:+ ".mdx") = false ->
  exists e st',
    Sync.updateComponentPage w componentType images st = (Ok tt, st')
    /\ Sync.files st' = Sync.files st /\ Sync.writes st' = Sync.writes st
    /\ Sync.console st'
       = Sync.console st
         ++ [(Sync.Error, "❌ Failed to update " +:+ componentType +:+ " page: " +:+ e)].
Proof.
  intros Hfail. unfold Sync.updateComponentPage. sync_step.
  destruct (Sync.files st !! ("components/" +:+ componentType +:+ ".mdx")) as [content |].
  - destruct Hfail as [Hfail | Hfail]; [discriminate Hfail |]. red_sync. rewrite Hfail.
    eexists _, _. split; [reflexivity |]. repeat split.
  - eexists _, _. split; [reflexivity |]. repeat split.
Qed.

Lemma updateComponentPage_failure_is_contained_witness :
  exists e st',
    Sync.updateComponentPage Sample.world "forms" [] Sample.state0 = (Ok tt, st')
    /\ Sync.files st' = Sync.files Sample.state0
    /\ Sync.console st' = [(Sync.Error, "❌ Failed to update forms page: " +:+ e)].
Proof.
  destruct (updateComponentPage_failure_is_contained Sample.world "forms" [] Sample.state0)
    as (e & st' & Hrun & Hfiles & _ & Hcons).
  - left. reflexivity.
  - exists e, st'. auto.
Defined.

Lemma split_at_none (pat s : string) :
  Str.includes s pat = false -> Str.split_at pat s = None.
Proof.
  induction s as [| c s IH]; cbn [Str.includes Str.split_at].
  - destruct (Str.startsWith pat ""); [discriminate | reflexivity].
  - destruct (Str.startsWith pat (String c s)); [discriminate |].
    intros H. now rewrite (IH H).
Qed.

(** X9: A page that does not contain the heading of the screenshots section gets
    no screenshot: it is written back with its warnings removed and nothing
    else changed, and the update is reported as done. *)
Theorem updateComponentPage_without_heading (w : Sync.World) (componentType : string)
    (images : list Sync.Screenshot) (st : Sync.State) (content : string) :
  Sync.files st !! ("components/" +:+ componentType +:+ ".mdx") = Some content ->
  Str.includes content "## Component Screenshots" = false ->
  Sync.write_ok w ("components/" +:+ componentType +:+ ".mdx") = true ->
  Sync.updateComponentPage w componentType images st
  = (Ok tt,
     {| Sync.files := <["components/" +:+ componentType +:+ ".mdx" :=
                          Sync.remove_warnings content]> (Sync.files st);
        Sync.ticks := S (Sync.ticks st);
        Sync.console :=
          Sync.console st
          ++ [(Sync.Log, "✅ Updated " +:+ componentType +:+ " page with "
                         +:+ Str.of_nat (List.length images) +:+ " screenshots")];
        Sync.requests := Sync.requests st;
        Sync.writes :=
          Sync.writes st
          ++ [("components/" +:+ componentType +:+ ".mdx", Sync.remove_warnings content)] |}).
Proof.
  intros Hread Hno Hw. unfold Sync.updateComponentPage. sync_step.
  rewrite Hread. red_sync. rewrite Hw.
  unfold Sync.replace_section, Sync.section_heading.
  rewrite (split_at_none _ _ Hno). reflexivity.
Qed.

Lemma updateComponentPage_without_heading_witness :
  exists st',
    Sync.updateComponentPage Sample.world "cards"
      [Sync.screenshot_record Sample.cfg "card:7"] Cases.with_cards = (Ok tt, st')
    /\ Sync.files st' !! "components/cards.mdx"
       = Some ("# Cards" +:+ nl +:+ nl +:+ "Cards group content." +:+ nl)
    /\ Sync.console st' = [(Sync.Log, "✅ Updated cards page with 1 screenshots")].
Proof.
  eexists. split.
  - apply (updateComponentPage_without_heading Sample.world "cards"
             [Sync.screenshot_record Sample.cfg "card:7"] Cases.with_cards Cases.cards_page).
    + reflexivity.
    + vm_compute. reflexivity.
    + reflexivity.
  - split; [| reflexivity]. cbn [Sync.files]. rewrite lookup_insert_eq.
    vm_compute. reflexivity.
Defined.

(** ** Which pages the component updater writes *)

Lemma updateComponentPage_writes (w : Sync.World) (componentType : string)
    (images : list Sync.Screenshot) (st : Sync.State) :
  exists st',
    Sync.updateComponentPage w componentType images st = (Ok tt, st')
    /\ (Sync.writes st' = Sync.writes st
        \/ exists content, Sync.writes st' = Sync.writes st ++ [(page_of componentType, content)]).
Proof.
  unfold Sync.updateComponentPage, page_of. sync_step.
  destruct (Sync.files st !! _) as [content |]; red_sync.
  2: { eexists. split; [reflexivity | left; reflexivity]. }
  destruct (Sync.write_ok w _); red_sync.
  - eexists. split; [reflexivity | right; eexists; reflexivity].
  - eexists. split; [reflexivity | left; reflexivity].
Qed.

Lemma update_groups_writes (w : Sync.World) (groups : list (string * list Sync.Screenshot)) :
  forall st,
    exists st' ws,
      Sync.update_groups w groups st = (Ok tt, st')
      /\ Sync.writes st' = Sync.writes st ++ ws
      /\ forall p content,
           In (p, content) ws ->
           exists componentType images,
             In (componentType, images) groups /\ componentType <> "other"
             /\ images <> [] /\ p = page_of componentType.
Proof.
  induction groups as [| [componentType images] groups IH]; intros st;
    cbn [Sync.update_groups].
  - exists st, []. rewrite app_nil_r. split; [reflexivity |]. split; [reflexivity |].
    intros p content [].
  - destruct (String.eqb_spec componentType "other") as [-> | Hother]; cbn [orb].
    { destruct (IH st) as (st' & ws & Hrun & Hws & Hall).
      exists st', ws. split; [exact Hrun |]. split; [exact Hws |].
      intros p content Hin. destruct (Hall p content Hin) as (t & imgs & Hg & H).
      exists t, imgs. split; [right; exact Hg | exact H]. }
    destruct images as [| img images]; cbn [List.length Nat.eqb].
    { destruct (IH st) as (st' & ws & Hrun & Hws & Hall).
      exists st', ws. split; [exact Hrun |]. split; [exact Hws |].
      intros p content Hin. destruct (Hall p content Hin) as (t & imgs & Hg & H).
      exists t, imgs. split; [right; exact Hg | exact H]. }
    unfold mbind, M_bind, bind.
    destruct (updateComponentPage_writes w componentType (img :: images) st)
      as (st1 & -> & Hw1).
    destruct (IH st1) as (st' & ws & Hrun & Hws & Hall).
    assert (Hrest : forall p content,
              In (p, content) ws ->
              exists t imgs,
                In (t, imgs) ((componentType, img :: images) :: groups) /\ t <> "other"
                /\ imgs <> [] /\ p = page_of t).
    { intros p content Hin. destruct (Hall p content Hin) as (t & imgs & Hg & H).
      exists t, imgs. split; [right; exact Hg | exact H]. }
    destruct Hw1 as [Hw1 | [c Hw1]].
    + exists st', ws. split; [exact Hrun |]. split; [now rewrite Hws, Hw1 | exact Hrest].
    + exists st', ((page_of componentType, c) :: ws). split; [exact Hrun |].
      split; [rewrite Hws, Hw1, <- app_assoc; reflexivity |].
      intros p content [[= <- <-] | Hin]; [| exact (Hrest _ _ Hin)].
      exists componentType, (img :: images).
      split; [left; reflexivity |]. split; [exact Hother |]. split; [discriminate | reflexivity].
Qed.

Lemma filter_unmatched {A : Type} (f g : A -> bool) (l : list A) :
  Forall (fun x => g x = true) l -> (forall x, g x = true -> f x = false) ->
  List.filter f l = [].
Proof.
  intros Hl Hf. induction Hl as [| x l Hx _ IH]; [reflexivity |].
  cbn [List.filter]. now rewrite (Hf x Hx).
Qed.

(** X10: The component updater always returns, and every file it writes is the
    page of one of the groups alerts, forms and cards that has at least one
    screenshot: the screenshots of the group other, which match none of the
    substrings, reach no page. *)
Theorem updateComponentPages_writes_matched_groups (w : Sync.World)
    (screenshots : list Sync.Screenshot) (st : Sync.State) :
  exists st' ws,
    Sync.updateComponentPages w screenshots st = (Ok tt, st')
    /\ Sync.writes st' = Sync.writes st ++ ws
    /\ (forall p content,
          In (p, content) ws ->
          exists componentType,
            In componentType ["alerts"; "forms"; "cards"]
            /\ p = "components/" +:+ componentType +:+ ".mdx"
            /\ group_of componentType screenshots <> [])
    /\ (Forall (fun img => Sync.in_other img = true) screenshots -> ws = []).
Proof.
  unfold Sync.updateComponentPages. sync_step.
  destruct (List.length screenshots =? 0)%nat.
  { eexists _, []. split; [reflexivity |]. red_sync. rewrite app_nil_r.
    split; [reflexivity |]. split; [intros p content [] | reflexivity]. }
  match goal with
  | |- context [Sync.update_groups w ?g ?s] =>
      destruct (update_groups_writes w g s) as (st' & ws & Hrun & Hws & Hall)
  end.
  exists st', ws. split; [exact Hrun |]. split; [exact Hws |].
  assert (Hpages : forall p content,
            In (p, content) ws ->
            exists componentType,
              In componentType ["alerts"; "forms"; "cards"]
              /\ p = "components/" +:+ componentType +:+ ".mdx"
              /\ group_of componentType screenshots <> []).
  { intros p content Hin.
    destruct (Hall p content Hin) as (t & imgs & Hg & Hother & Hne & ->).
    unfold Sync.componentGroups in Hg. cbn [In] in Hg.
    destruct Hg as [[= <- <-] | [[= <- <-] | [[= <- <-] | [[= <- <-] | []]]]].
    - exists "alerts". split; [cbn; auto |]. split; [reflexivity | exact Hne].
    - exists "forms". split; [cbn; auto |]. split; [reflexivity | exact Hne].
    - exists "cards". split; [cbn; auto |]. split; [reflexivity | exact Hne].
    - now elim Hother. }
  split; [exact Hpages |].
  intros Hothers. destruct ws as [| [p content] ws]; [reflexivity |]. exfalso.
  destruct (Hpages p content (or_introl eq_refl)) as (t & Ht & _ & Hne).
  apply Hne. clear Hne.
  cbn [In] in Ht.
  destruct Ht as [<- | [<- | [<- | []]]];
    apply (filter_unmatched _ _ _ Hothers);
    intros img Himg; apply in_other_iff in Himg; tauto.
Qed.

(* ===================================================================== *)
(** * The documentation updater: the introduction page comes first *)
(* ===================================================================== *)

(** X11: When the introduction page cannot be read or written, the updater stops
    there: the token pages and the component pages are not written, whatever
    tokens and screenshots it was given; it reports the failure on the
    console and returns normally. *)
Theorem updateDocumentation_needs_introduction (w : Sync.World)
    (tokens : option Sync.Tokens) (screenshots : list Sync.Screenshot) (st : Sync.State) :
  Sync.files st !! "introduction.mdx" = None
  \/ Sync.write_ok w "introduction.mdx" = false ->
  exists e st',
    Sync.updateDocumentation w tokens screenshots st = (Ok tt, st')
    /\ Sync.files st' = Sync.files st /\ Sync.writes st' = Sync.writes st
    /\ Sync.console st'
       = Sync.console st
         ++ [(Sync.Log, "📝 Updating documentation...");
             (Sync.Error, "❌ Failed to update documentation: " +:+ e)].
Proof.
  intros Hfail. unfold Sync.updateDocumentation. sync_step.
  destruct (Sync.files st !! "introduction.mdx") as [intro |].
  - destruct Hfail as [Hfail | Hfail]; [discriminate Hfail |]. red_sync. rewrite Hfail.
    eexists _, _. split; [reflexivity |]. red_sync.
    split; [reflexivity |]. split; [reflexivity |]. now rewrite <- app_assoc.
  - eexists _, _. split; [reflexivity |]. red_sync.
    split; [reflexivity |]. split; [reflexivity |]. now rewrite <- app_assoc.
Qed.

Lemma updateDocumentation_needs_introduction_witness :
  exists e st',
    Sync.updateDocumentation Sample.world
      (Some (Sync.transformVariablesToTokens "2026-01-05T02:10:00.000Z" Sample.tokens_data))
      [Sync.screenshot_record Sample.cfg "alert:1"]
      {| Sync.files := <["components/alerts.mdx" := Sample.alerts_page]> ∅;
         Sync.ticks := 0; Sync.console := []; Sync.requests := []; Sync.writes := [] |}
    = (Ok tt, st')
    /\ Sync.writes st' = []
    /\ Sync.console st'
       = [(Sync.Log, "📝 Updating documentation...");
          (Sync.Error, "❌ Failed to update documentation: " +:+ e)].
Proof.
  destruct (updateDocumentation_needs_introduction Sample.world
              (Some (Sync.transformVariablesToTokens "2026-01-05T02:10:00.000Z"
                       Sample.tokens_data))
              [Sync.screenshot_record Sample.cfg "alert:1"]
              {| Sync.files := <["components/alerts.mdx" := Sample.alerts_page]> ∅;
                 Sync.ticks := 0; Sync.console := []; Sync.requests := [];
                 Sync.writes := [] |})
    as (e & st' & Hrun & _ & Hw & Hc).
  - left. reflexivity.
  - exists e, st'. auto.
Defined.

(* ===================================================================== *)
(** * The token transform: which write stays *)
(* ===================================================================== *)

Lemma find_app_last {A : Type} (p : A -> bool) (l : list A) (x : A) :
  List.find p (rev (x :: l))
  = match List.find p (rev l) with
    | Some y => Some y
    | None => if p x then Some x else None
    end.
Proof.
  cbn [rev]. induction (rev l) as [| y r IH]; cbn [app List.find]; [reflexivity |].
  destruct (p y); [reflexivity | exact IH].
Qed.

Lemma find_rev_app {A : Type} (p : A -> bool) (l1 l2 : list A) :
  List.find p (rev (l1 ++ l2))
  = match List.find p (rev l2) with
    | Some y => Some y
    | None => List.find p (rev l1)
    end.
Proof.
  rewrite rev_app_distr. induction (rev l2) as [| y r IH]; cbn [app List.find]; [reflexivity |].
  destruct (p y); [reflexivity | exact IH].
Qed.

Lemma add_variable_lastSync (c : Collection.t) (tokens : Sync.Tokens)
    (v : DesignVariable.t) :
  Sync.lastSync (Sync.add_variable c tokens v) = Sync.lastSync tokens.
Proof.
  unfold Sync.add_variable.
  repeat match goal with |- context [if ?b then _ else _] => destruct b end; reflexivity.
Qed.

(** One pass over the variables for a collection: the name is read from the
    last variable that wrote it, or else as before the pass. *)
Lemma fold_variables_get (c : Collection.t) (cat : Category) (n : string)
    (vs : list DesignVariable.t) :
  forall tokens,
    Dict.get n (dict_of cat (fold_left (Sync.add_variable c) vs tokens))
    = match List.find (writes_name cat n) (rev (map (pair c) vs)) with
      | Some cv => Some (token_of cat (fst cv) (snd cv))
      | None => Dict.get n (dict_of cat tokens)
      end
    /\ Sync.lastSync (fold_left (Sync.add_variable c) vs tokens) = Sync.lastSync tokens.
Proof.
  induction vs as [| v vs IH]; intros tokens; [split; reflexivity |].
  cbn [fold_left map]. destruct (IH (Sync.add_variable c tokens v)) as [-> ->].
  rewrite add_variable_lastSync. split; [| reflexivity].
  rewrite find_app_last.
  destruct (List.find (writes_name cat n) (rev (map (pair c) vs))); [reflexivity |].
  rewrite add_variable_category. unfold writes_name. cbn [fst snd].
  destruct (String.eqb (DesignVariable.variableCollectionId v) (Collection.id c));
    [| reflexivity].
  cbn [andb].
  destruct (category c v) as [cat' |]; [| now rewrite andb_false_r].
  destruct (String.eqb n (DesignVariable.name v)); destruct cat, cat'; reflexivity.
Qed.

Lemma fold_collections_get (m : Meta) (vs : list DesignVariable.t) (cat : Category)
    (n : string) (cs : list Collection.t) :
  variables m = Some vs ->
  forall tokens,
    Dict.get n (dict_of cat (fold_left (Sync.add_collection m) cs tokens))
    = match List.find (writes_name cat n)
              (rev (flat_map (fun c => map (pair c) vs) cs)) with
      | Some cv => Some (token_of cat (fst cv) (snd cv))
      | None => Dict.get n (dict_of cat tokens)
      end
    /\ Sync.lastSync (fold_left (Sync.add_collection m) cs tokens) = Sync.lastSync tokens.
Proof.
  intros Hvs. induction cs as [| c cs IH]; intros tokens; [split; reflexivity |].
  cbn [fold_left flat_map]. destruct (IH (Sync.add_collection m tokens c)) as [-> ->].
  unfold Sync.add_collection. rewrite Hvs.
  destruct (fold_variables_get c cat n vs tokens) as [-> ->]. split; [| reflexivity].
  rewrite find_rev_app.
  destruct (List.find (writes_name cat n) (rev (flat_map (fun c0 => map (pair c0) vs) cs)));
    reflexivity.
Qed.

Lemma fold_collections_without_variables (m : Meta) (cs : list Collection.t)
    (tokens : Sync.Tokens) :
  variables m = None -> fold_left (Sync.add_collection m) cs tokens = tokens.
Proof.
  intros Hvs. induction cs as [| c cs IH]; [reflexivity |].
  cbn [fold_left]. unfold Sync.add_collection at 2. rewrite Hvs. exact IH.
Qed.


Example later_variable_of_the_same_name_stays :
  Sync.colors (Sync.transformVariablesToTokens "2026-01-05T02:10:00.000Z" Cases.twice)
  = [("Primary Color", {| value := JStr "#ff5500"; type := "color" |})].
Proof. vm_compute. reflexivity. Qed.

(* ===================================================================== *)
(** * File names of the screenshots *)
(* ===================================================================== *)

Lemma replace_colons_idempotent (s : string) :
  Str.replace_colons (Str.replace_colons s) = Str.replace_colons s.
Proof.
  induction s as [| c s IH]; [reflexivity |]. cbn [Str.replace_colons]. rewrite IH.
  destruct (Ascii.eqb c ":") eqn:Hc; [reflexivity | now rewrite Hc].
Qed.

(** X13: The file name does not tell a colon from a hyphen: a node whose
    identifier has a colon and the node named like it with hyphens are two
    nodes with one file name, one download path and one raw URL, so the later
    download replaces the earlier. *)
Theorem screenshot_filename_collides (cfg : Sync.Config) (nodeId : string) :
  Str.has_char ":" nodeId = true ->
  Str.replace_colons nodeId <> nodeId
  /\ Sync.filename (Sync.screenshot_record cfg (Str.replace_colons nodeId))
     = Sync.filename (Sync.screenshot_record cfg nodeId)
  /\ screenshot_path (Str.replace_colons nodeId) = screenshot_path nodeId
  /\ Sync.path (Sync.screenshot_record cfg (Str.replace_colons nodeId))
     = Sync.path (Sync.screenshot_record cfg nodeId).
Proof.
  intros Hc. split.
  - intros Heq. pose proof (replace_colons_no_colon nodeId) as Hno.
    rewrite Heq in Hno. congruence.
  - unfold screenshot_path, Sync.screenshot_record, Sync.screenshot_filename.
    cbn [Sync.filename Sync.path]. rewrite replace_colons_idempotent. auto.
Qed.

Lemma screenshot_filename_collides_witness :
  "12-34" <> "12:34"
  /\ Sync.filename (Sync.screenshot_record Sample.cfg "12-34")
     = Sync.filename (Sync.screenshot_record Sample.cfg "12:34").
Proof.
  destruct (screenshot_filename_collides Sample.cfg "12:34" eq_refl) as (Hne & Hfile & _).
  split; [exact Hne | exact Hfile].
Defined.

(* ===================================================================== *)
(** * The screenshots section on a page that was already updated *)
(* ===================================================================== *)

Lemma startsWith_prefix_stable (pat u x : string) :
  (String.length pat <= String.length u)%nat ->
  Str.startsWith pat (u +:+ x) = Str.startsWith pat u.
Proof.
  revert u. induction pat as [| c pat IH]; intros u H; [reflexivity |].
  destruct u as [| d u]; cbn [String.length] in H; [lia |].
  rewrite sapp_cons. cbn [Str.startsWith].
  destruct (Ascii.eqb c d); [apply IH; lia | reflexivity].
Qed.

Lemma drop_length_app (a b : string) : Str.drop (String.length a) (a +:+ b) = b.
Proof. induction a as [| c a IH]; [reflexivity |]. rewrite sapp_cons. exact IH. Qed.

(** Where a pattern is first found does not depend on what follows it. *)
Lemma split_at_first_any (pat s a x : string) :
  Str.split_at pat s = Some (a, x) ->
  forall y, Str.split_at pat (a +:+ pat +:+ y) = Some (a, y).
Proof.
  revert a x. induction s as [| c s IH]; intros a x H y.
  - cbn [Str.split_at] in H. destruct (Str.startsWith pat ""); [| discriminate H].
    injection H as <- _. rewrite sapp_nil_l.
    destruct (pat +:+ y) eqn:Hpy; cbn [Str.split_at]; rewrite <- ?Hpy;
      rewrite startsWith_app, drop_length_app; reflexivity.
  - cbn [Str.split_at] in H. destruct (Str.startsWith pat (String c s)) eqn:Hs.
    + injection H as <- _. rewrite sapp_nil_l.
      destruct (pat +:+ y) eqn:Hpy; cbn [Str.split_at]; rewrite <- ?Hpy;
        rewrite startsWith_app, drop_length_app; reflexivity.
    + destruct (Str.split_at pat s) as [[a' b'] |] eqn:Hrec; [| discriminate H].
      injection H as <- <-. rewrite sapp_cons. cbn [Str.split_at].
      rewrite (IH a' b' eq_refl y).
      apply split_at_cut in Hrec. subst s.
      assert (Hlen : (String.length pat <= String.length (String c a' +:+ pat))%nat).
      { rewrite sapp_length. lia. }
      rewrite <- sapp_cons, <- sapp_assoc in Hs.
      rewrite (startsWith_prefix_stable pat _ b' Hlen) in Hs.
      rewrite <- sapp_cons, <- sapp_assoc.
      rewrite (startsWith_prefix_stable pat _ y Hlen), Hs. reflexivity.
Qed.

Lemma expand_replacement_none (matched before after r : string) :
  Str.has_char "$" r = false -> Str.expand_replacement matched before after r = r.
Proof.
  intros H. rewrite <- (sapp_nil_r r) at 1.
  rewrite (expand_replacement_plain _ _ _ _ _ H). cbn [Str.expand_replacement].
  apply sapp_nil_r.
Qed.

(** The entries of a list of screenshots that is not empty start with the
    sub-heading of the first. *)
Lemma entries_start_with_heading (images : list Sync.Screenshot) :
  images <> [] ->
  exists tail,
    Str.join nl (map Sync.screenshot_entry images) = nl +:+ "## " +:+ tail.
Proof.
  destruct images as [| img rest]; [intros H; now elim H | intros _].
  cbn [map Str.join].
  destruct (map Sync.screenshot_entry rest) as [| e es];
    unfold Sync.screenshot_entry; rewrite ?sapp_assoc; eexists; reflexivity.
Qed.

(** The section step on a page whose section was written by an earlier
    update: the match ends at the sub-heading of the first old entry. *)
Lemma replace_section_updated (A t tail after r : string) :
  (forall y,
     Str.split_at Sync.section_heading (A +:+ Sync.section_heading +:+ y) = Some (A, y)) ->
  Str.has_char "#" t = false ->
  Str.has_char "$" r = false ->
  Sync.replace_section r
    (A +:+ Sync.section_replacement t (nl +:+ "## " +:+ tail) +:+ after)
  = A +:+ r +:+ "## " +:+ tail +:+ nl +:+ nl +:+ after.
Proof.
  intros Hfirst Ht Hr.
  set (note := nl +:+ nl +:+ "<Note>" +:+ nl +:+ "  Last updated: " +:+ t +:+ nl
               +:+ "</Note>" +:+ nl +:+ nl +:+ nl).
  assert (Hpage : A +:+ Sync.section_replacement t (nl +:+ "## " +:+ tail) +:+ after
                  = A +:+ Sync.section_heading
                    +:+ (note +:+ String "#" (String "#" (" " +:+ tail +:+ nl +:+ nl +:+ after)))).
  { unfold Sync.section_replacement, note. rewrite !sapp_assoc. reflexivity. }
  rewrite Hpage. unfold Sync.replace_section. rewrite Hfirst.
  assert (Hnote : Str.has_char "#" note = false).
  { unfold note. rewrite !has_char_app, Ht. reflexivity. }
  rewrite (split_at_skip "#" "#" note _ Hnote).
  cbn [Str.split_at Str.startsWith Ascii.eqb Bool.eqb String.length Str.drop].
  rewrite (expand_replacement_none _ _ _ _ Hr). reflexivity.
Qed.

(** X14: The section step, done twice: the first update puts its section in place
    of the old one; the second finds the section heading again but stops at
    the sub-heading of the first entry the first update wrote, so it puts its
    section before the entries of the first update, which all stay on the
    page.  (The stamp of the first update has no number sign, and the two
    replacement texts no dollar sign.) *)
Theorem second_update_keeps_first_entries (content A rest t1 t2 : string)
    (images1 images2 : list Sync.Screenshot) :
  Str.split_at "## Component Screenshots" content = Some (A, rest) ->
  images1 <> [] ->
  Str.has_char "#" t1 = false ->
  Str.has_char "$"
    (Sync.section_replacement t1 (Str.join nl (map Sync.screenshot_entry images1))) = false ->
  Str.has_char "$"
    (Sync.section_replacement t2 (Str.join nl (map Sync.screenshot_entry images2))) = false ->
  exists after,
    Sync.replace_section
      (Sync.section_replacement t1 (Str.join nl (map Sync.screenshot_entry images1))) content
    = A +:+ Sync.section_replacement t1 (Str.join nl (map Sync.screenshot_entry images1))
      +:+ after
    /\ Sync.replace_section
         (Sync.section_replacement t2 (Str.join nl (map Sync.screenshot_entry images2)))
         (Sync.replace_section
            (Sync.section_replacement t1 (Str.join nl (map Sync.screenshot_entry images1)))
            content)
       = A +:+ Sync.section_replacement t2 (Str.join nl (map Sync.screenshot_entry images2))
         +:+ Str.drop 1 (Str.join nl (map Sync.screenshot_entry images1))
         +:+ nl +:+ nl +:+ after.
Proof.
  intros Hsplit Hne Ht1 Hr1 Hr2.
  destruct (entries_start_with_heading images1 Hne) as [tail Htail].
  set (after := match Str.split_at "##" rest with
                | Some (_, a) => "##" +:+ a
                | None => ""
                end).
  exists after.
  assert (Hfirst : Sync.replace_section
                     (Sync.section_replacement t1
                        (Str.join nl (map Sync.screenshot_entry images1))) content
                   = A +:+ Sync.section_replacement t1
                             (Str.join nl (map Sync.screenshot_entry images1))
                     +:+ after).
  { unfold Sync.replace_section, Sync.section_heading at 1. rewrite Hsplit. unfold after.
    destruct (Str.split_at "##" rest) as [[m a] |];
      rewrite (expand_replacement_none _ _ _ _ Hr1); reflexivity. }
  split; [exact Hfirst |].
  rewrite Hfirst, Htail.
  rewrite (replace_section_updated A t1 tail after _
             (split_at_first_any _ _ _ _ Hsplit) Ht1 Hr2).
  reflexivity.
Qed.

Lemma second_update_keeps_first_entries_witness :
  exists after,
    Sync.replace_section
      (Sync.section_replacement "1/12/2026, 3:10:00 AM"
         (Str.join nl (map Sync.screenshot_entry
                         [Sync.screenshot_record Sample.cfg "alert:2"])))
      (Sync.replace_section
         (Sync.section_replacement "1/5/2026, 2:10:00 AM"
            (Str.join nl (map Sync.screenshot_entry
                            [Sync.screenshot_record Sample.cfg "alert:1"])))
         Sample.alerts_page)
    = ("# Alerts" +:+ nl +:+ nl
       +:+ "<Warning>" +:+ nl +:+ "  No screenshots yet." +:+ nl +:+ "</Warning>" +:+ nl +:+ nl)
      +:+ Sync.section_replacement "1/12/2026, 3:10:00 AM"
            (Str.join nl (map Sync.screenshot_entry
                            [Sync.screenshot_record Sample.cfg "alert:2"]))
      +:+ Str.drop 1 (Str.join nl (map Sync.screenshot_entry
                                     [Sync.screenshot_record Sample.cfg "alert:1"]))
      +:+ nl +:+ nl +:+ after.
Proof.
  destruct (second_update_keeps_first_entries Sample.alerts_page
              ("# Alerts" +:+ nl +:+ nl
               +:+ "<Warning>" +:+ nl +:+ "  No screenshots yet." +:+ nl +:+ "</Warning>"
               +:+ nl +:+ nl)
              (nl +:+ nl +:+ "Pending the first sync." +:+ nl +:+ nl
               +:+ "## Usage" +:+ nl +:+ nl +:+ "Use alerts sparingly." +:+ nl)
              "1/5/2026, 2:10:00 AM" "1/12/2026, 3:10:00 AM"
              [Sync.screenshot_record Sample.cfg "alert:1"]
              [Sync.screenshot_record Sample.cfg "alert:2"])
    as (after & _ & Hsecond).
  - vm_compute. reflexivity.
  - discriminate.
  - reflexivity.
  - vm_compute. reflexivity.
  - vm_compute. reflexivity.
  - exists after. exact Hsecond.
Defined.

(* ===================================================================== *)
(** * The last-sync line of the introduction *)
(* ===================================================================== *)

Lemma startsWith_extend (pat u x : string) :
  Str.startsWith pat u = true -> Str.startsWith pat (u +:+ x) = true.
Proof.
  intros H. rewrite startsWith_prefix_stable; [exact H | now apply startsWith_length].
Qed.

Lemma startsWith_stop (c : ascii) (pat w y : string) :
  Str.has_char c pat = false ->
  Str.startsWith pat (w +:+ String c y) = Str.startsWith pat w.
Proof.
  revert w. induction pat as [| a pat IH]; intros w H; [reflexivity |].
  cbn [Str.has_char] in H. apply orb_false_elim in H as [Ha Hpat].
  destruct w as [| d w].
  - rewrite sapp_nil_l. cbn [Str.startsWith]. now rewrite Ha.
  - rewrite sapp_cons. cbn [Str.startsWith].
    destruct (Ascii.eqb a d); [now apply IH | reflexivity].
Qed.

Lemma startsWith_common (a p x : string) :
  Str.startsWith (a +:+ p) (a +:+ x) = Str.startsWith p x.
Proof.
  induction a as [| c a IH]; [reflexivity |].
  rewrite !sapp_cons. cbn [Str.startsWith]. now rewrite Ascii.eqb_refl.
Qed.

Lemma includes_nil (c : ascii) (p : string) : Str.includes "" (String c p) = false.
Proof. reflexivity. Qed.

Lemma includes_cons (d : ascii) (s pat : string) :
  Str.includes (String d s) pat
  = if Str.startsWith pat (String d s) then true else Str.includes s pat.
Proof. reflexivity. Qed.

Lemma split_at_none_includes (pat s : string) :
  Str.split_at pat s = None -> Str.includes s pat = false.
Proof.
  induction s as [| c s IH]; cbn [Str.includes Str.split_at].
  - destruct (Str.startsWith pat ""); [discriminate | reflexivity].
  - destruct (Str.startsWith pat (String c s)); [discriminate |].
    destruct (Str.split_at pat s) as [[a b] |]; [discriminate |]. intros _. now apply IH.
Qed.

(** The text before the first occurrence of a pattern has none. *)
Lemma split_at_before_clean (c : ascii) (p s before after : string) :
  Str.split_at (String c p) s = Some (before, after) ->
  Str.includes before (String c p) = false.
Proof.
  revert before after. induction s as [| d s IH]; intros before after H.
  - cbn in H. discriminate H.
  - cbn [Str.split_at] in H.
    destruct (Str.startsWith (String c p) (String d s)) eqn:Hs.
    + injection H as <- _. reflexivity.
    + destruct (Str.split_at (String c p) s) as [[a b] |] eqn:Hrec; [| discriminate H].
      injection H as <- <-. rewrite includes_cons, (IH a b eq_refl).
      destruct (Str.startsWith (String c p) (String d a)) eqn:Ha; [| reflexivity].
      apply split_at_cut in Hrec. subst s.
      rewrite <- sapp_cons in Hs.
      rewrite (startsWith_extend _ _ _ Ha) in Hs. discriminate Hs.
Qed.

(** A pattern whose first byte does not come back in it cannot straddle a
    place where the text has that byte. *)
Lemma includes_marker (c : ascii) (p x y : string) :
  Str.has_char c p = false ->
  Str.includes (x +:+ String c y) (String c p)
  = Str.includes x (String c p) || Str.includes (String c y) (String c p).
Proof.
  intros Hp. induction x as [| d x IH].
  - rewrite sapp_nil_l, includes_nil. reflexivity.
  - rewrite sapp_cons, !includes_cons, IH.
    assert (Hsame : Str.startsWith (String c p) (String d (x +:+ String c y))
                    = Str.startsWith (String c p) (String d x)).
    { cbn [Str.startsWith]. destruct (Ascii.eqb c d); [| reflexivity].
      now apply startsWith_stop. }
    rewrite Hsame. destruct (Str.startsWith (String c p) (String d x)); reflexivity.
Qed.

Lemma includes_skip (c : ascii) (p x y : string) :
  Str.has_char c x = false ->
  Str.includes (x +:+ y) (String c p) = Str.includes y (String c p).
Proof.
  induction x as [| d x IH]; intros H; [reflexivity |].
  cbn [Str.has_char] in H. apply orb_false_elim in H as [Hd Hx].
  rewrite sapp_cons, includes_cons. cbn [Str.startsWith].
  rewrite Ascii.eqb_sym, Hd. now apply IH.
Qed.

(** Once every placeholder is replaced by a stamp, no placeholder is
    left. *)
Lemma replace_all_from_clears (t : string) (fuel : nat) :
  stamp_like t ->
  forall done s,
    (String.length s < fuel)%nat ->
    Str.includes (Str.replace_all_from fuel placeholder ("Last sync: " +:+ t) done s)
      placeholder = false.
Proof.
  intros (Hne & Hbracket & HL & Hdollar).
  assert (Hplain : Str.has_char "$" ("Last sync: " +:+ t) = false).
  { rewrite has_char_app, Hdollar. reflexivity. }
  unfold placeholder.
  induction fuel as [| f IH]; intros done s Hlen; [lia |].
  cbn [Str.replace_all_from].
  destruct (Str.split_at "Last sync: [AUTO-GENERATED]" s) as [[before after] |] eqn:Hsplit.
  2: { now apply split_at_none_includes. }
  rewrite (expand_replacement_none _ _ _ _ Hplain).
  apply split_at_shorter in Hsplit as Hshort.
  assert (Hrec : Str.includes
                   (Str.replace_all_from f "Last sync: [AUTO-GENERATED]" ("Last sync: " +:+ t)
                      (done +:+ before +:+ "Last sync: [AUTO-GENERATED]") after)
                   "Last sync: [AUTO-GENERATED]" = false).
  { apply IH. cbn [String.length] in Hshort. lia. }
  set (rec := Str.replace_all_from f "Last sync: [AUTO-GENERATED]" ("Last sync: " +:+ t)
                (done +:+ before +:+ "Last sync: [AUTO-GENERATED]") after) in *.
  change ("Last sync: " +:+ t) with (String "L" ("ast sync: " +:+ t)).
  rewrite sapp_cons.
  rewrite (includes_marker "L" "ast sync: [AUTO-GENERATED]" before _ eq_refl).
  rewrite (split_at_before_clean _ _ _ _ _ Hsplit). cbn [orb].
  rewrite includes_cons.
  assert (Hhead : Str.startsWith "Last sync: [AUTO-GENERATED]"
                    (String "L" (("ast sync: " +:+ t) +:+ rec)) = false).
  { destruct t as [| d t']; [now elim Hne |].
    cbn [Str.startsWith] in Hbracket.
    rewrite sapp_assoc.
    change (String "L" ("ast sync: " +:+ String d t' +:+ rec))
      with ("Last sync: " +:+ String d (t' +:+ rec)).
    change "Last sync: [AUTO-GENERATED]" with ("Last sync: " +:+ "[AUTO-GENERATED]").
    rewrite startsWith_common. cbn [Str.startsWith].
    destruct (Ascii.eqb "[" d); [discriminate Hbracket | reflexivity]. }
  rewrite Hhead.
  rewrite (includes_skip "L" _ ("ast sync: " +:+ t) rec); [exact Hrec |].
  rewrite has_char_app, HL. reflexivity.
Qed.

Lemma replace_all_absent (pat r s : string) :
  Str.includes s pat = false -> Str.replace_all pat r s = s.
Proof.
  intros H. unfold Str.replace_all. cbn [Str.replace_all_from].
  now rewrite (split_at_none _ _ H).
Qed.

Lemma updateTokensPages_generated (w : Sync.World) (tokens : Sync.Tokens) :
  writes_within generated_pages (Sync.updateTokensPages w tokens).
Proof.
  unfold Sync.updateTokensPages, Sync.generateColorsPage, Sync.generateSpacingPage,
    Sync.generateTypographyPage.
  frame.
Qed.

Lemma update_groups_generated (w : Sync.World)
    (groups : list (string * list Sync.Screenshot)) :
  writes_within generated_pages (Sync.update_groups w groups).
Proof.
  induction groups as [| [componentType images] groups IH]; cbn [Sync.update_groups].
  - apply within_ret.
  - destruct (_ || _); [exact IH |].
    apply within_bind; [| intros _; exact IH].
    unfold Sync.updateComponentPage. frame.
Qed.

Lemma updateComponentPages_generated (w : Sync.World) (screenshots : list Sync.Screenshot) :
  writes_within generated_pages (Sync.updateComponentPages w screenshots).
Proof.
  unfold Sync.updateComponentPages. frame.
  destruct (_ =? _)%nat; frame. apply update_groups_generated.
Qed.

(** What a run of the documentation updater leaves in the introduction. *)
Lemma updateDocumentation_introduction (w : Sync.World) (tokens : option Sync.Tokens)
    (screenshots : list Sync.Screenshot) (st : Sync.State) :
  exists st1,
    Sync.updateDocumentation w tokens screenshots st = (Ok tt, st1)
    /\ Sync.files st1 !! "introduction.mdx"
       = match Sync.files st !! "introduction.mdx" with
         | Some intro =>
             Some (if Sync.write_ok w "introduction.mdx" then
                     Str.replace_all placeholder
                       ("Last sync: " +:+ Sync.toLocaleString (Sync.clock w (Sync.ticks st)))
                       intro
                   else intro)
         | None => None
         end.
Proof.
  destruct (updateDocumentation_never_throws w tokens screenshots st) as ([] & st1 & Hrun).
  exists st1. split; [exact Hrun |].
  revert Hrun. unfold Sync.updateDocumentation. sync_step.
  destruct (Sync.files st !! "introduction.mdx") as [intro |] eqn:Hread; red_sync.
  2: { intros [= <-]. exact Hread. }
  destruct (Sync.write_ok w "introduction.mdx"); red_sync.
  2: { intros [= <-]. exact Hread. }
  set (sA := {| Sync.files := _; Sync.ticks := S (Sync.ticks st) |}).
  assert (HA : Sync.files sA !! "introduction.mdx"
               = Some (Str.replace_all placeholder
                         ("Last sync: "
                          +:+ Sync.toLocaleString (Sync.clock w (Sync.ticks st))) intro)).
  { unfold sA. cbn [Sync.files]. apply lookup_insert_eq. }
  assert (Hkeep : forall (A : Type) (m : M Sync.State A) s r s',
            writes_within generated_pages m -> m s = (r, s') ->
            Sync.files s' !! "introduction.mdx" = Sync.files s !! "introduction.mdx").
  { intros A m s r s' Hm Hms. destruct (Hm s r s' Hms) as [_ Hk]. now apply Hk. }
  assert (Htokens : exists r sB,
            match tokens with
            | Some t => Sync.updateTokensPages w t
            | None => fun s => (Ok tt, s)
            end sA = (r, sB)
            /\ Sync.files sB !! "introduction.mdx" = Sync.files sA !! "introduction.mdx").
  { destruct tokens as [t |].
    - destruct (Sync.updateTokensPages w t sA) as [r sB] eqn:Ht. exists r, sB.
      split; [reflexivity |]. exact (Hkeep _ _ _ _ _ (updateTokensPages_generated w t) Ht).
    - exists (Ok tt), sA. split; reflexivity. }
  destruct Htokens as (r & sB & -> & HB). rewrite HA in HB.
  destruct r as [[] | e]; red_sync.
  2: { intros [= <-]. exact HB. }
  assert (Hpages : exists r sC,
            (if (0 <? List.length screenshots)%nat
             then Sync.updateComponentPages w screenshots
             else fun s => (Ok tt, s)) sB = (r, sC)
            /\ Sync.files sC !! "introduction.mdx" = Sync.files sB !! "introduction.mdx").
  { destruct (0 <? List.length screenshots)%nat.
    - destruct (Sync.updateComponentPages w screenshots sB) as [r sC] eqn:Hp. exists r, sC.
      split; [reflexivity |].
      exact (Hkeep _ _ _ _ _ (updateComponentPages_generated w screenshots) Hp).
    - exists (Ok tt), sB. split; reflexivity. }
  destruct Hpages as (r & sC & -> & HC). rewrite HB in HC.
  destruct r as [[] | e]; red_sync; intros [= <-]; exact HC.
Qed.

(** X15: The last-sync line is set once.  The first run that can read and write
    the introduction replaces every placeholder by its stamp, which leaves no
    placeholder; so any later run of the updater, whatever its clock, tokens
    and screenshots, writes the introduction back as it found it, with the
    stamp of the first run. *)
Theorem introduction_is_stamped_once (w w' : Sync.World)
    (tokens tokens' : option Sync.Tokens) (screenshots screenshots' : list Sync.Screenshot)
    (st : Sync.State) (intro : string) :
  Sync.files st !! "introduction.mdx" = Some intro ->
  Sync.write_ok w "introduction.mdx" = true ->
  stamp_like (Sync.toLocaleString (Sync.clock w (Sync.ticks st))) ->
  exists st1 st2,
    Sync.updateDocumentation w tokens screenshots st = (Ok tt, st1)
    /\ Sync.updateDocumentation w' tokens' screenshots' st1 = (Ok tt, st2)
    /\ Sync.files st1 !! "introduction.mdx"
       = Some (Str.replace_all "Last sync: [AUTO-GENERATED]"
                 ("Last sync: " +:+ Sync.toLocaleString (Sync.clock w (Sync.ticks st)))
                 intro)
    /\ Sync.files st2 !! "introduction.mdx" = Sync.files st1 !! "introduction.mdx".
Proof.
  intros Hread Hw Hstamp.
  destruct (updateDocumentation_introduction w tokens screenshots st) as (st1 & Hrun1 & H1).
  destruct (updateDocumentation_introduction w' tokens' screenshots' st1)
    as (st2 & Hrun2 & H2).
  exists st1, st2. rewrite Hread, Hw in H1.
  split; [exact Hrun1 |]. split; [exact Hrun2 |]. split; [exact H1 |].
  rewrite H2, H1. f_equal.
  destruct (Sync.write_ok w' "introduction.mdx"); [| reflexivity].
  apply replace_all_absent. unfold Str.replace_all.
  apply (replace_all_from_clears _ _ Hstamp). lia.
Qed.

Lemma introduction_is_stamped_once_witness :
  exists st1 st2,
    Sync.updateDocumentation (Sample.world_ok Sample.clock) None [] Sample.state0 = (Ok tt, st1)
    /\ Sync.updateDocumentation (Sample.world_ok Sample.later_clock) None [] st1 = (Ok tt, st2)
    /\ Sync.files st2 !! "introduction.mdx"
       = Some ("# Introduction" +:+ nl +:+ nl +:+ "Last sync: 1/5/2026, 2:10:00 AM" +:+ nl).
Proof.
  destruct (introduction_is_stamped_once (Sample.world_ok Sample.clock)
              (Sample.world_ok Sample.later_clock) None None [] [] Sample.state0
              Sample.introduction)
    as (st1 & st2 & Hrun1 & Hrun2 & H1 & H2).
  - reflexivity.
  - reflexivity.
  - repeat split; try reflexivity. discriminate.
  - exists st1, st2. split; [exact Hrun1 |]. split; [exact Hrun2 |].
    rewrite H2, H1. vm_compute. reflexivity.
Defined.

(* ===================================================================== *)
(** * The webhook setup tool *)
(* ===================================================================== *)

Ltac run_setup :=
  unfold mbind, mret, M_bind, M_ret, bind, ret, throw, lift, try_catch,
    Setup.console_log, Setup.console_error, Setup.console_error_object,
    Setup.do_fetch in *.

Ltac red_setup :=
  cbn beta iota zeta delta [fst snd negb Setup.console Setup.requests] in *.

Ltac setup_step := run_setup; red_setup.

(** ** What each call sends *)

(** A deletion always returns, after exactly one DELETE request for the
    identifier, and gives true exactly when that request was answered in
    200..299. *)
Lemma deleteWebhook_run (w : Setup.World) (token : string) (webhookId : option string)
    (st : Setup.State) :
  exists b st',
    Setup.deleteWebhook w token webhookId st = (Ok b, st')
    /\ Setup.requests st' = Setup.requests st ++ [delete_request token webhookId]
    /\ (b = true
        <-> exists r, Setup.fetch w (delete_request token webhookId) = Setup.Responded r
                      /\ Setup.ok r = true).
Proof.
  unfold Setup.deleteWebhook. setup_step. fold (delete_request token webhookId).
  destruct (Setup.fetch w (delete_request token webhookId)) as [e | r]; red_setup.
  { eexists _, _. split; [reflexivity |]. split; [reflexivity |].
    split; [discriminate | intros (r & H & _); discriminate H]. }
  destruct (Setup.ok r) eqn:Hok; red_setup.
  - eexists _, _. split; [reflexivity |]. split; [reflexivity |].
    split; [intros _; exists r; auto | reflexivity].
  - eexists _, _. split; [reflexivity |]. split; [reflexivity |].
    split; [discriminate | intros (r' & [= <-] & H); congruence].
Qed.

Lemma delete_each_run (w : Setup.World) (token : string) (found : list (option string)) :
  forall st,
    exists st',
      Setup.delete_each w token found st = (Ok tt, st')
      /\ Setup.requests st' = Setup.requests st ++ map (delete_request token) found.
Proof.
  induction found as [| id found IH]; intros st; cbn [Setup.delete_each map].
  - exists st. rewrite app_nil_r. split; reflexivity.
  - unfold mbind, M_bind, bind.
    destruct (deleteWebhook_run w token id st) as (b & st1 & -> & Hreq & _).
    destruct (IH st1) as (st' & -> & Hreq').
    exists st'. split; [reflexivity |]. rewrite Hreq', Hreq, <- app_assoc. reflexivity.
Qed.

(** What the listing gives: the webhooks of the answer, none when the
    request fails, is refused, has no JSON body or a body without
    webhooks. *)
Lemma listWebhooks_run (w : Setup.World) (token teamId : string) (st : Setup.State) :
  exists found st',
    Setup.listWebhooks w token teamId st = (Ok found, st')
    /\ Setup.requests st' = Setup.requests st ++ [list_request token teamId]
    /\ (forall r data,
          Setup.fetch w (list_request token teamId) = Setup.Responded r ->
          Setup.ok r = true -> Setup.json r = Ok (Setup.Doc data) ->
          found = default [] (Setup.webhooks data)).
Proof.
  unfold Setup.listWebhooks. setup_step. fold (list_request token teamId).
  destruct (Setup.fetch w (list_request token teamId)) as [e | r]; red_setup.
  { eexists _, _. split; [reflexivity |]. split; [reflexivity |]. intros ? ? [=]. }
  destruct (Setup.ok r) eqn:Hok; red_setup.
  2: { destruct (Setup.text r);
         (eexists _, _; split; [reflexivity |]; split; [reflexivity |];
          intros ? ? [= <-]; congruence). }
  destruct (Setup.json r) as [[| data] | e] eqn:Hj; red_setup;
    cbn [Setup.get_webhooks];
    (eexists _, _; split; [reflexivity |]; split; [reflexivity |];
     intros r' data' [= <-] _ H; rewrite Hj in H; try discriminate H).
  injection H as <-. reflexivity.
Qed.

(** What the team information gives: the identifier of the first team of
    the answer. *)
Lemma getTeamInfo_run (w : Setup.World) (token : string) (st : Setup.State) :
  exists teamId st',
    Setup.getTeamInfo w token st = (Ok teamId, st')
    /\ Setup.requests st' = Setup.requests st ++ [me_request token]
    /\ (forall r data first rest,
          Setup.fetch w (me_request token) = Setup.Responded r ->
          Setup.ok r = true -> Setup.json r = Ok (Setup.Doc data) ->
          Setup.teams data = Some (first :: rest) ->
          Setup.team_of teamId = Js.truthy first).
Proof.
  unfold Setup.getTeamInfo. setup_step. fold (me_request token).
  destruct (Setup.fetch w (me_request token)) as [e | r]; red_setup.
  { eexists _, _. split; [reflexivity |]. split; [reflexivity |]. intros ? ? ? ? [=]. }
  destruct (Setup.ok r) eqn:Hok; red_setup.
  2: { eexists _, _. split; [reflexivity |]. split; [reflexivity |].
       intros ? ? ? ? [= <-]. congruence. }
  destruct (Setup.json r) as [[| data] | e] eqn:Hj; red_setup; cbn [Setup.get_teams].
  1, 3: eexists _, _; split; [reflexivity |]; split; [reflexivity |];
        intros r' data' ? ? [= <-] _ H; rewrite Hj in H; discriminate H.
  destruct (Setup.teams data) as [[| first rest] |] eqn:Ht; red_setup.
  1, 3: eexists _, _; split; [reflexivity |]; split; [reflexivity |];
        intros r' data' ? ? [= <-] _ H; rewrite Hj in H; injection H as <-; congruence.
  eexists _, _. split; [reflexivity |]. split; [reflexivity |].
  intros r' data' first' rest' [= <-] _ H. rewrite Hj in H. injection H as <-.
  rewrite Ht. intros [= <- <-].
  destruct first as [id |]; reflexivity.
Qed.

Lemma create_request_eq (w : Setup.World) (token endpoint fileKey : string) :
  {| Setup.url := "https://api.figma.com/v1/files/" +:+ fileKey +:+ "/webhooks";
     Setup.http_method := Some "POST";
     Setup.req_headers := Setup.headers token;
     Setup.http_body :=
       Js.stringify
         (JObj [("event_type", JStr "FILE_UPDATE");
                ("endpoint", JStr endpoint);
                ("passcode",
                 JStr (default "default-secret-123"
                         (Js.truthy (Setup.FIGMA_WEBHOOK_SECRET (Setup.env w)))))]) |}
  = create_request token endpoint fileKey
      (match Js.truthy (Setup.FIGMA_WEBHOOK_SECRET (Setup.env w)) with
       | Some secret => secret
       | None => "default-secret-123"
       end).
Proof.
  unfold create_request. f_equal.
  cbn [Js.stringify flat_map snd fst app Str.join]. f_equal.
  destruct (Js.truthy (Setup.FIGMA_WEBHOOK_SECRET (Setup.env w))); cbn [default];
    unfold id; rewrite !sapp_assoc; reflexivity.
Qed.

(** X16: The creation always returns, after exactly one POST to the file of the
    key, whose body carries the endpoint and, as passcode, the secret of the
    environment or, when that is unset or empty, the fixed text
    default-secret-123; it gives the body of the answer exactly when the
    request was answered in 200..299 with a JSON body, and null otherwise. *)
Theorem createWebhook_contract (w : Setup.World) (token endpoint fileKey : string)
    (st : Setup.State) :
  exists created st',
    Setup.createWebhook w token endpoint fileKey st = (Ok created, st')
    /\ Setup.requests st'
       = Setup.requests st
         ++ [create_request token endpoint fileKey
               (match Js.truthy (Setup.FIGMA_WEBHOOK_SECRET (Setup.env w)) with
                | Some secret => secret
                | None => "default-secret-123"
                end)]
    /\ forall data,
         created = Some data
         <-> exists r,
               Setup.fetch w
                 (create_request token endpoint fileKey
                    (match Js.truthy (Setup.FIGMA_WEBHOOK_SECRET (Setup.env w)) with
                     | Some secret => secret
                     | None => "default-secret-123"
                     end)) = Setup.Responded r
               /\ Setup.ok r = true /\ Setup.json r = Ok data.
Proof.
  unfold Setup.createWebhook. setup_step.
  set (passcode := match Js.truthy (Setup.FIGMA_WEBHOOK_SECRET (Setup.env w)) with
                   | Some secret => secret
                   | None => "default-secret-123"
                   end).
  rewrite (create_request_eq w token endpoint fileKey). fold passcode.
  destruct (Setup.fetch w (create_request token endpoint fileKey passcode)) as [e | r];
    red_setup.
  { eexists _, _. split; [reflexivity |]. split; [reflexivity |]. intros data.
    split; [discriminate | intros (r & H & _); discriminate H]. }
  destruct (Setup.ok r) eqn:Hok; red_setup.
  2: { destruct (Setup.text r);
         (eexists _, _; split; [reflexivity |]; split; [reflexivity |]; intros data;
          split; [discriminate | intros (r' & [= <-] & H & _); congruence]). }
  destruct (Setup.json r) as [data0 | e] eqn:Hj; red_setup.
  - eexists _, _. split; [reflexivity |]. split; [reflexivity |]. intros data. split.
    + intros [= <-]. exists r. auto.
    + intros (r' & [= <-] & _ & H). congruence.
  - eexists _, _. split; [reflexivity |]. split; [reflexivity |]. intros data.
    split; [discriminate | intros (r' & [= <-] & _ & H); congruence].
Qed.

(** ** The commands *)

Lemma is_case_true (w : Setup.World) (name : string) :
  Setup.is_case (nth_error (Setup.argv w) 0) name = true <-> command w = Some name.
Proof.
  unfold command, Setup.is_case. destruct (nth_error (Setup.argv w) 0) as [c |].
  - destruct (String.eqb_spec c name) as [-> | Hne]; split; auto; try discriminate.
    intros [= ->]. now elim Hne.
  - split; discriminate.
Qed.

Lemma createWebhook_run (w : Setup.World) (token endpoint fileKey : string)
    (st : Setup.State) :
  exists created st' passcode,
    Setup.createWebhook w token endpoint fileKey st = (Ok created, st')
    /\ Setup.requests st'
       = Setup.requests st ++ [create_request token endpoint fileKey passcode].
Proof.
  unfold Setup.createWebhook. setup_step.
  rewrite (create_request_eq w token endpoint fileKey).
  match goal with |- context [Setup.fetch w ?rq] => destruct (Setup.fetch w rq) as [e | r] end;
    red_setup.
  { eexists _, _, _. split; reflexivity. }
  destruct (Setup.ok r); red_setup.
  2: { destruct (Setup.text r); eexists _, _, _; split; reflexivity. }
  destruct (Setup.json r); red_setup; eexists _, _, _; split; reflexivity.
Qed.

(** What [main] sends and how it ends, command by command. *)
Lemma main_run (w : Setup.World) (token : string) (st : Setup.State) :
  exists code st' more,
    Setup.main w token st = (Ok code, st')
    /\ Setup.requests st' = Setup.requests st ++ more
    /\ (code = 0 \/ code = 1)%nat
    /\ (code = 1%nat
        <-> (command w = Some "create"
             /\ (argument w = None
                 \/ Js.truthy (Setup.FIGMA_FILE_KEY (Setup.env w)) = None))
            \/ (command w = Some "delete" /\ argument w = None))
    /\ (code = 1%nat -> more = [])
    /\ Forall (fits_command w token) more.
Proof.
  unfold Setup.main. cbv zeta.
  unfold mbind at 1 2, M_bind at 1 2, bind at 1 2, Setup.console_log at 1 2.
  red_setup.
  set (st0 := {| Setup.console := _; Setup.requests := Setup.requests st |}).
  assert (Hzero : forall name,
            command w = Some name -> name <> "create" -> name <> "delete" ->
            (0%nat = 1%nat
             <-> (command w = Some "create"
                  /\ (argument w = None
                      \/ Js.truthy (Setup.FIGMA_FILE_KEY (Setup.env w)) = None))
                 \/ (command w = Some "delete" /\ argument w = None))).
  { intros name Hc H1 H2. split; [discriminate |].
    intros [[H _] | [H _]]; rewrite Hc in H; injection H as ->; contradiction. }
  assert (Hget : forall rq,
            Setup.http_method rq = None ->
            Str.startsWith "https://api.figma.com/" (Setup.url rq) = true ->
            Setup.req_headers rq = Setup.headers token ->
            fits_command w token rq).
  { intros rq Hm Hu Hh. split; [exact Hu |]. split; [exact Hh |].
    rewrite Hm. split; discriminate. }
  destruct (Setup.is_case (nth_error (Setup.argv w) 0) "list") eqn:Hlist.
  { apply is_case_true in Hlist.
    unfold mbind, M_bind, bind.
    destruct (getTeamInfo_run w token st0) as (teamId & s1 & -> & Hr1 & _).
    destruct (Setup.team_of teamId) as [id |].
    - destruct (listWebhooks_run w token id s1) as (found & s2 & -> & Hr2 & _).
      exists 0%nat, s2, [me_request token; list_request token id].
      split; [reflexivity |]. split; [rewrite Hr2, Hr1, <- app_assoc; reflexivity |].
      split; [auto |]. split; [apply (Hzero _ Hlist); discriminate |].
      split; [discriminate |].
      constructor; [apply Hget; reflexivity |].
      constructor; [apply Hget; reflexivity | constructor].
    - exists 0%nat, s1, [me_request token].
      split; [reflexivity |]. split; [exact Hr1 |].
      split; [auto |]. split; [apply (Hzero _ Hlist); discriminate |].
      split; [discriminate |]. constructor; [apply Hget; reflexivity | constructor]. }
  destruct (Setup.is_case (nth_error (Setup.argv w) 0) "create") eqn:Hcreate.
  { apply is_case_true in Hcreate. unfold argument.
    destruct (Js.truthy (nth_error (Setup.argv w) 1)) as [endpoint |].
    2: { eexists 1%nat, _, []. split; [reflexivity |]. red_setup.
         split; [now rewrite app_nil_r |]. split; [auto |].
         split; [split; auto |]. split; [reflexivity | constructor]. }
    destruct (Js.truthy (Setup.FIGMA_FILE_KEY (Setup.env w))) as [fileKey |].
    2: { eexists 1%nat, _, []. split; [reflexivity |]. red_setup.
         split; [now rewrite app_nil_r |]. split; [auto |].
         split; [split; auto |]. split; [reflexivity | constructor]. }
    unfold mbind, M_bind, bind.
    destruct (createWebhook_run w token endpoint fileKey st0)
      as (created & s1 & passcode & -> & Hr1).
    exists 0%nat, s1, [create_request token endpoint fileKey passcode].
    split; [reflexivity |]. split; [exact Hr1 |].
    split; [auto |]. split.
    { split; [discriminate |].
      intros [[_ [H | H]] | [H _]]; [discriminate H | discriminate H |].
      rewrite Hcreate in H. discriminate H. }
    split; [discriminate |].
    constructor; [| constructor].
    split; [reflexivity |]. split; [reflexivity |]. split; [discriminate | auto]. }
  destruct (Setup.is_case (nth_error (Setup.argv w) 0) "delete") eqn:Hdelete.
  { apply is_case_true in Hdelete. unfold argument.
    destruct (Js.truthy (nth_error (Setup.argv w) 1)) as [webhookId |].
    2: { eexists 1%nat, _, []. split; [reflexivity |]. red_setup.
         split; [now rewrite app_nil_r |]. split; [auto |].
         split; [split; auto |]. split; [reflexivity | constructor]. }
    unfold mbind, M_bind, bind.
    destruct (deleteWebhook_run w token (Some webhookId) st0) as (b & s1 & -> & Hr1 & _).
    exists 0%nat, s1, [delete_request token (Some webhookId)].
    split; [reflexivity |]. split; [exact Hr1 |].
    split; [auto |]. split.
    { split; [discriminate |].
      intros [[H _] | [_ H]]; [| discriminate H].
      rewrite Hdelete in H. discriminate H. }
    split; [discriminate |].
    constructor; [| constructor].
    split; [reflexivity |]. split; [reflexivity |]. split; [auto | discriminate]. }
  destruct (Setup.is_case (nth_error (Setup.argv w) 0) "cleanup") eqn:Hcleanup.
  { apply is_case_true in Hcleanup.
    unfold mbind, M_bind, bind.
    destruct (getTeamInfo_run w token st0) as (teamId & s1 & -> & Hr1 & _).
    destruct (Setup.team_of teamId) as [id |].
    - destruct (listWebhooks_run w token id s1) as (found & s2 & -> & Hr2 & _).
      destruct (delete_each_run w token found s2) as (s3 & -> & Hr3).
      exists 0%nat, s3,
        (me_request token :: list_request token id :: map (delete_request token) found).
      split; [reflexivity |].
      split; [rewrite Hr3, Hr2, Hr1, <- !app_assoc; reflexivity |].
      split; [auto |]. split; [apply (Hzero _ Hcleanup); discriminate |].
      split; [discriminate |].
      constructor; [apply Hget; reflexivity |].
      constructor; [apply Hget; reflexivity |].
      apply List.Forall_forall. intros rq Hin. apply in_map_iff in Hin as (x & <- & _).
      split; [reflexivity |]. split; [reflexivity |]. split; [auto | discriminate].
    - exists 0%nat, s1, [me_request token].
      split; [reflexivity |]. split; [exact Hr1 |].
      split; [auto |]. split; [apply (Hzero _ Hcleanup); discriminate |].
      split; [discriminate |]. constructor; [apply Hget; reflexivity | constructor]. }
  unfold Setup.usage. setup_step. unfold st0.
  eexists 0%nat, _, []. split; [reflexivity |]. red_setup.
  split; [now rewrite app_nil_r |]. split; [auto |]. split.
  { split; [discriminate |].
    intros [[H _] | [H _]]; apply is_case_true in H; congruence. }
  split; [discriminate | constructor].
Qed.

(** X17: The exit code of the tool is 1 exactly on a usage error (no token;
    create without an endpoint or without a file key; delete without an
    identifier), and then it has sent nothing; a command that the design API
    refuses, or that fails on the network, still ends with 0. *)
Theorem setup_exit_code (w : Setup.World) (st : Setup.State) :
  exists code st',
    Setup.script w st = (Ok code, st')
    /\ (code = 0 \/ code = 1)%nat
    /\ (code = 1%nat <-> usage_error w)
    /\ (code = 1%nat -> Setup.requests st' = Setup.requests st).
Proof.
  unfold Setup.script, usage_error.
  destruct (Js.truthy (Setup.FIGMA_TOKEN (Setup.env w))) as [token |].
  2: { eexists _, _. split; [reflexivity |]. split; [auto |].
       split; [split; auto | reflexivity]. }
  unfold try_catch.
  destruct (main_run w token st) as (code & st' & more & -> & Hreq & Hcode & Hone & Hnone & _).
  exists code, st'. split; [reflexivity |]. split; [exact Hcode |]. split.
  - rewrite Hone. split; [auto |]. intros [H | H]; [discriminate H | exact H].
  - intros H. rewrite Hreq, (Hnone H). apply app_nil_r.
Qed.

(** X18: Whatever its arguments and the answers it gets, the tool only sends
    requests to the design API, with the token; it sends a DELETE only under
    the commands delete and cleanup, and a POST only under the command
    create. *)
Theorem setup_requests_fit_the_command (w : Setup.World) (st : Setup.State) :
  exists more,
    Setup.requests (snd (Setup.script w st)) = Setup.requests st ++ more
    /\ forall rq,
         In rq more ->
         Str.startsWith "https://api.figma.com/" (Setup.url rq) = true
         /\ Setup.FIGMA_TOKEN (Setup.env w)
            = Some (default "" (Dict.get "X-Figma-Token" (Setup.req_headers rq)))
         /\ (Setup.http_method rq = Some "DELETE" ->
             command w = Some "delete" \/ command w = Some "cleanup")
         /\ (Setup.http_method rq = Some "POST" -> command w = Some "create").
Proof.
  unfold Setup.script.
  destruct (Js.truthy (Setup.FIGMA_TOKEN (Setup.env w))) as [token |] eqn:Htoken.
  2: { exists []. rewrite app_nil_r. split; [reflexivity | intros rq []]. }
  unfold try_catch.
  destruct (main_run w token st) as (code & st' & more & -> & Hreq & _ & _ & _ & Hall).
  exists more. split; [exact Hreq |]. intros rq Hin.
  rewrite List.Forall_forall in Hall. destruct (Hall rq Hin) as (Hu & Hh & Hd & Hp).
  split; [exact Hu |]. split; [| split; assumption].
  rewrite Hh. cbn. apply truthy_some in Htoken as [-> _]. reflexivity.
Qed.

(** X19: The cleanup: once the first team of the user is known and its webhooks
    are listed, one DELETE request is sent for each webhook of the list, in
    the order of the list, whatever the answers to these requests are (a
    failed deletion does not stop the loop); the tool ends with 0. *)
Theorem cleanup_deletes_every_listed_webhook (w : Setup.World) (st : Setup.State)
    (token teamId : string) (me listing : Setup.Response) (user hooks : Setup.Document)
    (others : list (option string)) :
  Js.truthy (Setup.FIGMA_TOKEN (Setup.env w)) = Some token ->
  command w = Some "cleanup" ->
  Setup.fetch w (me_request token) = Setup.Responded me ->
  Setup.ok me = true -> Setup.json me = Ok (Setup.Doc user) ->
  Setup.teams user = Some (Some teamId :: others) -> teamId <> "" ->
  Setup.fetch w (list_request token teamId) = Setup.Responded listing ->
  Setup.ok listing = true -> Setup.json listing = Ok (Setup.Doc hooks) ->
  exists st',
    Setup.script w st = (Ok 0%nat, st')
    /\ Setup.requests st'
       = Setup.requests st
         ++ me_request token :: list_request token teamId
            :: map (delete_request token) (default [] (Setup.webhooks hooks)).
Proof.
  intros Htoken Hcmd Hme Hmeok Hmejson Hteams Hid Hlist Hlistok Hlistjson.
  unfold Setup.script. rewrite Htoken. unfold try_catch, Setup.main. cbv zeta.
  unfold mbind at 1 2, M_bind at 1 2, bind at 1 2, Setup.console_log at 1 2.
  red_setup.
  set (st0 := {| Setup.console := _; Setup.requests := Setup.requests st |}).
  unfold command in Hcmd. rewrite Hcmd. cbn [Setup.is_case String.eqb Ascii.eqb Bool.eqb].
  unfold mbind, M_bind, bind.
  destruct (getTeamInfo_run w token st0) as (found_id & s1 & -> & Hr1 & Hteam).
  rewrite (Hteam me user (Some teamId) others Hme Hmeok Hmejson Hteams).
  rewrite (proj2 (truthy_some (Some teamId) teamId) (conj eq_refl Hid)).
  destruct (listWebhooks_run w token teamId s1) as (found & s2 & -> & Hr2 & Hfound).
  rewrite (Hfound listing hooks Hlist Hlistok Hlistjson).
  destruct (delete_each_run w token (default [] (Setup.webhooks hooks)) s2)
    as (s3 & -> & Hr3).
  exists s3. split; [reflexivity |].
  rewrite Hr3, Hr2, Hr1, <- !app_assoc. reflexivity.
Qed.

Lemma cleanup_deletes_every_listed_webhook_witness :
  exists st',
    Setup.script (Cases.tool None ["cleanup"]) Cases.quiet = (Ok 0%nat, st')
    /\ map Setup.url (Setup.requests st')
       = ["https://api.figma.com/v1/me";
          "https://api.figma.com/v2/teams/T1/webhooks";
          "https://api.figma.com/v2/webhooks/101";
          "https://api.figma.com/v2/webhooks/102";
          "https://api.figma.com/v2/webhooks/103"].
Proof.
  destruct (cleanup_deletes_every_listed_webhook (Cases.tool None ["cleanup"]) Cases.quiet
              "figd_0123" "T1"
              {| Setup.status := 200; Setup.statusText := "";
                 Setup.text := Ok ""; Setup.json := Ok Cases.me_body |}
              {| Setup.status := 200; Setup.statusText := "";
                 Setup.text := Ok ""; Setup.json := Ok Cases.hooks_body |}
              {| Setup.printed := "{}"; Setup.teams := Some [Some "T1"; Some "T2"];
                 Setup.webhooks := None |}
              {| Setup.printed := "{}"; Setup.teams := None;
                 Setup.webhooks := Some [Some "101"; Some "102"; Some "103"] |}
              [Some "T2"])
    as (st' & Hrun & Hreq); try reflexivity.
  - discriminate.
  - exists st'. split; [exact Hrun |]. rewrite Hreq. reflexivity.
Defined.

(* ===================================================================== *)
(** * The token pages *)
(* ===================================================================== *)

(** X20: The token pages are written in the order colors, spacing, typography,
    each stamped with its own reading of the clock, and the writing stops at
    the first page the file system refuses: the pages before it are written,
    the refused page and the pages after it are not, and the error is
    raised to the caller. *)
Theorem updateTokensPages_stops_at_first_failure (w : Sync.World) (tokens : Sync.Tokens)
    (st : Sync.State) :
  exists r st',
    Sync.updateTokensPages w tokens st = (r, st')
    /\ Sync.writes st'
       = Sync.writes st
         ++ firstn (accepted w (token_pages w tokens (Sync.ticks st)))
                   (token_pages w tokens (Sync.ticks st))
    /\ (r = Ok tt <-> accepted w (token_pages w tokens (Sync.ticks st)) = 3%nat)
    /\ (forall p content,
          In (p, content) (firstn (accepted w (token_pages w tokens (Sync.ticks st)))
                                  (token_pages w tokens (Sync.ticks st))) ->
          Sync.files st' !! p = Some content)
    /\ (forall p,
          ~ In p (map fst (firstn (accepted w (token_pages w tokens (Sync.ticks st)))
                                  (token_pages w tokens (Sync.ticks st)))) ->
          Sync.files st' !! p = Sync.files st !! p).
Proof.
  unfold Sync.updateTokensPages, Sync.generateColorsPage, Sync.generateSpacingPage,
    Sync.generateTypographyPage, token_pages. sync_step. cbn [accepted].
  destruct (Sync.write_ok w "tokens/colors.mdx"); red_sync.
  2: { eexists _, _. split; [reflexivity |]. cbn [firstn]. rewrite app_nil_r.
       split; [reflexivity |]. split; [split; discriminate |].
       split; [intros p c [] | reflexivity]. }
  destruct (Sync.write_ok w "tokens/spacing.mdx"); red_sync.
  2: { eexists _, _. split; [reflexivity |]. cbn [firstn Sync.writes Sync.files].
       split; [reflexivity |]. split; [split; discriminate |]. split.
       - intros p c [[= <- <-] | []]. apply lookup_insert_eq.
       - intros p Hp. apply lookup_insert_ne. cbn in Hp. tauto. }
  destruct (Sync.write_ok w "tokens/typography.mdx"); red_sync.
  2: { eexists _, _. split; [reflexivity |]. cbn [firstn Sync.writes Sync.files].
       split; [now rewrite <- app_assoc |]. split; [split; discriminate |]. split.
       - intros p c [[= <- <-] | [[= <- <-] | []]].
         + rewrite lookup_insert_ne by discriminate. apply lookup_insert_eq.
         + apply lookup_insert_eq.
       - intros p Hp. cbn in Hp.
         rewrite !lookup_insert_ne by tauto. reflexivity. }
  eexists _, _. split; [reflexivity |]. cbn [firstn Sync.writes Sync.files].
  split; [now rewrite <- !app_assoc |]. split; [split; reflexivity |]. split.
  - intros p c [[= <- <-] | [[= <- <-] | [[= <- <-] | []]]].
    + rewrite !lookup_insert_ne by discriminate. apply lookup_insert_eq.
    + rewrite lookup_insert_ne by discriminate. apply lookup_insert_eq.
    + apply lookup_insert_eq.
  - intros p Hp. cbn in Hp.
    rewrite !lookup_insert_ne by tauto. reflexivity.
Qed.

Example spacing_page_refused :
  exists e st',
    Sync.updateTokensPages Cases.no_spacing_page
      (Sync.transformVariablesToTokens "2026-01-05T02:10:00.000Z" Sample.tokens_data)
      Sample.state0 = (Throw e, st')
    /\ map fst (Sync.writes st') = ["tokens/colors.mdx"].
Proof. eexists _, _. split; vm_compute; reflexivity. Qed.

(* ===================================================================== *)
(** * The setup tool: listing *)
(* ===================================================================== *)

Lemma getTeamInfo_first_team (w : Setup.World) (token : string) (st : Setup.State) :
  exists teamId st',
    Setup.getTeamInfo w token st = (Ok teamId, st')
    /\ Setup.requests st' = Setup.requests st ++ [me_request token]
    /\ Setup.team_of teamId = first_team w token.
Proof.
  unfold Setup.getTeamInfo, first_team. setup_step. fold (me_request token).
  destruct (Setup.fetch w (me_request token)) as [e | r]; red_setup.
  { eexists _, _. split; [reflexivity |]. split; reflexivity. }
  destruct (Setup.ok r); red_setup.
  2: { eexists _, _. split; [reflexivity |]. split; reflexivity. }
  destruct (Setup.json r) as [[| data] | e]; red_setup; cbn [Setup.get_teams].
  1, 3: eexists _, _; split; [reflexivity |]; split; reflexivity.
  destruct (Setup.teams data) as [[| first rest] |]; red_setup.
  1, 3: eexists _, _; split; [reflexivity |]; split; reflexivity.
  eexists _, _. split; [reflexivity |]. split; [reflexivity |].
  destruct first as [id |]; reflexivity.
Qed.

(** X21: The listing asks for the user information and then, when it names a
    first team, for the webhooks of that team and of no other; without a
    first team (request failed or refused, no JSON object, no team, or a
    first team without identifier) nothing is listed.  Either way the tool
    sends no other request and ends with 0. *)
Theorem list_asks_for_the_first_team (w : Setup.World) (st : Setup.State) (token : string) :
  Js.truthy (Setup.FIGMA_TOKEN (Setup.env w)) = Some token ->
  command w = Some "list" ->
  exists st',
    Setup.script w st = (Ok 0%nat, st')
    /\ Setup.requests st'
       = Setup.requests st
         ++ me_request token
            :: match first_team w token with
               | Some teamId => [list_request token teamId]
               | None => []
               end.
Proof.
  intros Htoken Hcmd.
  unfold Setup.script. rewrite Htoken. unfold try_catch, Setup.main. cbv zeta.
  unfold mbind at 1 2, M_bind at 1 2, bind at 1 2, Setup.console_log at 1 2.
  red_setup.
  set (st0 := {| Setup.console := _; Setup.requests := Setup.requests st |}).
  unfold command in Hcmd. rewrite Hcmd. cbn [Setup.is_case String.eqb Ascii.eqb Bool.eqb].
  unfold mbind, M_bind, bind.
  destruct (getTeamInfo_first_team w token st0) as (teamId & s1 & -> & Hr1 & ->).
  destruct (first_team w token) as [id |].
  - destruct (listWebhooks_run w token id s1) as (found & s2 & -> & Hr2 & _).
    exists s2. split; [reflexivity |]. rewrite Hr2, Hr1, <- app_assoc. reflexivity.
  - exists s1. split; [reflexivity | exact Hr1].
Qed.

Lemma list_asks_for_the_first_team_witness :
  exists st',
    Setup.script (Cases.tool None ["list"]) Cases.quiet = (Ok 0%nat, st')
    /\ map Setup.url (Setup.requests st')
       = ["https://api.figma.com/v1/me"; "https://api.figma.com/v2/teams/T1/webhooks"].
Proof.
  destruct (list_asks_for_the_first_team (Cases.tool None ["list"]) Cases.quiet "figd_0123")
    as (st' & Hrun & Hreq); try reflexivity.
  exists st'. split; [exact Hrun |]. rewrite Hreq. reflexivity.
Defined.

(* ===================================================================== *)
(** * The receiver: a request without a body *)
(* ===================================================================== *)

(** X22: A POST without a body is answered 500 and nothing is sent, whatever the
    secret, the signature header and the forge are: with a secret the
    serialization of the missing body cannot be digested, without one the
    event type of the missing body cannot be read. *)
Theorem handler_without_body (w : Webhook.World) (req : Webhook.Request)
    (st : Webhook.Effects) :
  Webhook.method req = "POST" ->
  Webhook.body req = JUndefined ->
  exists st',
    Webhook.handler w req st
    = (Ok {| Webhook.status := 500;
             Webhook.json := JObj [("error", JStr "Internal server error")] |}, st')
    /\ Webhook.sent st' = Webhook.sent st.
Proof.
  intros Hm Hb. unfold Webhook.handler. rewrite Hm, Hb. cbn [String.eqb Ascii.eqb Bool.eqb negb].
  destruct (Js.truthy (Webhook.FIGMA_WEBHOOK_SECRET (Webhook.env w)));
    run_monad; cbn; eexists; split; reflexivity.
Qed.

Lemma handler_without_body_witness :
  exists st',
    Webhook.handler Cases.open_receiver
      {| Webhook.method := "POST"; Webhook.body := JUndefined; Webhook.headers := [] |}
      Webhook.no_effects
    = (Ok {| Webhook.status := 500;
             Webhook.json := JObj [("error", JStr "Internal server error")] |}, st')
    /\ Webhook.sent st' = [].
Proof.
  apply (handler_without_body Cases.open_receiver
           {| Webhook.method := "POST"; Webhook.body := JUndefined; Webhook.headers := [] |}
           Webhook.no_effects); reflexivity.
Defined.

(* ===================================================================== *)
(** * Component pages: each page on its own *)
(* ===================================================================== *)

(** One page: the other files stay, and a page that can be read and written
    gets its new text, stamped with a reading of the clock. *)
Lemma updateComponentPage_effect (w : Sync.World) (componentType : string)
    (images : list Sync.Screenshot) (st : Sync.State) :
  exists st',
    Sync.updateComponentPage w componentType images st = (Ok tt, st')
    /\ (Sync.ticks st <= Sync.ticks st')%nat
    /\ (forall p, p <> page_of componentType -> Sync.files st' !! p = Sync.files st !! p)
    /\ (forall content,
          Sync.files st !! page_of componentType = Some content ->
          Sync.write_ok w (page_of componentType) = true ->
          Sync.ticks st' = S (Sync.ticks st)
          /\ Sync.files st' !! page_of componentType
             = Some (Sync.remove_warnings
                       (Sync.replace_section
                          (Sync.section_replacement
                             (Sync.toLocaleString (Sync.clock w (Sync.ticks st)))
                             (Str.join nl (map Sync.screenshot_entry images)))
                          content))).
Proof.
  unfold Sync.updateComponentPage, page_of. sync_step.
  destruct (Sync.files st !! ("components/" +:+ componentType +:+ ".mdx"))
    as [content |] eqn:Hread; red_sync.
  2: { eexists. split; [reflexivity |]. red_sync. split; [lia |].
       split; [reflexivity | intros c H; discriminate H]. }
  destruct (Sync.write_ok w ("components/" +:+ componentType +:+ ".mdx")) eqn:Hw; red_sync.
  2: { eexists. split; [reflexivity |]. red_sync. split; [lia |].
       split; [reflexivity | intros c _ H; discriminate H]. }
  eexists. split; [reflexivity |]. red_sync. split; [lia |]. split.
  - intros p Hp. apply lookup_insert_ne. congruence.
  - intros c [= <-] _. split; [reflexivity | apply lookup_insert_eq].
Qed.

Lemma page_of_injective (a b : string) : page_of a = page_of b -> a = b.
Proof.
  unfold page_of. intros H.
  assert (Hdrop : a +:+ ".mdx" = b +:+ ".mdx").
  { apply (f_equal (Str.drop 11)) in H. exact H. }
  clear H. revert b Hdrop. induction a as [| c a IH]; intros [| d b] H.
  - reflexivity.
  - rewrite sapp_nil_l, sapp_cons in H. injection H as <- H.
    destruct b as [| ? [| ? [| ? [| ? b]]]]; discriminate H.
  - rewrite sapp_nil_l, sapp_cons in H. injection H as <- H.
    destruct a as [| ? [| ? [| ? [| ? a]]]]; discriminate H.
  - rewrite !sapp_cons in H. injection H as <- H. f_equal. now apply IH.
Qed.

(** The pages of the other groups are left alone. *)
Lemma update_groups_keeps (w : Sync.World) (groups : list (string * list Sync.Screenshot))
    (componentType : string) :
  ~ In componentType (map fst groups) ->
  forall st,
    exists st',
      Sync.update_groups w groups st = (Ok tt, st')
      /\ (Sync.ticks st <= Sync.ticks st')%nat
      /\ Sync.files st' !! page_of componentType = Sync.files st !! page_of componentType.
Proof.
  induction groups as [| [t images] groups IH]; intros Hnot st; cbn [Sync.update_groups].
  - exists st. split; [reflexivity |]. split; [lia | reflexivity].
  - cbn [map fst In] in Hnot.
    assert (Hrest : ~ In componentType (map fst groups)) by tauto.
    destruct (_ || _); [exact (IH Hrest st) |].
    unfold mbind, M_bind, bind.
    destruct (updateComponentPage_effect w t images st) as (s1 & -> & Ht1 & Hk1 & _).
    destruct (IH Hrest s1) as (st' & -> & Ht & Hk).
    exists st'. split; [reflexivity |]. split; [lia |].
    rewrite Hk. apply Hk1. intros Heq. apply page_of_injective in Heq. subst t. tauto.
Qed.

Lemma update_groups_ready (w : Sync.World) (groups : list (string * list Sync.Screenshot))
    (componentType content : string) (images : list Sync.Screenshot) :
  List.NoDup (map fst groups) ->
  In (componentType, images) groups ->
  componentType <> "other" -> images <> [] ->
  Sync.write_ok w (page_of componentType) = true ->
  forall st,
    Sync.files st !! page_of componentType = Some content ->
    exists st' n,
      Sync.update_groups w groups st = (Ok tt, st')
      /\ (Sync.ticks st <= n < Sync.ticks st')%nat
      /\ Sync.files st' !! page_of componentType
         = Some (Sync.remove_warnings
                   (Sync.replace_section
                      (Sync.section_replacement
                         (Sync.toLocaleString (Sync.clock w n))
                         (Str.join nl (map Sync.screenshot_entry images)))
                      content)).
Proof.
  intros Hnd Hin Hother Hne Hw.
  induction groups as [| [t imgs] groups IH]; intros st Hread; [destruct Hin |].
  cbn [map fst] in Hnd. inversion Hnd as [| ? ? Hfresh Hnd']; subst.
  cbn [Sync.update_groups]. destruct Hin as [[= -> ->] | Hin].
  - assert (Hgo : String.eqb componentType "other" || (List.length images =? 0)%nat = false).
    { apply orb_false_intro; [now apply String.eqb_neq |].
      destruct images; [now elim Hne | reflexivity]. }
    rewrite Hgo. unfold mbind, M_bind, bind.
    destruct (updateComponentPage_effect w componentType images st)
      as (s1 & -> & _ & _ & Hdone).
    destruct (Hdone content Hread Hw) as [Htick Hfile].
    destruct (update_groups_keeps w groups componentType Hfresh s1) as (st' & -> & Ht & Hk).
    exists st', (Sync.ticks st). split; [reflexivity |]. split; [lia |].
    rewrite Hk. exact Hfile.
  - assert (Hdiff : t <> componentType).
    { intros ->. apply Hfresh. apply in_map_iff. exists (componentType, images). auto. }
    destruct (_ || _).
    { exact (IH Hnd' Hin st Hread). }
    unfold mbind, M_bind, bind.
    destruct (updateComponentPage_effect w t imgs st) as (s1 & -> & Ht1 & Hk1 & _).
    assert (Hread1 : Sync.files s1 !! page_of componentType = Some content).
    { rewrite Hk1; [exact Hread |]. intros Heq. apply page_of_injective in Heq. congruence. }
    destruct (IH Hnd' Hin s1 Hread1) as (st' & n & -> & Hn & Hfile).
    exists st', n. split; [reflexivity |]. split; [lia | exact Hfile].
Qed.

(** X23: Each page is treated on its own: a page of alerts, forms or cards whose
    group has a screenshot and that can be read and written gets its group's
    screenshots, stamped with one of the clock readings of the run, whatever
    happens to the other pages (missing, unreadable or refused). *)
Theorem updateComponentPages_updates_each_ready_page (w : Sync.World)
    (screenshots : list Sync.Screenshot) (st : Sync.State) (componentType content : string) :
  In componentType ["alerts"; "forms"; "cards"] ->
  group_of componentType screenshots <> [] ->
  Sync.files st !! ("components/" +:+ componentType +:+ ".mdx") = Some content ->
  Sync.write_ok w ("components/" +:+ componentType +:+ ".mdx") = true ->
  exists st' n,
    Sync.updateComponentPages w screenshots st = (Ok tt, st')
    /\ (Sync.ticks st <= n < Sync.ticks st')%nat
    /\ Sync.files st' !! ("components/" +:+ componentType +:+ ".mdx")
       = Some (Sync.remove_warnings
                 (Sync.replace_section
                    (Sync.section_replacement
                       (Sync.toLocaleString (Sync.clock w n))
                       (Str.join nl (map Sync.screenshot_entry
                                       (group_of componentType screenshots))))
                    content)).
Proof.
  intros Hname Hne Hread Hw. unfold Sync.updateComponentPages. sync_step.
  destruct screenshots as [| shot rest].
  { exfalso. apply Hne. cbn [In] in Hname.
    destruct Hname as [<- | [<- | [<- | []]]]; reflexivity. }
  cbn [List.length Nat.eqb].
  set (st0 := {| Sync.files := Sync.files st; Sync.ticks := Sync.ticks st |}).
  assert (Hin : In (componentType, group_of componentType (shot :: rest))
                   (Sync.componentGroups (shot :: rest))).
  { unfold group_of, Sync.componentGroups. cbn [In] in Hname |- *.
    destruct Hname as [<- | [<- | [<- | []]]]; cbn; auto. }
  assert (Hother : componentType <> "other").
  { cbn [In] in Hname. destruct Hname as [<- | [<- | [<- | []]]]; discriminate. }
  assert (Hnd : List.NoDup (map fst (Sync.componentGroups (shot :: rest)))).
  { cbn. repeat constructor; cbn; intuition discriminate. }
  destruct (update_groups_ready w _ componentType content _ Hnd Hin Hother Hne Hw st0 Hread)
    as (st' & n & Hrun & Hn & Hfile).
  exists st', n. split; [exact Hrun |]. split; [exact Hn | exact Hfile].
Qed.

Lemma updateComponentPages_updates_each_ready_page_witness :
  exists st' n,
    Sync.updateComponentPages Sample.world
      [Sync.screenshot_record Sample.cfg "alert:1"; Sync.screenshot_record Sample.cfg "card:7"]
      Cases.with_cards = (Ok tt, st')
    /\ (0 <= n < Sync.ticks st')%nat
    /\ Sync.files st' !! "components/cards.mdx"
       = Some (Sync.remove_warnings
                 (Sync.replace_section
                    (Sync.section_replacement
                       (Sync.toLocaleString (Sample.clock n))
                       (Str.join nl (map Sync.screenshot_entry
                                       [Sync.screenshot_record Sample.cfg "card:7"])))
                    Cases.cards_page)).
Proof.
  apply (updateComponentPages_updates_each_ready_page Sample.world
           [Sync.screenshot_record Sample.cfg "alert:1";
            Sync.screenshot_record Sample.cfg "card:7"]
           Cases.with_cards "cards" Cases.cards_page).
  - cbn. auto.
  - vm_compute. discriminate.
  - reflexivity.
  - reflexivity.
Defined.

(* ===================================================================== *)
(** * The form of an accepted signature *)
(* ===================================================================== *)

Lemma all_hex_shape (n : nat) (s : string) :
  In s (all_hex n) ->
  String.length s = n
  /\ forall c, Str.has_char c s = true -> In c Sha256.hex_digits.
Proof.
  revert s. induction n as [| n IH]; intros s Hin.
  - cbn in Hin. destruct Hin as [<- | []]. split; [reflexivity | intros c H; discriminate H].
  - cbn [all_hex] in Hin. apply in_flat_map in Hin as (d & Hd & Hin).
    apply in_map_iff in Hin as (r & <- & Hr). destruct (IH r Hr) as [Hlen Hchars].
    split; [cbn; now rewrite Hlen |].
    intros c Hc. cbn [Str.has_char] in Hc. apply orb_true_iff in Hc as [Hc | Hc].
    + apply Ascii.eqb_eq in Hc. now subst c.
    + now apply Hchars.
Qed.

(** X24: An accepted signature is a text of 64 hexadecimal digits in lower case:
    the verifier compares with the digest as [digest('hex')] prints it, so
    the same digest in upper case, or with a prefix, is rejected. *)
Theorem verifyFigmaWebhook_accepts_only_hex_digests (payload signature secret : string) :
  Webhook.verifyFigmaWebhook (Some payload) (Some signature) secret = Ok true ->
  String.length signature = 64%nat
  /\ forall c, Str.has_char c signature = true ->
               Str.has_char c "0123456789abcdef" = true.
Proof.
  rewrite verifyFigmaWebhook_eq. intros [= Heq]. apply String.eqb_eq in Heq. subst signature.
  destruct (all_hex_shape 64 _ (hex_in_all_hex
              (Sha256.hmac (Sha256.bytes_of_string secret) (Sha256.bytes_of_string payload))))
    as [Hlen Hchars].
  split; [exact Hlen |]. intros c Hc. specialize (Hchars c Hc).
  unfold Sha256.hex_digits in Hchars. cbn [In] in Hchars.
  repeat (destruct Hchars as [<- | Hchars]; [reflexivity |]). destruct Hchars.
Qed.

Lemma verifyFigmaWebhook_accepts_only_hex_digests_witness :
  String.length (hmac_sha256_hex "{}" "s3cret") = 64%nat.
Proof.
  apply (verifyFigmaWebhook_accepts_only_hex_digests "{}"
           (hmac_sha256_hex "{}" "s3cret") "s3cret").
  rewrite verifyFigmaWebhook_eq, String.eqb_refl. reflexivity.
Defined.

(* ===================================================================== *)
(** * What the receiver forwards *)
(* ===================================================================== *)

Lemma stringify_obj (props : list (string * jsval)) :
  Js.stringify (JObj props)
  = Some ("{" +:+ Str.join ","
            (flat_map (fun kv => match Js.stringify (snd kv) with
                                 | Some t => [Js.quote (fst kv) +:+ ":" +:+ t]
                                 | None => []
                                 end) props) +:+ "}").
Proof. reflexivity. Qed.

Lemma stringify_present (props : list (string * jsval)) :
  Js.stringify (JObj props) = Js.stringify (JObj (present props)).
Proof.
  cbn [Js.stringify]. do 4 f_equal.
  induction props as [| [k v] props IH]; [reflexivity |].
  cbn [present List.filter flat_map snd fst]. fold (present props).
  destruct v; cbn [flat_map snd fst Js.stringify app]; rewrite ?IH; reflexivity.
Qed.

(** X25: What is forwarded for an event that is an object: one POST with the
    token in the Authorization header, whose JSON body names the event type
    figma-update and carries as client payload the event's own event_type,
    file_name, file_key and triggered_by, each left out when the event has
    none, and the reading of the receiver's clock. *)
Theorem dispatch_request_content (w : Webhook.World) (props : list (string * jsval))
    (st : Webhook.Effects) (token repository : string) :
  forge_configured w token repository ->
  exists rq,
    Webhook.sent (snd (Webhook.triggerGitHubAction w (JObj props) st))
    = Webhook.sent st ++ [rq]
    /\ Webhook.http_method rq = "POST"
    /\ Webhook.http_headers rq
       = [("Authorization", "token " +:+ token);
          ("Accept", "application/vnd.github.v3+json");
          ("Content-Type", "application/json")]
    /\ Webhook.http_body rq
       = Js.stringify
           (JObj [("event_type", JStr "figma-update");
                  ("client_payload", JObj (forwarded props (Webhook.now_iso w)))]).
Proof.
  intros [Ht Hr]. unfold Webhook.triggerGitHubAction. rewrite Ht, Hr.
  run_monad. cbn [Js.get].
  match goal with |- context [Webhook.fetch w ?r] => exists r end.
  split.
  { destruct (Webhook.fetch w _) as [e | code text]; [reflexivity |].
    cbn [fst snd]. destruct (Webhook.ok code); reflexivity. }
  split; [reflexivity |]. split; [reflexivity |].
  cbn [Webhook.http_body]. unfold forwarded.
  set (fields := [("event_type", Js.lookup_prop "event_type" props);
                  ("file_name", Js.lookup_prop "file_name" props);
                  ("file_key", Js.lookup_prop "file_key" props);
                  ("timestamp", JStr (Webhook.now_iso w));
                  ("triggered_by", Js.lookup_prop "triggered_by" props)]).
  rewrite !(stringify_obj [_; _]). cbn [flat_map snd fst].
  now rewrite (stringify_present fields).
Qed.

Lemma dispatch_request_content_witness :
  exists rq,
    Webhook.sent (snd (Webhook.triggerGitHubAction Sample.forge_up Sample.file_comment
                         Webhook.no_effects)) = [rq]
    /\ Webhook.header "Authorization" (Webhook.http_headers rq) = Some "token ghp_0123"
    /\ Webhook.http_body rq
       = Js.stringify
           (JObj [("event_type", JStr "figma-update");
                  ("client_payload",
                   JObj [("event_type", JStr "FILE_COMMENT");
                         ("file_key", JStr "AbC123");
                         ("timestamp", JStr "2026-01-05T02:00:00.000Z")])]).
Proof.
  destruct (dispatch_request_content Sample.forge_up
              [("event_type", JStr "FILE_COMMENT"); ("file_key", JStr "AbC123")]
              Webhook.no_effects "ghp_0123" "hellojulian/documentation")
    as (rq & Hsent & _ & Hheaders & Hbody).
  - split; reflexivity.
  - exists rq. split; [exact Hsent |]. split; [now rewrite Hheaders | exact Hbody].
Defined.


(* ===================================================================== *)
(** * A run that fetched nothing *)
(* ===================================================================== *)

(** X26: A run in which no request gets a response (both fetchers fail) still
    ends with 0 and still stamps the introduction: the last-sync line gets
    the time of a run that synced nothing.  The introduction is the only file
    written. *)
Theorem failed_sync_still_stamps_introduction (w : Sync.World) (cfg : Sync.Config)
    (st : Sync.State) (intro : string) :
  directories_ok w ->
  (forall rq, exists e, Sync.fetch w rq = Sync.NetworkError e) ->
  Sync.files st !! "introduction.mdx" = Some intro ->
  Sync.write_ok w "introduction.mdx" = true ->
  exists st',
    Sync.main w cfg st = (Ok 0%nat, st')
    /\ Sync.writes st'
       = Sync.writes st
         ++ [("introduction.mdx",
              Str.replace_all "Last sync: [AUTO-GENERATED]"
                ("Last sync: " +:+ Sync.toLocaleString (Sync.clock w (Sync.ticks st)))
                intro)]
    /\ Sync.files st'
       = <["introduction.mdx" :=
             Str.replace_all "Last sync: [AUTO-GENERATED]"
               ("Last sync: " +:+ Sync.toLocaleString (Sync.clock w (Sync.ticks st)))
               intro]> (Sync.files st).
Proof.
  intros (Hd1 & Hd2 & Hd3) Hdown Hread Hw.
  unfold Sync.main, Sync.fetchDesignTokens, Sync.fetchScreenshots, Sync.updateDocumentation.
  sync_step. rewrite Hd1, Hd2, Hd3. red_sync.
  destruct (Hdown (Sync.tokens_request cfg)) as [e1 ->]. red_sync.
  destruct (Sync.FIGMA_NODE_IDS cfg) as [ids |].
  - destruct (List.length (Str.split_on "," ids) =? 0)%nat eqn:Hlen.
    { apply Nat.eqb_eq, length_zero_iff_nil in Hlen. now apply split_on_not_nil in Hlen. }
    destruct (Hdown (Sync.images_request cfg (Str.split_on "," ids))) as [e2 ->]. red_sync.
    rewrite Hread. red_sync. rewrite Hw. red_sync.
    eexists. split; [reflexivity |]. split; reflexivity.
  - cbn [List.length Nat.eqb]. red_sync.
    rewrite Hread. red_sync. rewrite Hw. red_sync.
    eexists. split; [reflexivity |]. split; reflexivity.
Qed.

Lemma failed_sync_still_stamps_introduction_witness :
  exists st',
    Sync.main Cases.offline Sample.cfg Sample.state0 = (Ok 0%nat, st')
    /\ Sync.files st' !! "introduction.mdx"
       = Some ("# Introduction" +:+ nl +:+ nl +:+ "Last sync: 1/5/2026, 2:10:00 AM" +:+ nl).
Proof.
  destruct (failed_sync_still_stamps_introduction Cases.offline Sample.cfg Sample.state0
              Sample.introduction)
    as (st' & Hrun & _ & Hfiles).
  - repeat split.
  - intros rq. exists "fetch failed". reflexivity.
  - reflexivity.
  - reflexivity.
  - exists st'. split; [exact Hrun |]. rewrite Hfiles, lookup_insert_eq.
    vm_compute. reflexivity.
Defined.
